(** * Sarcasm detection with a BERT + RoBERTa ensemble: a model of [main.ipynb]

    The notebook is a straight-line Python script.  It tokenizes a CSV of
    comments for two encoders, splits the rows into train and test, builds a
    Keras functional graph with two encoder branches, a concatenation and a
    dense head, fine-tunes it, taps the concatenation as an embedding
    extractor, fits an sklearn MLP on the extracted embeddings and finally
    defines [predict_sarcasm] for the demo.

    What the script computes itself is embedded as it is written.  What it
    delegates to libraries (the pretrained encoders, the tokenizer
    vocabularies, the random permutation, a gradient step) enters as Section
    variables; the library control flow the script configures (padding and
    truncation, the shuffle split, the Keras callbacks and fit loop, the MLP
    iteration cap) is written out after the behaviour of the library versions
    the imports select (tf.keras 2.x, scikit-learn, transformers). *)

From Stdlib Require Import ZArith QArith Qround Qminmax Reals Psatz.
From stdpp Require Import base gmap strings list sorting fin_maps.

Open Scope Z_scope.

(** ** Python exceptions and the result monad *)

Inductive exn : Type :=
  | NameError (name : string)
  | ValueError (msg : string)
  | TypeError (msg : string)
  | IndexError (index : nat)
  | NotFittedError.

Inductive result (A : Type) : Type :=
  | Ok (a : A)
  | Raise (e : exn).
Arguments Ok {A} a.
Arguments Raise {A} e.

#[global] Instance result_bind : MBind result := λ A B k r,
  match r with
  | Ok a => k a
  | Raise e => Raise e
  end.

Definition raises {A} (r : result A) : Prop := ∃ e, r = Raise e.

Definition returns {A} (r : result A) : Prop :=
  match r with
  | Ok _ => True
  | Raise _ => False
  end.

Fixpoint traverse {A B} (f : A → result B) (l : list A) : result (list B) :=
  match l with
  | [] => Ok []
  | a :: l' => b ← f a ; bs ← traverse f l' ; Ok (b :: bs)
  end.

(** ** Section 3 of the notebook: [train_test_split] *)

Module Split.

(** [test_size=0.2, random_state=42], as passed on line 43. *)
Definition test_size : Q := 2 # 10.
Definition random_state : nat := 42.

(** sklearn's [_validate_shuffle_split] for a float [test_size] and no
    [train_size]: [n_test = ceil(test_size * n_samples)],
    [n_train = n_samples - n_test], and an empty train set is an error. *)
Definition n_test_of (n_samples : nat) : nat :=
  Z.to_nat (Qceiling (test_size * inject_Z (Z.of_nat n_samples))).

Definition validate_shuffle_split (n_samples : nat) : result (nat * nat) :=
  let n_test := n_test_of n_samples in
  let n_train := (n_samples - n_test)%nat in
  if decide (n_train = 0%nat)
  then Raise (ValueError "the resulting train set will be empty")
  else Ok (n_train, n_test).

(** [_safe_indexing(a, indices)]: fancy indexing by a list of row numbers. *)
Definition safe_indexing {A} (a : list A) (indices : list nat) : result (list A) :=
  traverse (λ i, match a !! i with Some x => Ok x | None => Raise (IndexError i) end)
           indices.

(** [part] holds, position by position, the rows of [a] that [ind] names. *)
Definition rows_from {A} (a part : list A) (ind : list nat) : Prop :=
  length part = length ind ∧
  ∀ j i, ind !! j = Some i → is_Some (a !! i) ∧ part !! j = a !! i.

Section WithRandomState.

(** [RandomState(seed).permutation(n)]. *)
Variable permutation : nat → nat → list nat.

(** [ShuffleSplit._iter_indices], first (and only) split. *)
Definition shuffle_split (n_samples : nat) : result (list nat * list nat) :=
  '(n_train, n_test) ← validate_shuffle_split n_samples ;
  let p := permutation random_state n_samples in
  let ind_test := take n_test p in
  let ind_train := take n_train (drop n_test p) in
  Ok (ind_train, ind_test).

(** [indexable] checks that all arrays have one length. *)
Definition check_consistent_length (lens : list nat) : result nat :=
  match lens with
  | [] => Raise (ValueError "At least one array required as input")
  | n :: rest =>
      if decide (Forall (λ m, m = n) rest) then Ok n
      else Raise (ValueError "Found input variables with inconsistent numbers of samples")
  end.

(** The call of lines 38-44: five arrays, one call, one pair of index
    lists applied to each array in turn. *)
Definition train_test_split {A B C D E}
    (a1 : list A) (a2 : list B) (a3 : list C) (a4 : list D) (a5 : list E)
  : result (list A * list A * (list B * list B) * (list C * list C)
            * (list D * list D) * (list E * list E)) :=
  n ← check_consistent_length
         [length a1; length a2; length a3; length a4; length a5] ;
  '(train, test) ← shuffle_split n ;
  a1_train ← safe_indexing a1 train ; a1_test ← safe_indexing a1 test ;
  a2_train ← safe_indexing a2 train ; a2_test ← safe_indexing a2 test ;
  a3_train ← safe_indexing a3 train ; a3_test ← safe_indexing a3 test ;
  a4_train ← safe_indexing a4 train ; a4_test ← safe_indexing a4 test ;
  a5_train ← safe_indexing a5 train ; a5_test ← safe_indexing a5 test ;
  Ok (a1_train, a1_test, (a2_train, a2_test), (a3_train, a3_test),
      (a4_train, a4_test), (a5_train, a5_test)).

End WithRandomState.

End Split.

(** ** Section 2 of the notebook: tokenization *)

Module Tokenize.

(** What a pretrained tokenizer contributes: its special token ids and
    its vocabulary lookup, which maps a text to the ids of its word
    pieces (without special tokens). *)
Record tokenizer : Type := {
  cls_token_id : Z;
  sep_token_id : Z;
  pad_token_id : Z;
  tokenize : string → list Z
}.

Record encodings : Type := {
  input_ids : list (list Z);
  attention_mask : list (list Z)
}.

(** One text under [truncation=True, padding='max_length',
    max_length=max_len]: the word pieces are cut so that the two special
    tokens still fit, then the row is padded on the right; the mask is 1
    on real tokens and 0 on padding. *)
Definition encode_plus (tok : tokenizer) (max_len : nat) (text : string)
  : list Z * list Z :=
  let pieces := take (max_len - 2) (tokenize tok text) in
  let real := cls_token_id tok :: pieces ++ [sep_token_id tok] in
  let n_pad := (max_len - length real)%nat in
  (real ++ replicate n_pad (pad_token_id tok),
   replicate (length real) 1 ++ replicate n_pad 0).

(** [tokenizer(texts, ..., return_tensors='np')]: one row per text. *)
Definition call (tok : tokenizer) (texts : list string) (max_len : nat) : encodings :=
  let rows := map (encode_plus tok max_len) texts in
  {| input_ids := map fst rows; attention_mask := map snd rows |}.

(** Lines 27-29. *)
Definition tokenize_for_model (tok : tokenizer) (texts : list string) (max_len : nat)
  : list (list Z) * list (list Z) :=
  let encodings := call tok texts max_len in
  (input_ids encodings, attention_mask encodings).

End Tokenize.

(** [np.array(a, dtype=np.int32)] on an integer array: every entry is
    reduced to 32 bits, two's complement. *)
Definition to_int32 (z : Z) : Z := (z + 2 ^ 31) mod 2 ^ 32 - 2 ^ 31.
Definition astype_int32 (a : list (list Z)) : list (list Z) := map (map to_int32) a.

(** ** The pretrained encoders *)

Record encoder_output : Type := {
  last_hidden_state : list (list (list R));   (* batch x tokens x hidden *)
  pooler_output : list (list R)               (* batch x hidden *)
}.

(** The interface the script uses of the [transformers] package: vocabulary
    lookups of the two tokenizers, the pretrained weights behind an
    identifier, and the forward pass of each encoder family on a batch of
    token ids and attention masks (called without a [training] argument,
    hence in inference mode). *)
Class Transformers : Type := {
  enc_weights : Type;
  bert_wordpiece : string → list Z;
  roberta_bpe : string → list Z;
  from_pretrained : string → enc_weights;
  TFBertModel : enc_weights → list (list Z) → list (list Z) → encoder_output;
  TFRobertaModel : enc_weights → list (list Z) → list (list Z) → encoder_output
}.

(** The shape a base-size encoder promises for a batch: one pooled vector
    per row, one hidden vector per token, all of width [hidden]. *)
Definition encoder_contract `{Transformers} (hidden : nat)
    (forward : enc_weights → list (list Z) → list (list Z) → encoder_output) : Prop :=
  ∀ w ids mask,
    length (pooler_output (forward w ids mask)) = length ids ∧
    Forall (λ v, length v = hidden) (pooler_output (forward w ids mask)) ∧
    Forall2 (λ tokens row, length tokens = length row ∧
                           Forall (λ v, length v = hidden) tokens)
            (last_hidden_state (forward w ids mask)) ids.

(** ** Keras functional graphs *)

Module Keras.

Inductive activation : Type := relu | sigmoid.

Definition apply_activation (a : activation) (x : R) : R :=
  match a with
  | relu => Rmax 0 x
  | sigmoid => (1 / (1 + exp (- x)))%R
  end.

Inductive array : Type :=
  | IntArray (a : list (list Z))
  | FloatArray (a : list (list R)).

(** Weights of one [Dense] layer: [kernel i j] joins input [i] to unit [j]. *)
Record dense_params : Type := {
  kernel : nat → nat → R;
  bias : nat → R
}.

Section WithTransformers.

Context `{Transformers}.

(** The weights every model built over the graph shares: the two encoder
    objects are globals of the script and the dense layers belong to the
    graph, so a model holds no weights of its own. *)
Record store : Type := {
  bert_weights : enc_weights;
  roberta_weights : enc_weights;
  dense_weights : string → dense_params
}.

Inductive tensor : Type :=
  | Input (name : string) (shape : nat)
  | Lambda (function : store → array → array → result array)
           (output_shape : nat) (input1 input2 : tensor)
  | Concatenate (input1 input2 : tensor)
  | Dense (name : string) (units : nat) (act : activation) (input : tensor)
  | Dropout (name : string) (rate : R) (input : tensor).

(** Static shape inference: the width Keras records for a tensor. *)
Fixpoint static_width (t : tensor) : nat :=
  match t with
  | Input _ shape => shape
  | Lambda _ output_shape _ _ => output_shape
  | Concatenate a b => (static_width a + static_width b)%nat
  | Dense _ units _ _ => units
  | Dropout _ _ x => static_width x
  end.

Definition dense_forward (p : dense_params) (units : nat) (act : activation)
    (row : list R) : list R :=
  map (λ j, apply_activation act
              (foldr Rplus (bias p j) (imap (λ i x, (x * kernel p i j)%R) row)))
      (seq 0 units).

(** Inverted dropout: a dropped unit is 0, a kept one is scaled by
    [1 / (1 - rate)].  [keep name i j] is the random draw for unit [j]
    of sample [i] in layer [name]. *)
Definition dropout_forward (keep : string → nat → nat → bool) (name : string)
    (rate : R) (rows : list (list R)) : list (list R) :=
  imap (λ i row, imap (λ j x, if keep name i j then (x / (1 - rate))%R else 0%R) row)
       rows.

(** Forward pass of the graph below [t] on the fed inputs. *)
Fixpoint call (training : bool) (keep : string → nat → nat → bool) (θ : store)
    (feeds : gmap string (list (list Z))) (t : tensor) : result array :=
  match t with
  | Input name shape =>
      match feeds !! name with
      | None => Raise (ValueError "missing data for input")
      | Some a =>
          if decide (Forall (λ row, length row = shape) a)
          then Ok (IntArray a)
          else Raise (ValueError "input is incompatible with the layer")
      end
  | Lambda function _ a b =>
      va ← call training keep θ feeds a;
      vb ← call training keep θ feeds b;
      function θ va vb
  | Concatenate a b =>
      va ← call training keep θ feeds a;
      vb ← call training keep θ feeds b;
      match va, vb with
      | FloatArray xa, FloatArray xb =>
          if decide (length xa = length xb)
          then Ok (FloatArray (zip_with app xa xb))
          else Raise (ValueError "concatenation of batches of different sizes")
      | IntArray xa, IntArray xb =>
          if decide (length xa = length xb)
          then Ok (IntArray (zip_with app xa xb))
          else Raise (ValueError "concatenation of batches of different sizes")
      | _, _ => Raise (TypeError "concatenation of different dtypes")
      end
  | Dense name units act x =>
      vx ← call training keep θ feeds x;
      match vx with
      | FloatArray rows =>
          if decide (Forall (λ row, length row = static_width x) rows)
          then Ok (FloatArray (map (dense_forward (dense_weights θ name) units act) rows))
          else Raise (ValueError "matrix size-incompatible")
      | IntArray _ => Raise (TypeError "integer input to a dense layer")
      end
  | Dropout name rate x =>
      vx ← call training keep θ feeds x;
      match vx with
      | FloatArray rows =>
          Ok (FloatArray (if training then dropout_forward keep name rate rows
                          else rows))
      | IntArray _ => Raise (TypeError "integer input to a dropout layer")
      end
  end.

(** Does a dropout layer lie on some path from the inputs to [t]? *)
Fixpoint has_dropout (t : tensor) : bool :=
  match t with
  | Input _ _ => false
  | Lambda _ _ a b => has_dropout a || has_dropout b
  | Concatenate a b => has_dropout a || has_dropout b
  | Dense _ _ _ x => has_dropout x
  | Dropout _ _ _ => true
  end.

(** [Model(inputs=..., outputs=...)]. *)
Record model : Type := {
  inputs : list tensor;
  outputs : tensor
}.

Definition input_name (t : tensor) : result string :=
  match t with
  | Input name _ => Ok name
  | _ => Raise (ValueError "model inputs must come from Input")
  end.

(** Pair the positional data arrays with the model's input layers. *)
Fixpoint feed (ins : list tensor) (xs : list (list (list Z)))
  : result (gmap string (list (list Z))) :=
  match ins, xs with
  | [], [] => Ok ∅
  | t :: ins', x :: xs' =>
      name ← input_name t; rest ← feed ins' xs'; Ok (<[name := x]> rest)
  | _, _ => Raise (ValueError "wrong number of input arrays")
  end.

Definition model_call (m : model) (training : bool)
    (keep : string → nat → nat → bool) (θ : store) (xs : list (list (list Z)))
  : result array :=
  feeds ← feed (inputs m) xs; call training keep θ feeds (outputs m).

(** All data arrays must have one number of rows. *)
Definition cardinality (xs : list (list (list Z))) : result nat :=
  match xs with
  | [] => Raise (ValueError "no data")
  | x :: rest =>
      if decide (Forall (λ y, length y = length x) rest) then Ok (length x)
      else Raise (ValueError "data cardinality is ambiguous")
  end.

Definition as_float (v : array) : result (list (list R)) :=
  match v with
  | FloatArray rows => Ok rows
  | IntArray _ => Raise (TypeError "integer model output")
  end.

Definition no_draw : string → nat → nat → bool := λ _ _ _, true.

(** [model.predict(xs, batch_size=...)]: inference mode, one forward
    pass per batch of rows, the outputs stacked in order. *)
Definition predict (m : model) (θ : store) (xs : list (list (list Z)))
    (batch_size : nat) : result (list (list R)) :=
  n ← cardinality xs;
  outs ← traverse
            (λ k, v ← model_call m false no_draw θ
                       (map (λ x, take batch_size (drop (k * batch_size) x)) xs);
                  as_float v)
            (seq 0 ((n + batch_size - 1) / batch_size));
  Ok (concat outs).

End WithTransformers.

End Keras.

(** ** Section 4 of the notebook: the ensemble graph *)

Module Ensemble.

Import Keras.

Definition max_seq_length : nat := 70.

Section WithTransformers.

Context `{Transformers}.

(** Lines 62-67. *)
Definition bert_input_ids : tensor := Input "bert_input_ids" max_seq_length.
Definition bert_attention : tensor := Input "bert_attention_mask" max_seq_length.
Definition roberta_input_ids : tensor := Input "roberta_input_ids" max_seq_length.
Definition roberta_attention : tensor := Input "roberta_attention_mask" max_seq_length.

(** Lines 74-77: the BERT branch returns [outputs.pooler_output]. *)
Definition bert_branch (θ : store) (input_ids attention_mask : array) : result array :=
  match input_ids, attention_mask with
  | IntArray ids, IntArray mask =>
      let outputs := TFBertModel (bert_weights θ) ids mask in
      Ok (FloatArray (pooler_output outputs))
  | _, _ => Raise (TypeError "token ids and masks must be integers")
  end.

(** Lines 86-89: the RoBERTa branch returns
    [outputs.last_hidden_state[:, 0, :]], the first token of each row. *)
Definition roberta_branch (θ : store) (input_ids attention_mask : array)
  : result array :=
  match input_ids, attention_mask with
  | IntArray ids, IntArray mask =>
      let outputs := TFRobertaModel (roberta_weights θ) ids mask in
      rows ← traverse (λ tokens, match tokens !! 0%nat with
                                  | Some v => Ok v
                                  | None => Raise (IndexError 0)
                                  end)
                      (last_hidden_state outputs);
      Ok (FloatArray rows)
  | _, _ => Raise (TypeError "token ids and masks must be integers")
  end.

(** Lines 79 and 91. *)
Definition bert_output : tensor :=
  Lambda bert_branch 768 bert_input_ids bert_attention.
Definition roberta_output : tensor :=
  Lambda roberta_branch 768 roberta_input_ids roberta_attention.

(** Line 94. *)
Definition combined_embedding : tensor := Concatenate bert_output roberta_output.

(** Lines 97-101; the script rebinds [x] four times. *)
Definition x_dense : tensor := Dense "dense" 128 relu combined_embedding.
Definition x_dropout : tensor := Dropout "dropout" (3 / 10) x_dense.
Definition x_dense_1 : tensor := Dense "dense_1" 64 relu x_dropout.
Definition x_dropout_1 : tensor := Dropout "dropout_1" (3 / 10) x_dense_1.
Definition classifier_output : tensor :=
  Dense "classifier_output" 1 sigmoid x_dropout_1.

(** The head alone, on a batch of joint embeddings: what lines 97-101
    stack on top of [combined_embedding]. *)
Definition head_forward (training : bool) (keep : string → nat → nat → bool)
    (θ : store) (emb : list (list R)) : list (list R) :=
  let h1 := map (dense_forward (dense_weights θ "dense") 128 relu) emb in
  let d1 := if training then dropout_forward keep "dropout" (3 / 10) h1 else h1 in
  let h2 := map (dense_forward (dense_weights θ "dense_1") 64 relu) d1 in
  let d2 := if training then dropout_forward keep "dropout_1" (3 / 10) h2 else h2 in
  map (dense_forward (dense_weights θ "classifier_output") 1 sigmoid) d2.

(** Lines 104-107 and 132-135: two models over one graph. *)
Definition ensemble_model : model :=
  {| inputs := [bert_input_ids; bert_attention; roberta_input_ids; roberta_attention];
     outputs := classifier_output |}.

Definition embedding_extractor : model :=
  {| inputs := [bert_input_ids; bert_attention; roberta_input_ids; roberta_attention];
     outputs := combined_embedding |}.

(** Weights under which the head answers differently in training and
    in inference once every unit is dropped: the last layer sums its
    inputs, the other layers output their bias. *)
Definition summing_store : store :=
  {| bert_weights := from_pretrained "bert-base-uncased";
     roberta_weights := from_pretrained "roberta-base";
     dense_weights := λ name,
       if decide (name = "classifier_output")
       then {| kernel := λ _ _, 1%R; bias := λ _, 0%R |}
       else {| kernel := λ _ _, 0%R; bias := λ _, 1%R |} |}.

End WithTransformers.

End Ensemble.

(** ** Section 5 of the notebook: compile, callbacks and [fit] *)

Module Training.

(** The monitored quantity is a loss, kept as a rational; [None] is the
    initial [np.inf] of a callback's [best]. *)
Definition Qlt_bool (a b : Q) : bool := negb (Qle_bool b a).

(** [np.less(current, best - min_delta)] of ReduceLROnPlateau and
    [np.less(current - min_delta, best)] of EarlyStopping. *)
Definition improves (current min_delta : Q) (best : option Q) : bool :=
  match best with
  | None => true
  | Some b => Qlt_bool current (b - min_delta)
  end.

Module ReduceLROnPlateau.

Record t : Type := {
  factor : Q;
  patience : nat;
  min_delta : Q;
  cooldown : nat;
  min_lr : Q;
  (* state, reset by on_train_begin *)
  best : option Q;
  wait : nat;
  cooldown_counter : nat
}.

(** [ReduceLROnPlateau(monitor='val_loss', factor=..., patience=...)]
    with the library defaults for the rest. *)
Definition make (factor : Q) (patience : nat) : t :=
  {| factor := factor; patience := patience; min_delta := 1 # 10000;
     cooldown := 0; min_lr := 0; best := None; wait := 0; cooldown_counter := 0 |}.

Definition in_cooldown (c : t) : bool := bool_decide (0 < cooldown_counter c)%nat.

Definition set_state (c : t) (best : option Q) (wait cooldown_counter : nat) : t :=
  {| factor := factor c; patience := patience c; min_delta := min_delta c;
     cooldown := cooldown c; min_lr := min_lr c;
     best := best; wait := wait; cooldown_counter := cooldown_counter |}.

(** Returns the callback and the optimizer's learning rate after the
    epoch whose monitored value is [current]. *)
Definition on_epoch_end (c : t) (lr current : Q) : t * Q :=
  let c1 := if in_cooldown c
            then set_state c (best c) 0 (cooldown_counter c - 1)
            else c in
  if improves current (min_delta c1) (best c1)
  then (set_state c1 (Some current) 0 (cooldown_counter c1), lr)
  else if in_cooldown c1 then (c1, lr)
  else
    let wait' := S (wait c1) in
    if bool_decide (patience c1 ≤ wait')%nat
    then
      if Qlt_bool (min_lr c1) lr
      then
        let new_lr := Qmax (lr * factor c1) (min_lr c1) in
        (set_state c1 (best c1) 0 (cooldown c1), new_lr)
      else (set_state c1 (best c1) wait' (cooldown_counter c1), lr)
    else (set_state c1 (best c1) wait' (cooldown_counter c1), lr).

End ReduceLROnPlateau.

Module EarlyStopping.

Record t (W : Type) : Type := {
  patience : nat;
  min_delta : Q;
  restore_best_weights : bool;
  (* state, reset by on_train_begin *)
  wait : nat;
  best : option Q;
  best_weights : option W;
  stopped_epoch : nat
}.
Arguments patience {W} _.
Arguments min_delta {W} _.
Arguments restore_best_weights {W} _.
Arguments wait {W} _.
Arguments best {W} _.
Arguments best_weights {W} _.
Arguments stopped_epoch {W} _.

(** [EarlyStopping(monitor='val_loss', patience=...,
    restore_best_weights=...)] with the library defaults for the rest. *)
Definition make {W} (patience : nat) (restore_best_weights : bool) : t W :=
  {| patience := patience; min_delta := 0;
     restore_best_weights := restore_best_weights;
     wait := 0; best := None; best_weights := None; stopped_epoch := 0 |}.

Definition set_state {W} (c : t W) (wait : nat) (best : option Q)
    (best_weights : option W) (stopped_epoch : nat) : t W :=
  {| patience := patience c; min_delta := min_delta c;
     restore_best_weights := restore_best_weights c;
     wait := wait; best := best; best_weights := best_weights;
     stopped_epoch := stopped_epoch |}.

(** Returns the callback, the model's weights and the model's
    [stop_training] request after epoch number [epoch] (counted from 0)
    ended with weights [w] and monitored value [current]. *)
Definition on_epoch_end {W} (c : t W) (epoch : nat) (current : Q) (w : W)
  : t W * W * bool :=
  let bw := match best_weights c with
            | None => if restore_best_weights c then Some w else None
            | Some b => Some b
            end in
  let wait' := S (wait c) in
  if improves (current - min_delta c) 0 (best c)
  then
    (set_state c 0 (Some current)
               (if restore_best_weights c then Some w else bw)
               (stopped_epoch c),
     w, false)
  else if bool_decide (patience c ≤ wait')%nat && bool_decide (0 < epoch)%nat
  then
    (set_state c wait' (best c) bw epoch,
     match bw with
     | Some b => if restore_best_weights c then b else w
     | None => w
     end,
     true)
  else (set_state c wait' (best c) bw (stopped_epoch c), w, false).

End EarlyStopping.

Inductive callback (W : Type) : Type :=
  | CReduceLR (c : ReduceLROnPlateau.t)
  | CEarlyStopping (c : EarlyStopping.t W).
Arguments CReduceLR {W} c.
Arguments CEarlyStopping {W} c.

(** What [fit] threads through the epochs. *)
Record run (W : Type) : Type := {
  weights : W;
  learning_rate : Q;
  stop_training : bool;
  callbacks : list (callback W);
  val_losses : list Q          (* history.history['val_loss'], oldest first *)
}.
Arguments weights {W} _.
Arguments learning_rate {W} _.
Arguments stop_training {W} _.
Arguments callbacks {W} _.
Arguments val_losses {W} _.

Section Fit.

Context {W : Type}.

(** One epoch of optimizer steps over the training slice at a given
    learning rate, and the loss of the resulting weights on the held-out
    validation slice (inference mode). *)
Variable train_epoch : nat → Q → W → W.
Variable val_loss : W → Q.

(** [CallbackList.on_epoch_end]: the callbacks run in list order, each
    seeing the model as its predecessors left it. *)
Fixpoint on_epoch_end (cbs : list (callback W)) (epoch : nat) (current : Q)
    (w : W) (lr : Q) (stop : bool) : list (callback W) * W * Q * bool :=
  match cbs with
  | [] => ([], w, lr, stop)
  | CReduceLR c :: rest =>
      let '(c', lr') := ReduceLROnPlateau.on_epoch_end c lr current in
      let '(rest', w', lr'', stop') := on_epoch_end rest epoch current w lr' stop in
      (CReduceLR c' :: rest', w', lr'', stop')
  | CEarlyStopping c :: rest =>
      let '(c', w', s) := EarlyStopping.on_epoch_end c epoch current w in
      let '(rest', w'', lr', stop') :=
        on_epoch_end rest epoch current w' lr (stop || s) in
      (CEarlyStopping c' :: rest', w'', lr', stop')
  end.

Definition epoch_step (epoch : nat) (r : run W) : run W :=
  let w := train_epoch epoch (learning_rate r) (weights r) in
  let current := val_loss w in
  let '(cbs, w', lr, stop) :=
    on_epoch_end (callbacks r) epoch current w (learning_rate r) (stop_training r) in
  {| weights := w'; learning_rate := lr; stop_training := stop;
     callbacks := cbs; val_losses := val_losses r ++ [current] |}.

(** [for epoch in range(epochs): ...; if self.stop_training: break],
    with [todo] epochs left and [epoch] the next epoch number. *)
Fixpoint epochs_loop (todo epoch : nat) (r : run W) : run W :=
  match todo with
  | O => r
  | S todo' =>
      let r' := epoch_step epoch r in
      if stop_training r' then r' else epochs_loop todo' (S epoch) r'
  end.

Definition fit (w : W) (lr : Q) (epochs : nat) (cbs : list (callback W)) : run W :=
  epochs_loop epochs 0
    {| weights := w; learning_rate := lr; stop_training := false;
       callbacks := cbs; val_losses := [] |}.

End Fit.

(** In words: the losses [l] of the epochs so far end in a plateau of at
    least [k] epochs when the best loss [m] was first reached [k] or more
    epochs before the end and nothing since went below it. *)
Definition plateau (k : nat) (l : list Q) : Prop :=
  ∃ l1 m l2, l = l1 ++ m :: l2 ∧
             Forall (λ x, m < x)%Q l1 ∧ Forall (λ x, m <= x)%Q l2 ∧
             (k ≤ length l2)%nat.

(** What the early-stopping callback knows after the epochs whose losses
    are [l]: nothing before the first epoch; afterwards the best loss, the
    number of epochs since it was reached, and weights that achieve it. *)
Definition es_tracks {W} (val_loss : W → Q) (e : EarlyStopping.t W) (l : list Q)
  : Prop :=
  match l with
  | [] => EarlyStopping.best e = None ∧ EarlyStopping.wait e = 0%nat ∧
          EarlyStopping.best_weights e = None
  | _ => ∃ l1 m l2 wb,
           l = l1 ++ m :: l2 ∧
           Forall (λ x, m < x)%Q l1 ∧ Forall (λ x, m <= x)%Q l2 ∧
           EarlyStopping.best e = Some m ∧ EarlyStopping.wait e = length l2 ∧
           EarlyStopping.best_weights e = Some wb ∧ val_loss wb = m
  end.

(** Invariant of the epoch loop under the two callbacks of the script. *)
Definition fit_invariant {W} (val_loss : W → Q) (r : run W) : Prop :=
  ∃ c e,
    callbacks r = [CReduceLR c; CEarlyStopping e] ∧
    EarlyStopping.patience e = 4%nat ∧ EarlyStopping.min_delta e = 0%Q ∧
    EarlyStopping.restore_best_weights e = true ∧
    es_tracks val_loss e (val_losses r) ∧
    (∀ p, p `prefix_of` val_losses r → p ≠ val_losses r → ¬ plateau 4 p) ∧
    (if stop_training r
     then plateau 4 (val_losses r) ∧
          EarlyStopping.best_weights e = Some (weights r)
     else ¬ plateau 4 (val_losses r) ∧
          (val_losses r ≠ [] → last (val_losses r) = Some (val_loss (weights r)))).

(** Lines 112-119 and the keyword arguments of lines 121-128. *)
Inductive loss_name : Type := binary_crossentropy | mean_squared_error.

Definition learning_rate_init : Q := 3 # 100000.
Definition compile_loss : loss_name := binary_crossentropy.
Definition lr_scheduler : ReduceLROnPlateau.t := ReduceLROnPlateau.make (1 # 2) 2.
Definition early_stopper {W} : EarlyStopping.t W := EarlyStopping.make 4 true.
Definition validation_split : Q := 1 # 10.
Definition epochs : nat := 1.
Definition batch_size : nat := 16.

(** [validation_split]: the last tenth of the rows, taken before any
    shuffling, is held out; the rest is trained on. *)
Definition split_at (n : nat) : nat :=
  Z.to_nat (Qfloor (inject_Z (Z.of_nat n) * (1 - validation_split))).

(** Per-sample loss the model is compiled with: Keras clips the predicted
    probability into [[eps, 1 - eps]] before taking logarithms. *)
Definition epsilon : R := (1 / 10000000)%R.
Definition binary_crossentropy_loss (y_true : Z) (y_pred : R) : R :=
  let p := Rmin (Rmax y_pred epsilon) (1 - epsilon) in
  (- (IZR y_true * ln p + (1 - IZR y_true) * ln (1 - p)))%R.

Definition loss_fn (l : loss_name) (y_true : Z) (y_pred : R) : R :=
  match l with
  | binary_crossentropy => binary_crossentropy_loss y_true y_pred
  | mean_squared_error => ((IZR y_true - y_pred) * (IZR y_true - y_pred))%R
  end.

End Training.

(** ** Sections 7 and 8 of the notebook: the MLP on the embeddings *)

(** The numeric side of scikit-learn's MLP: seeded initialisation of the
    weights for given layer sizes, one pass of the adam solver over the
    data returning the new weights and the mean loss of the pass, and the
    activation of each output unit on one sample. *)
Class MLPBackend : Type := {
  mlp_weights : Type;
  init_coef : nat → list nat → mlp_weights;
  solver_pass : mlp_weights → list (list R) → list Z → mlp_weights * Q;
  forward_pass : mlp_weights → list R → nat → R
}.

Module Sklearn.

Section WithBackend.

Context `{MLPBackend}.

Record fitted : Type := {
  coefs_ : mlp_weights;
  n_iter_ : nat;
  loss_curve_ : list Q;
  classes_ : list Z;
  n_features_in_ : nat;
  n_outputs_ : nat;
  layer_units : list nat
}.

Record MLPClassifier : Type := {
  hidden_layer_sizes : list nat;
  max_iter : nat;
  learning_rate_init : Q;
  random_state : nat;
  tol : Q;
  n_iter_no_change : nat;
  state : option fitted
}.

(** [np.unique(y)]: the distinct labels in increasing order. *)
Definition unique (y : list Z) : list Z := merge_sort Z.le (remove_dups y).

(** State of the solver loop. *)
Record solver : Type := {
  coefs : mlp_weights;
  n_iter : nat;
  loss_curve : list Q;
  best_loss : option Q;
  no_improvement_count : nat
}.

Definition update_no_improvement_count (tol : Q) (loss : Q) (s : solver)
  : option Q * nat :=
  let count := match best_loss s with
               | None => 0%nat
               | Some b => if Training.Qlt_bool (b - tol) loss
                           then S (no_improvement_count s) else 0%nat
               end in
  let best := match best_loss s with
              | None => Some loss
              | Some b => if Training.Qlt_bool loss b then Some loss else Some b
              end in
  (best, count).

(** [for it in range(max_iter)] of [_fit_stochastic]: each iteration is
    one solver pass; the loop ends early once the loss has failed to
    improve by [tol] for more than [n_iter_no_change] passes. *)
Fixpoint fit_stochastic (todo : nat) (tol : Q) (n_iter_no_change : nat)
    (X : list (list R)) (y : list Z) (s : solver) : solver :=
  match todo with
  | O => s
  | S todo' =>
      let '(w, loss) := solver_pass (coefs s) X y in
      let '(best, count) := update_no_improvement_count tol loss s in
      let s' := {| coefs := w; n_iter := S (n_iter s);
                   loss_curve := loss_curve s ++ [loss];
                   best_loss := best; no_improvement_count := count |} in
      if bool_decide (n_iter_no_change < count)%nat then s'
      else fit_stochastic todo' tol n_iter_no_change X y s'
  end.

(** [MLPClassifier.fit(X, y)]. *)
Definition fit (clf : MLPClassifier) (X : list (list R)) (y : list Z)
  : result MLPClassifier :=
  match X with
  | [] => Raise (ValueError "Found array with 0 sample(s)")
  | x0 :: _ =>
      if decide (length X = length y ∧ Forall (λ x, length x = length x0) X)
      then
        let classes := unique y in
        let n_outputs := if bool_decide (length classes ≤ 2)%nat
                         then 1%nat else length classes in
        let units := [length x0] ++ hidden_layer_sizes clf ++ [n_outputs] in
        let s := fit_stochastic (max_iter clf) (tol clf) (n_iter_no_change clf) X y
                   {| coefs := init_coef (random_state clf) units;
                      n_iter := 0; loss_curve := []; best_loss := None;
                      no_improvement_count := 0 |} in
        Ok {| hidden_layer_sizes := hidden_layer_sizes clf;
              max_iter := max_iter clf;
              learning_rate_init := learning_rate_init clf;
              random_state := random_state clf;
              tol := tol clf; n_iter_no_change := n_iter_no_change clf;
              state := Some {| coefs_ := coefs s; n_iter_ := n_iter s;
                               loss_curve_ := loss_curve s; classes_ := classes;
                               n_features_in_ := length x0;
                               n_outputs_ := n_outputs;
                               layer_units := units |} |}
      else Raise (ValueError "Found input variables with inconsistent numbers of samples")
  end.

(** Index of the largest of [proba 0 .. proba (n - 1)], the first one
    on ties. *)
Fixpoint argmax (proba : nat → R) (n : nat) : nat :=
  match n with
  | O => 0%nat
  | S n' =>
      let i := argmax proba n' in
      if Rlt_dec (proba i) (proba n') then n' else i
  end.

(** [LabelBinarizer.inverse_transform]: one class is returned as it is,
    two classes are told apart by the threshold 0.5 on the single
    output, more classes by the largest output. *)
Definition inverse_transform (classes : list Z) (n_outputs : nat)
    (proba : nat → R) : result Z :=
  match classes with
  | [] => Raise (ValueError "no classes")
  | [c] => Ok c
  | [c0; c1] => Ok (if Rlt_dec (1 / 2) (proba 0%nat) then c1 else c0)
  | _ =>
      match classes !! argmax proba n_outputs with
      | Some c => Ok c
      | None => Raise (IndexError (argmax proba n_outputs))
      end
  end.

(** [MLPClassifier.predict(X)]. *)
Definition predict (clf : MLPClassifier) (X : list (list R)) : result (list Z) :=
  match state clf with
  | None => Raise NotFittedError
  | Some f =>
      if decide (Forall (λ x, length x = n_features_in_ f) X)
      then traverse (λ x, inverse_transform (classes_ f) (n_outputs_ f)
                                            (forward_pass (coefs_ f) x))
                    X
      else Raise (ValueError "X has a different number of features than MLPClassifier is expecting")
  end.

(** Line 151, with the library defaults for [tol] and
    [n_iter_no_change]. *)
Definition mlp_clf : MLPClassifier :=
  {| hidden_layer_sizes := [128; 64]%nat; max_iter := 1000;
     learning_rate_init := 1 # 1000; random_state := 42;
     tol := 1 # 10000; n_iter_no_change := 10; state := None |}.

End WithBackend.

End Sklearn.

(** ** The notebook as a script over Python's global namespace *)

(** What the run takes from outside: the CSV rows, numpy's seeded
    permutation, the initial dense weights Keras draws, and the numeric
    engine behind [fit] (one epoch of optimizer steps on the training
    slice; the loss on the validation slice). *)
Class Runtime `{Transformers} : Type := {
  csv : list (string * Z);
  permutation : nat → nat → list nat;
  initializer : string → Keras.dense_params;
  train_epoch : Keras.model → Training.loss_name → nat →
                list (list (list Z)) → list Z → nat → Q → Keras.store → Keras.store;
  evaluate : Keras.model → Training.loss_name →
             list (list (list Z)) → list Z → Keras.store → Q
}.

Module Notebook.

Section WithLibraries.

Context `{Runtime} `{MLPBackend}.

Inductive pyval : Type :=
  | PFrame (rows : list (string * Z))
  | PTexts (l : list string)
  | PLabels (l : list Z)
  | PInt (n : nat)
  | PTokenizer (t : Tokenize.tokenizer)
  | PDef (name : string)
  | PIntArray (a : list (list Z))
  | PEncoder (identifier : string)
  | PTensor (t : Keras.tensor)
  | PModel (m : Keras.model)
  | POptimizer (lr : Q)
  | PCallback (c : Training.callback Keras.store)
  | PHistory (val_loss : list Q)
  | PFloatArray (a : list (list R))
  | PClassifier (c : Sklearn.MLPClassifier)
  | PScore (q : Q)
  | PMatrix (tn fp fn tp : nat)
  | PInterface (fn : string)
  | PLayer (name : string).

(** The interpreter state: the global names, the weights all Keras
    objects share, and what [compile] attached to the ensemble model. *)
Record state : Type := {
  globals : gmap string pyval;
  weights : Keras.store;
  compiled : option (Q * Training.loss_name)
}.

Definition init : state :=
  {| globals := ∅;
     weights := {| Keras.bert_weights := from_pretrained "bert-base-uncased";
                   Keras.roberta_weights := from_pretrained "roberta-base";
                   Keras.dense_weights := initializer |};
     compiled := None |}.

Definition assign (name : string) (v : pyval) (σ : state) : state :=
  {| globals := <[name := v]> (globals σ);
     weights := weights σ; compiled := compiled σ |}.

Definition get (σ : state) (name : string) : result pyval :=
  match globals σ !! name with
  | Some v => Ok v
  | None => Raise (NameError name)
  end.

Definition get_texts σ name : result (list string) :=
  v ← get σ name;
  match v with PTexts l => Ok l | _ => Raise (TypeError name) end.
Definition get_labels σ name : result (list Z) :=
  v ← get σ name;
  match v with PLabels l => Ok l | _ => Raise (TypeError name) end.
Definition get_int σ name : result nat :=
  v ← get σ name;
  match v with PInt n => Ok n | _ => Raise (TypeError name) end.
Definition get_tokenizer σ name : result Tokenize.tokenizer :=
  v ← get σ name;
  match v with PTokenizer t => Ok t | _ => Raise (TypeError name) end.
Definition get_def σ name : result string :=
  v ← get σ name;
  match v with PDef f => Ok f | _ => Raise (TypeError name) end.
Definition get_int_array σ name : result (list (list Z)) :=
  v ← get σ name;
  match v with PIntArray a => Ok a | _ => Raise (TypeError name) end.
Definition get_encoder σ name : result string :=
  v ← get σ name;
  match v with PEncoder i => Ok i | _ => Raise (TypeError name) end.
Definition get_tensor σ name : result Keras.tensor :=
  v ← get σ name;
  match v with PTensor t => Ok t | _ => Raise (TypeError name) end.
Definition get_model σ name : result Keras.model :=
  v ← get σ name;
  match v with PModel m => Ok m | _ => Raise (TypeError name) end.
Definition get_optimizer σ name : result Q :=
  v ← get σ name;
  match v with POptimizer lr => Ok lr | _ => Raise (TypeError name) end.
Definition get_callback σ name : result (Training.callback Keras.store) :=
  v ← get σ name;
  match v with PCallback c => Ok c | _ => Raise (TypeError name) end.
Definition get_float_array σ name : result (list (list R)) :=
  v ← get σ name;
  match v with PFloatArray a => Ok a | _ => Raise (TypeError name) end.
Definition get_classifier σ name : result Sklearn.MLPClassifier :=
  v ← get σ name;
  match v with PClassifier c => Ok c | _ => Raise (TypeError name) end.

(** The two tokenizers of lines 24-25. *)
Definition bert_tokenizer : Tokenize.tokenizer :=
  {| Tokenize.cls_token_id := 101; Tokenize.sep_token_id := 102;
     Tokenize.pad_token_id := 0; Tokenize.tokenize := bert_wordpiece |}.
Definition roberta_tokenizer : Tokenize.tokenizer :=
  {| Tokenize.cls_token_id := 0; Tokenize.sep_token_id := 2;
     Tokenize.pad_token_id := 1; Tokenize.tokenize := roberta_bpe |}.

(** The top-level statements, in the order of the file. *)
Inductive stmt : Type :=
  | SLoadData            (* 15-17 *)
  | SMaxSeqLength        (* 20 *)
  | STokenizers          (* 24-25 *)
  | SDefTokenize         (* 27-29 *)
  | STokenize            (* 32-33 *)
  | SSplit               (* 38-44 *)
  | SInt32               (* 47-55 *)
  | SInputs              (* 62-67 *)
  | SBertModel           (* 70-72 *)
  | SDefBertBranch       (* 74-77 *)
  | SBertOutput          (* 79 *)
  | SRobertaModel        (* 82-84 *)
  | SDefRobertaBranch    (* 86-89 *)
  | SRobertaOutput       (* 91 *)
  | SConcatenate         (* 94 *)
  | SHead                (* 97-101 *)
  | SEnsembleModel       (* 104-108 *)
  | SCompile             (* 112-115 *)
  | SCallbacks           (* 118-119 *)
  | SFit                 (* 121-128 *)
  | SExtractor           (* 132-135 *)
  | SExtractTrain        (* 136-139 *)
  | SExtractTest         (* 140-145 *)
  | SMlp                 (* 151 *)
  | SMlpFit              (* 152 *)
  | SPredictTest         (* 156 *)
  | SReport              (* 158-189 *)
  | SDefPredictSarcasm   (* 195-211 *)
  | SLaunch.             (* 213-221 *)

Definition notebook : list stmt :=
  [SLoadData; SMaxSeqLength; STokenizers; SDefTokenize; STokenize; SSplit;
   SInt32; SInputs; SBertModel; SDefBertBranch; SBertOutput; SRobertaModel;
   SDefRobertaBranch; SRobertaOutput; SConcatenate; SHead; SEnsembleModel;
   SCompile; SCallbacks; SFit; SExtractor; SExtractTrain; SExtractTest;
   SMlp; SMlpFit; SPredictTest; SReport; SDefPredictSarcasm; SLaunch].

(** Counts behind the report of lines 158-189, for 0/1 labels. *)
Definition count_pairs (P : Z → Z → bool) (y_true y_pred : list Z) : nat :=
  length (filter (λ yp, P yp.1 yp.2 = true) (zip y_true y_pred)).
Definition ratio (a b : nat) : Q :=
  inject_Z (Z.of_nat a) / inject_Z (Z.of_nat b).

Definition exec (s : stmt) (σ : state) : result state :=
  match s with
  | SLoadData =>
      Ok (assign "labels" (PLabels (csv.*2))
           (assign "texts" (PTexts (csv.*1))
             (assign "data" (PFrame csv) σ)))
  | SMaxSeqLength => Ok (assign "max_seq_length" (PInt Ensemble.max_seq_length) σ)
  | STokenizers =>
      Ok (assign "roberta_tokenizer" (PTokenizer roberta_tokenizer)
           (assign "bert_tokenizer" (PTokenizer bert_tokenizer) σ))
  | SDefTokenize => Ok (assign "tokenize_for_model" (PDef "tokenize_for_model") σ)
  | STokenize =>
      _ ← get_def σ "tokenize_for_model";
      tb ← get_tokenizer σ "bert_tokenizer";
      texts ← get_texts σ "texts";
      max_len ← get_int σ "max_seq_length";
      let '(ids_b, mask_b) := Tokenize.tokenize_for_model tb texts max_len in
      let σ := assign "X_mask_bert" (PIntArray mask_b)
                 (assign "X_ids_bert" (PIntArray ids_b) σ) in
      tr ← get_tokenizer σ "roberta_tokenizer";
      let '(ids_r, mask_r) := Tokenize.tokenize_for_model tr texts max_len in
      Ok (assign "X_mask_roberta" (PIntArray mask_r)
           (assign "X_ids_roberta" (PIntArray ids_r) σ))
  | SSplit =>
      ids_b ← get_int_array σ "X_ids_bert";
      mask_b ← get_int_array σ "X_mask_bert";
      ids_r ← get_int_array σ "X_ids_roberta";
      mask_r ← get_int_array σ "X_mask_roberta";
      labels ← get_labels σ "labels";
      '(ib_train, ib_test, (mb_train, mb_test), (ir_train, ir_test),
        (mr_train, mr_test), (y_train, y_test))
        ← Split.train_test_split permutation ids_b mask_b ids_r mask_r labels;
      Ok (assign "y_test" (PLabels y_test)
         (assign "y_train" (PLabels y_train)
         (assign "X_mask_roberta_test" (PIntArray mr_test)
         (assign "X_mask_roberta_train" (PIntArray mr_train)
         (assign "X_ids_roberta_test" (PIntArray ir_test)
         (assign "X_ids_roberta_train" (PIntArray ir_train)
         (assign "X_mask_bert_test" (PIntArray mb_test)
         (assign "X_mask_bert_train" (PIntArray mb_train)
         (assign "X_ids_bert_test" (PIntArray ib_test)
         (assign "X_ids_bert_train" (PIntArray ib_train) σ))))))))))
  | SInt32 =>
      a1 ← get_int_array σ "X_ids_bert_train";
      a2 ← get_int_array σ "X_mask_bert_train";
      a3 ← get_int_array σ "X_ids_bert_test";
      a4 ← get_int_array σ "X_mask_bert_test";
      a5 ← get_int_array σ "X_ids_roberta_train";
      a6 ← get_int_array σ "X_mask_roberta_train";
      a7 ← get_int_array σ "X_ids_roberta_test";
      a8 ← get_int_array σ "X_mask_roberta_test";
      Ok (assign "X_mask_roberta_test" (PIntArray (astype_int32 a8))
         (assign "X_ids_roberta_test" (PIntArray (astype_int32 a7))
         (assign "X_mask_roberta_train" (PIntArray (astype_int32 a6))
         (assign "X_ids_roberta_train" (PIntArray (astype_int32 a5))
         (assign "X_mask_bert_test" (PIntArray (astype_int32 a4))
         (assign "X_ids_bert_test" (PIntArray (astype_int32 a3))
         (assign "X_mask_bert_train" (PIntArray (astype_int32 a2))
         (assign "X_ids_bert_train" (PIntArray (astype_int32 a1)) σ))))))))
  | SInputs =>
      n ← get_int σ "max_seq_length";
      Ok (assign "roberta_attention" (PTensor (Keras.Input "roberta_attention_mask" n))
         (assign "roberta_input_ids" (PTensor (Keras.Input "roberta_input_ids" n))
         (assign "bert_attention" (PTensor (Keras.Input "bert_attention_mask" n))
         (assign "bert_input_ids" (PTensor (Keras.Input "bert_input_ids" n)) σ))))
  | SBertModel =>
      (* the loop variable of [for layer in bert_model.layers] stays bound *)
      Ok (assign "layer" (PLayer "bert")
            (assign "bert_model" (PEncoder "bert-base-uncased") σ))
  | SDefBertBranch => Ok (assign "bert_branch" (PDef "bert_branch") σ)
  | SBertOutput =>
      _ ← get_def σ "bert_branch";
      ids ← get_tensor σ "bert_input_ids";
      mask ← get_tensor σ "bert_attention";
      _ ← get_encoder σ "bert_model";
      Ok (assign "bert_output"
            (PTensor (Keras.Lambda Ensemble.bert_branch 768 ids mask)) σ)
  | SRobertaModel =>
      Ok (assign "layer" (PLayer "roberta")
            (assign "roberta_model" (PEncoder "roberta-base") σ))
  | SDefRobertaBranch => Ok (assign "roberta_branch" (PDef "roberta_branch") σ)
  | SRobertaOutput =>
      _ ← get_def σ "roberta_branch";
      ids ← get_tensor σ "roberta_input_ids";
      mask ← get_tensor σ "roberta_attention";
      _ ← get_encoder σ "roberta_model";
      Ok (assign "roberta_output"
            (PTensor (Keras.Lambda Ensemble.roberta_branch 768 ids mask)) σ)
  | SConcatenate =>
      a ← get_tensor σ "bert_output";
      b ← get_tensor σ "roberta_output";
      Ok (assign "combined_embedding" (PTensor (Keras.Concatenate a b)) σ)
  | SHead =>
      e ← get_tensor σ "combined_embedding";
      let x := Keras.Dense "dense" 128 Keras.relu e in
      let x := Keras.Dropout "dropout" (3 / 10) x in
      let x := Keras.Dense "dense_1" 64 Keras.relu x in
      let x := Keras.Dropout "dropout_1" (3 / 10) x in
      Ok (assign "classifier_output"
            (PTensor (Keras.Dense "classifier_output" 1 Keras.sigmoid x))
            (assign "x" (PTensor x) σ))
  | SEnsembleModel =>
      i1 ← get_tensor σ "bert_input_ids";
      i2 ← get_tensor σ "bert_attention";
      i3 ← get_tensor σ "roberta_input_ids";
      i4 ← get_tensor σ "roberta_attention";
      out ← get_tensor σ "classifier_output";
      Ok (assign "ensemble_model"
            (PModel {| Keras.inputs := [i1; i2; i3; i4]; Keras.outputs := out |}) σ)
  | SCompile =>
      let σ := assign "optimizer" (POptimizer Training.learning_rate_init) σ in
      _ ← get_model σ "ensemble_model";
      lr ← get_optimizer σ "optimizer";
      Ok {| globals := globals σ; weights := weights σ;
            compiled := Some (lr, Training.compile_loss) |}
  | SCallbacks =>
      Ok (assign "early_stopper"
            (PCallback (Training.CEarlyStopping Training.early_stopper))
            (assign "lr_scheduler"
               (PCallback (Training.CReduceLR Training.lr_scheduler)) σ))
  | SFit =>
      m ← get_model σ "ensemble_model";
      a1 ← get_int_array σ "X_ids_bert_train";
      a2 ← get_int_array σ "X_mask_bert_train";
      a3 ← get_int_array σ "X_ids_roberta_train";
      a4 ← get_int_array σ "X_mask_roberta_train";
      y ← get_labels σ "y_train";
      c1 ← get_callback σ "lr_scheduler";
      c2 ← get_callback σ "early_stopper";
      match compiled σ with
      | None => Raise (ValueError "You must compile your model before training")
      | Some (lr, loss) =>
          n ← Keras.cardinality [a1; a2; a3; a4];
          if decide (length y = n) then
            let k := Training.split_at n in
            if decide (k = 0%nat ∨ k = n)
            then Raise (ValueError "not sufficient to split into a validation and training set")
            else
              let r := Training.fit
                         (train_epoch m loss Training.batch_size
                                      (map (take k) [a1; a2; a3; a4]) (take k y))
                         (evaluate m loss (map (drop k) [a1; a2; a3; a4]) (drop k y))
                         (weights σ) lr Training.epochs [c1; c2] in
              Ok (assign "history" (PHistory (Training.val_losses r))
                    {| globals := globals σ; weights := Training.weights r;
                       compiled := compiled σ |})
          else Raise (ValueError "data cardinality is ambiguous")
      end
  | SExtractor =>
      i1 ← get_tensor σ "bert_input_ids";
      i2 ← get_tensor σ "bert_attention";
      i3 ← get_tensor σ "roberta_input_ids";
      i4 ← get_tensor σ "roberta_attention";
      out ← get_tensor σ "combined_embedding";
      Ok (assign "embedding_extractor"
            (PModel {| Keras.inputs := [i1; i2; i3; i4]; Keras.outputs := out |}) σ)
  | SExtractTrain =>
      m ← get_model σ "embedding_extractor";
      a1 ← get_int_array σ "X_ids_bert_train";
      a2 ← get_int_array σ "X_mask_bert_train";
      a3 ← get_int_array σ "X_ids_roberta_train";
      a4 ← get_int_array σ "X_mask_roberta_train";
      emb ← Keras.predict m (weights σ) [a1; a2; a3; a4] 32;
      Ok (assign "train_embeddings" (PFloatArray emb) σ)
  | SExtractTest =>
      m ← get_model σ "embedding_extractor";
      a1 ← get_int_array σ "X_ids_bert_test";
      a2 ← get_int_array σ "X_mask_bert_test";
      a3 ← get_int_array σ "X_ids_roberta_test";
      a4 ← get_int_array σ "X_mask_roberta_test";
      emb ← Keras.predict m (weights σ) [a1; a2; a3; a4] 32;
      let σ := assign "test_embeddings" (PFloatArray emb) σ in
      _ ← get_float_array σ "train_embeddings";
      Ok σ
  | SMlp => Ok (assign "mlp_clf" (PClassifier Sklearn.mlp_clf) σ)
  | SMlpFit =>
      clf ← get_classifier σ "mlp_clf";
      X ← get_float_array σ "train_embeddings";
      y ← get_labels σ "y_train";
      clf' ← Sklearn.fit clf X y;
      Ok (assign "mlp_clf" (PClassifier clf') σ)
  | SPredictTest =>
      clf ← get_classifier σ "mlp_clf";
      X ← get_float_array σ "test_embeddings";
      preds ← Sklearn.predict clf X;
      Ok (assign "preds" (PLabels preds) σ)
  | SReport =>
      y ← get_labels σ "y_test";
      p ← get_labels σ "preds";
      if decide (length y = length p) then
        let tp := count_pairs (λ a b, bool_decide (a = 1) && bool_decide (b = 1)) y p in
        let fp := count_pairs (λ a b, negb (bool_decide (a = 1)) && bool_decide (b = 1)) y p in
        let fn := count_pairs (λ a b, bool_decide (a = 1) && negb (bool_decide (b = 1))) y p in
        let tn := (length y - tp - fp - fn)%nat in
        Ok (assign "cm" (PMatrix tn fp fn tp)
           (assign "f1" (PScore (ratio (2 * tp) (2 * tp + fp + fn)))
           (assign "rec" (PScore (ratio tp (tp + fn)))
           (assign "prec" (PScore (ratio tp (tp + fp)))
           (assign "acc" (PScore (ratio (tp + tn) (length y))) σ)))))
      else Raise (ValueError "Found input variables with inconsistent numbers of samples")
  | SDefPredictSarcasm => Ok (assign "predict_sarcasm" (PDef "predict_sarcasm") σ)
  | SLaunch =>
      fn ← get_def σ "predict_sarcasm";
      Ok (assign "iface" (PInterface fn) σ)
  end.

Fixpoint run (program : list stmt) (σ : state) : result state :=
  match program with
  | [] => Ok σ
  | s :: rest => σ' ← exec s σ; run rest σ'
  end.

(** Lines 195-211.  The body reads its globals when it is called. *)
Definition predict_label (σ : state) (text : string) : result Z :=
  tb ← get_tokenizer σ "bert_tokenizer";
  max_len ← get_int σ "max_seq_length";
  let enc_bert := Tokenize.call tb [text] max_len in
  let input_ids_bert := astype_int32 (Tokenize.input_ids enc_bert) in
  let attention_mask_bert := astype_int32 (Tokenize.attention_mask enc_bert) in
  tr ← get_tokenizer σ "roberta_tokenizer";
  let enc_roberta := Tokenize.call tr [text] max_len in
  let input_ids_roberta := astype_int32 (Tokenize.input_ids enc_roberta) in
  let attention_mask_roberta := astype_int32 (Tokenize.attention_mask enc_roberta) in
  m ← get_model σ "embedding_extractor";
  emb ← Keras.predict m (weights σ)
          [input_ids_bert; attention_mask_bert;
           input_ids_roberta; attention_mask_roberta] 32;
  clf ← get_classifier σ "mlp_clf";
  pred ← Sklearn.predict clf emb;
  match pred !! 0%nat with
  | Some p => Ok p
  | None => Raise (IndexError 0)
  end.

Definition predict_sarcasm (σ : state) (text : string) : result string :=
  p ← predict_label σ text;
  Ok (if decide (p = 1) then "Sarcastic😏" else "Not Sarcastic😊").

(** The global names a statement assigns. *)
Definition binds (s : stmt) : list string :=
  match s with
  | SLoadData => ["data"; "texts"; "labels"]
  | SMaxSeqLength => ["max_seq_length"]
  | STokenizers => ["bert_tokenizer"; "roberta_tokenizer"]
  | SDefTokenize => ["tokenize_for_model"]
  | STokenize => ["X_ids_bert"; "X_mask_bert"; "X_ids_roberta"; "X_mask_roberta"]
  | SSplit =>
      ["X_ids_bert_train"; "X_ids_bert_test"; "X_mask_bert_train"; "X_mask_bert_test";
       "X_ids_roberta_train"; "X_ids_roberta_test";
       "X_mask_roberta_train"; "X_mask_roberta_test"; "y_train"; "y_test"]
  | SInt32 =>
      ["X_ids_bert_train"; "X_mask_bert_train"; "X_ids_bert_test"; "X_mask_bert_test";
       "X_ids_roberta_train"; "X_mask_roberta_train";
       "X_ids_roberta_test"; "X_mask_roberta_test"]
  | SInputs =>
      ["bert_input_ids"; "bert_attention"; "roberta_input_ids"; "roberta_attention"]
  | SBertModel => ["bert_model"; "layer"]
  | SDefBertBranch => ["bert_branch"]
  | SBertOutput => ["bert_output"]
  | SRobertaModel => ["roberta_model"; "layer"]
  | SDefRobertaBranch => ["roberta_branch"]
  | SRobertaOutput => ["roberta_output"]
  | SConcatenate => ["combined_embedding"]
  | SHead => ["x"; "classifier_output"]
  | SEnsembleModel => ["ensemble_model"]
  | SCompile => ["optimizer"]
  | SCallbacks => ["lr_scheduler"; "early_stopper"]
  | SFit => ["history"]
  | SExtractor => ["embedding_extractor"]
  | SExtractTrain => ["train_embeddings"]
  | SExtractTest => ["test_embeddings"]
  | SMlp => ["mlp_clf"]
  | SMlpFit => ["mlp_clf"]
  | SPredictTest => ["preds"]
  | SReport => ["acc"; "prec"; "rec"; "f1"; "cm"]
  | SDefPredictSarcasm => ["predict_sarcasm"]
  | SLaunch => ["iface"]
  end.

Definition bound_by (program : list stmt) : list string :=
  concat (map binds program).

(** The states the script passes through. *)
Definition reachable (σ : state) : Prop :=
  ∃ k, run (take k notebook) init = Ok σ.

(** From statement number [k0] on, the name [n] is bound to a value
    satisfying [P]. *)
Definition holds_from (k0 : nat) (n : string) (P : pyval → Prop) : Prop :=
  ∀ k σ, (k0 ≤ k)%nat → run (take k notebook) init = Ok σ →
         ∃ v, globals σ !! n = Some v ∧ P v.

End WithLibraries.

End Notebook.

(** ** A small concrete instance *)

(** Stand-ins for the external parts, small enough to run the whole script
    on: constant encoders of hidden size 768 whose pooled and per-token
    outputs differ, a reversing permutation, an engine that leaves the
    weights alone, and a three-row dataset. *)
Module Toy.

Definition transformers : Transformers :=
  {| enc_weights := unit;
     bert_wordpiece := λ _, [2821; 2307];
     roberta_bpe := λ _, [2678; 372; 6];
     from_pretrained := λ _, tt;
     TFBertModel := λ _ ids _,
       {| last_hidden_state := map (λ row, map (λ _, replicate 768 2%R) row) ids;
          pooler_output := map (λ _, replicate 768 1%R) ids |};
     TFRobertaModel := λ _ ids _,
       {| last_hidden_state := map (λ row, map (λ _, replicate 768 0%R) row) ids;
          pooler_output := map (λ _, replicate 768 3%R) ids |} |}.

Definition reversed : nat → nat → list nat := λ _ n, reverse (seq 0 n).

Definition runtime : @Runtime transformers :=
  {| csv := [("oh great, another meeting"%string, 1); ("thanks"%string, 0);
             ("what a day"%string, 1)];
     permutation := reversed;
     initializer := λ _, {| Keras.kernel := λ _ _, 0%R; Keras.bias := λ _, 0%R |};
     train_epoch := λ _ _ _ _ _ _ _ θ, θ;
     evaluate := λ _ _ _ _ _, 1%Q |}.

Definition mlp : MLPBackend :=
  {| mlp_weights := unit;
     init_coef := λ _ _, tt;
     solver_pass := λ w _ _, (w, 1 # 2);
     forward_pass := λ _ _ _, 0%R |}.

Definition store : @Keras.store transformers :=
  @Notebook.weights transformers mlp (@Notebook.init transformers runtime mlp).

(** One request, already tokenized: a row of 70 ids per input. *)
Definition feeds : gmap string (list (list Z)) :=
  <["bert_input_ids" := [replicate 70 0]]>
    (<["bert_attention_mask" := [replicate 70 1]]>
       (<["roberta_input_ids" := [replicate 70 1]]>
          (<["roberta_attention_mask" := [replicate 70 1]]> ∅))).

(** A training whose validation loss is best after the first epoch. *)
Definition count_epoch : nat → Q → nat → nat := λ _ _ w, S w.
Definition loss_after (w : nat) : Q := if (w =? 1)%nat then 1 else 2.

End Toy.

(** ** Invariants of the training loops *)

(** The epoch loop under the scheduler of line 118: the learning rate is
    the initial one halved [k] times, and each halving took at least two
    epochs. *)
Definition halved {W} (lr0 : Q) (r : Training.run W) : Prop :=
  ∃ c e k,
    Training.callbacks r = [Training.CReduceLR c; Training.CEarlyStopping e] ∧
    Training.ReduceLROnPlateau.factor c = 1 # 2 ∧
    Training.ReduceLROnPlateau.patience c = 2%nat ∧
    Training.ReduceLROnPlateau.cooldown c = 0%nat ∧
    Training.ReduceLROnPlateau.min_lr c = 0%Q ∧
    Training.ReduceLROnPlateau.min_delta c = 1 # 10000 ∧
    Training.ReduceLROnPlateau.cooldown_counter c = 0%nat ∧
    (2 * k + Training.ReduceLROnPlateau.wait c
     ≤ length (Training.val_losses r))%nat ∧
    (Training.learning_rate r * inject_Z (2 ^ Z.of_nat k) == lr0)%Q.

(** ** The arrays of sections 2 and 3 of the notebook, as values *)

(** What lines 16-17 and 32-33 bind, as functions of the CSV rows. *)
Module Arrays.

Section WithLibraries.

Context `{Runtime}.

Definition texts : list string := csv.*1.
Definition labels : list Z := csv.*2.

Definition X_ids_bert : list (list Z) :=
  (Tokenize.tokenize_for_model Notebook.bert_tokenizer texts
     Ensemble.max_seq_length).1.
Definition X_mask_bert : list (list Z) :=
  (Tokenize.tokenize_for_model Notebook.bert_tokenizer texts
     Ensemble.max_seq_length).2.
Definition X_ids_roberta : list (list Z) :=
  (Tokenize.tokenize_for_model Notebook.roberta_tokenizer texts
     Ensemble.max_seq_length).1.
Definition X_mask_roberta : list (list Z) :=
  (Tokenize.tokenize_for_model Notebook.roberta_tokenizer texts
     Ensemble.max_seq_length).2.

(** The call of lines 38-44 on them. *)
Definition split :=
  Split.train_test_split permutation
    X_ids_bert X_mask_bert X_ids_roberta X_mask_roberta labels.

End WithLibraries.

End Arrays.

(** ** A dataset too small to train on *)

Module Tiny.

Definition runtime : @Runtime Toy.transformers :=
  {| csv := [("sure, why not"%string, 1); ("thanks"%string, 0)];
     permutation := Toy.reversed;
     initializer := λ _, {| Keras.kernel := λ _ _, 0%R; Keras.bias := λ _, 0%R |};
     train_epoch := λ _ _ _ _ _ _ _ θ, θ;
     evaluate := λ _ _ _ _ _, 1%Q |}.

End Tiny.

(** ** The exceptions data can cause *)

(** A ValueError or an IndexError: what the libraries raise on data they
    refuse, as opposed to a NameError, a TypeError or a NotFittedError,
    which would be faults of the script itself. *)
Definition data_error (e : exn) : Prop :=
  (∃ msg, e = ValueError msg) ∨ (∃ i, e = IndexError i).

(** * Properties *)

(** ** The result monad *)

Lemma returns_Ok {A} (r : result A) : returns r → ∃ a, r = Ok a.
Proof. destruct r as [a|e]; [eauto | done]. Qed.

Lemma bind_Ok {A B} (r : result A) (k : A → result B) (b : B) :
  r ≫= k = Ok b → ∃ a, r = Ok a ∧ k a = Ok b.
Proof. destruct r as [a|e]; [eauto | discriminate]. Qed.

Lemma traverse_Ok_lookup {A B} (f : A → result B) (l : list A) (bs : list B) :
  traverse f l = Ok bs →
  length bs = length l ∧ ∀ j a, l !! j = Some a → ∃ b, bs !! j = Some b ∧ f a = Ok b.
Proof.
  revert bs. induction l as [|a l IH]; intros bs H; simpl in H.
  - injection H as <-. split; [done|]. intros j a Hj. by rewrite lookup_nil in Hj.
  - apply bind_Ok in H as (b & Hb & H). apply bind_Ok in H as (bs' & Hbs & H).
    injection H as <-. destruct (IH _ Hbs) as [Hlen Hrows]. split.
    + simpl. by rewrite Hlen.
    + intros [|j] a' Hj; simpl in *.
      * injection Hj as <-. eauto.
      * eauto.
Qed.

Lemma traverse_total {A B} (f : A → result B) (l : list A) :
  Forall (λ a, ∃ b, f a = Ok b) l → ∃ bs, traverse f l = Ok bs.
Proof.
  induction 1 as [|a l [b Hb] _ [bs Hbs]]; simpl; [eauto|].
  rewrite Hb. simpl. rewrite Hbs. simpl. eauto.
Qed.

Lemma traverse_Forall2 {A B} (f : A → result B) (l : list A) (bs : list B) :
  traverse f l = Ok bs ↔ Forall2 (λ a b, f a = Ok b) l bs.
Proof.
  revert bs. induction l as [|a l IH]; intros bs; simpl.
  - split; [intros [= <-]; constructor | by intros ->%Forall2_nil_inv_l].
  - split.
    + intros H. apply bind_Ok in H as (b & Hb & H). apply bind_Ok in H as (bs' & Hbs & H).
      injection H as <-. constructor; [done | by apply IH].
    + intros H. apply Forall2_cons_inv_l in H as (b & bs' & Hb & Hbs & ->).
      rewrite Hb. simpl. apply IH in Hbs. rewrite Hbs. done.
Qed.

Lemma bind_Raise {A B} (r : result A) (k : A → result B) (e : exn) :
  r ≫= k = Raise e → r = Raise e ∨ ∃ a, r = Ok a ∧ k a = Raise e.
Proof. destruct r as [a|e']; cbn; [eauto | intros [= ->]; by left]. Qed.

Lemma traverse_Raise {A B} (f : A → result B) (l : list A) (e : exn) :
  traverse f l = Raise e → ∃ a, a ∈ l ∧ f a = Raise e.
Proof.
  induction l as [|a l IH]; cbn [traverse]; [done|]. intros Hr.
  apply bind_Raise in Hr as [Ha|(b & Hb & Hr)].
  - exists a. split; [by left | done].
  - apply bind_Raise in Hr as [Hl|(bs & _ & Hr)]; [|done].
    destruct (IH Hl) as (a' & Hin & Ha'). exists a'. split; [by right | done].
Qed.

Lemma traverse_app {A B} (f : A → result B) (l1 l2 : list A) bs1 bs2 :
  traverse f l1 = Ok bs1 → traverse f l2 = Ok bs2 →
  traverse f (l1 ++ l2) = Ok (bs1 ++ bs2).
Proof.
  revert bs1. induction l1 as [|a l1 IH]; intros bs1 H1 H2; cbn [traverse app] in *.
  - by injection H1 as <-.
  - apply bind_Ok in H1 as (b & Hb & H1). apply bind_Ok in H1 as (bs & Hbs & H1).
    injection H1 as <-. rewrite Hb. cbn [mbind result_bind].
    by rewrite (IH bs Hbs H2).
Qed.

(** ** Train/test split *)

Section SplitFacts.

Import Split.

Lemma n_test_of_bounds (n : nat) :
  (2 ≤ n)%nat → (0 < n_test_of n < n)%nat.
Proof.
  intros Hn. unfold n_test_of, test_size, Qceiling, Qfloor, Qopp, Qmult, inject_Z.
  cbn [Qnum Qden]. change (Z.pos (10 * 1)) with 10.
  pose proof (Z.div_mod (- (2 * Z.of_nat n)) 10 ltac:(lia)) as Hdiv.
  pose proof (Z.mod_pos_bound (- (2 * Z.of_nat n)) 10 ltac:(lia)) as Hmod.
  lia.
Qed.

Lemma validate_shuffle_split_Ok (n : nat) :
  (2 ≤ n)%nat →
  validate_shuffle_split n = Ok ((n - n_test_of n)%nat, n_test_of n).
Proof.
  intros Hn. pose proof (n_test_of_bounds n Hn). unfold validate_shuffle_split.
  case_decide; [lia | done].
Qed.

Lemma safe_indexing_rows {A} (a part : list A) (ind : list nat) :
  safe_indexing a ind = Ok part → rows_from a part ind.
Proof.
  intros H. apply traverse_Ok_lookup in H as [Hlen Hrows]. split; [done|].
  intros j i Hj. destruct (Hrows j i Hj) as (x & Hx & Hi).
  destruct (a !! i) as [y|] eqn:Hy; [|discriminate].
  injection Hi as ->. split; [eauto | done].
Qed.

Lemma safe_indexing_total {A} (a : list A) (ind : list nat) :
  Forall (λ i, i < length a)%nat ind → ∃ part, safe_indexing a ind = Ok part.
Proof.
  intros H. apply traverse_total. eapply Forall_impl; [exact H|].
  intros i Hi. simpl in Hi. destruct (lookup_lt_is_Some_2 a i Hi) as [x Hx].
  rewrite Hx. eauto.
Qed.

Lemma rows_from_elem {A} (a part : list A) (ind : list nat) (x : A) :
  rows_from a part ind → x ∈ part → x ∈ a.
Proof.
  intros [Hlen Hrows] Hx. apply list_elem_of_lookup in Hx as [j Hj].
  destruct (lookup_lt_is_Some_2 ind j) as [i Hi].
  { rewrite <- Hlen. by eapply lookup_lt_Some. }
  destruct (Hrows j i Hi) as [_ Heq]. rewrite Hj in Heq.
  by eapply list_elem_of_lookup_2.
Qed.

Lemma train_test_split_labels {A B C D E} (perm : nat → nat → list nat)
    (a1 : list A) (a2 : list B) (a3 : list C) (a4 : list D) (labels : list E)
    p1 p2 p3 p4 y_train y_test :
  train_test_split perm a1 a2 a3 a4 labels = Ok (p1, p2, p3, p4, (y_train, y_test)) →
  (∀ c, c ∈ y_train → c ∈ labels) ∧ (∀ c, c ∈ y_test → c ∈ labels).
Proof.
  unfold train_test_split. intros Hs.
  apply bind_Ok in Hs as (n & _ & Hs).
  apply bind_Ok in Hs as ([train test] & _ & Hs).
  do 8 (apply bind_Ok in Hs as (? & _ & Hs)).
  apply bind_Ok in Hs as (ytr & Hytr & Hs).
  apply bind_Ok in Hs as (yte & Hyte & Hs).
  injection Hs as <- <- <- <- <- <-.
  apply safe_indexing_rows in Hytr, Hyte.
  split; intros c Hc;
    [exact (rows_from_elem _ _ _ _ Hytr Hc) | exact (rows_from_elem _ _ _ _ Hyte Hc)].
Qed.

Variable permutation : nat → nat → list nat.
Hypothesis permutation_spec : ∀ n, permutation random_state n ≡ₚ seq 0 n.

Lemma shuffle_split_partition (n : nat) :
  (2 ≤ n)%nat →
  ∃ train test,
    shuffle_split permutation n = Ok (train, test) ∧
    test ++ train = permutation random_state n.
Proof.
  intros Hn. unfold shuffle_split. rewrite validate_shuffle_split_Ok by done.
  simpl. eexists _, _. split; [done|].
  pose proof (n_test_of_bounds n Hn) as Hb.
  pose proof (Permutation_length (permutation_spec n)) as Hlen.
  rewrite length_seq in Hlen.
  rewrite (take_ge (drop _ _)) by (rewrite length_drop; lia).
  apply take_drop.
Qed.

Lemma shuffle_split_in_range (n : nat) (train test : list nat) :
  test ++ train = permutation random_state n →
  Forall (λ i, i < n)%nat train ∧ Forall (λ i, i < n)%nat test ∧
  NoDup (test ++ train).
Proof.
  intros Heq. pose proof (permutation_spec n) as Hp. rewrite <- Heq in Hp.
  assert (Hall : Forall (λ i, i < n)%nat (test ++ train)).
  { rewrite Hp. apply Forall_forall. intros i Hi.
    apply elem_of_seq in Hi. lia. }
  apply Forall_app in Hall as [Hte Htr]. split_and!; [done..|].
  rewrite Hp. apply NoDup_seq.
Qed.

(** C3.  The single call of lines 38-44 returns, for arrays of one length
    [n >= 2], ten parts built from ONE pair of index lists: position [j]
    of every train part holds row [train !! j] of its own original array,
    likewise for test, so the BERT ids, BERT mask, RoBERTa ids, RoBERTa
    mask and label found at one position all come from the same dataset
    row.  The two index lists share no row and together are a permutation
    of all rows. *)
Theorem train_test_split_rows_aligned {A B C D E}
    (X_ids_bert : list A) (X_mask_bert : list B) (X_ids_roberta : list C)
    (X_mask_roberta : list D) (labels : list E) :
  length X_mask_bert = length X_ids_bert →
  length X_ids_roberta = length X_ids_bert →
  length X_mask_roberta = length X_ids_bert →
  length labels = length X_ids_bert →
  (2 ≤ length X_ids_bert)%nat →
  ∃ train test ib_train ib_test mb_train mb_test
    ir_train ir_test mr_train mr_test y_train y_test,
    train_test_split permutation
      X_ids_bert X_mask_bert X_ids_roberta X_mask_roberta labels
    = Ok (ib_train, ib_test, (mb_train, mb_test), (ir_train, ir_test),
          (mr_train, mr_test), (y_train, y_test)) ∧
    shuffle_split permutation (length X_ids_bert) = Ok (train, test) ∧
    (rows_from X_ids_bert ib_train train ∧ rows_from X_mask_bert mb_train train ∧
     rows_from X_ids_roberta ir_train train ∧
     rows_from X_mask_roberta mr_train train ∧ rows_from labels y_train train) ∧
    (rows_from X_ids_bert ib_test test ∧ rows_from X_mask_bert mb_test test ∧
     rows_from X_ids_roberta ir_test test ∧
     rows_from X_mask_roberta mr_test test ∧ rows_from labels y_test test) ∧
    (∀ i, i ∈ train → i ∉ test) ∧
    test ++ train ≡ₚ seq 0 (length X_ids_bert).
Proof.
  intros H2 H3 H4 H5 Hn.
  destruct (shuffle_split_partition _ Hn) as (train & test & Hsplit & Hcat).
  destruct (shuffle_split_in_range _ _ _ Hcat) as (Htr & Hte & Hnd).
  assert (Hidx : ∀ {T} (a : list T) ind,
             length a = length X_ids_bert →
             Forall (λ i, i < length X_ids_bert)%nat ind →
             ∃ part, safe_indexing a ind = Ok part ∧ rows_from a part ind).
  { intros T a ind Hlen Hind. rewrite <- Hlen in Hind.
    destruct (safe_indexing_total a ind Hind) as [part Hpart].
    exists part. split; [done | by apply safe_indexing_rows]. }
  destruct (Hidx _ X_ids_bert train eq_refl Htr) as (ib_train & E1 & R1).
  destruct (Hidx _ X_ids_bert test eq_refl Hte) as (ib_test & E2 & R2).
  destruct (Hidx _ X_mask_bert train H2 Htr) as (mb_train & E3 & R3).
  destruct (Hidx _ X_mask_bert test H2 Hte) as (mb_test & E4 & R4).
  destruct (Hidx _ X_ids_roberta train H3 Htr) as (ir_train & E5 & R5).
  destruct (Hidx _ X_ids_roberta test H3 Hte) as (ir_test & E6 & R6).
  destruct (Hidx _ X_mask_roberta train H4 Htr) as (mr_train & E7 & R7).
  destruct (Hidx _ X_mask_roberta test H4 Hte) as (mr_test & E8 & R8).
  destruct (Hidx _ labels train H5 Htr) as (y_train & E9 & R9).
  destruct (Hidx _ labels test H5 Hte) as (y_test & E10 & R10).
  exists train, test, ib_train, ib_test, mb_train, mb_test,
    ir_train, ir_test, mr_train, mr_test, y_train, y_test.
  split_and!; try done.
  - unfold train_test_split, check_consistent_length.
    rewrite decide_True by (repeat constructor; done).
    simpl. rewrite Hsplit. simpl.
    rewrite E1, E2, E3, E4, E5, E6, E7, E8, E9, E10. done.
  - intros i Hitr Hite. apply NoDup_app in Hnd as (_ & Hdisj & _).
    by apply (Hdisj i).
  - rewrite Hcat. apply permutation_spec.
Qed.

End SplitFacts.

(** ** Sizes and errors of the split *)

Section SplitSizes.

Import Split.

Lemma n_test_of_ceil (n : nat) : (n ≤ 5 * n_test_of n < n + 5)%nat.
Proof.
  unfold n_test_of, test_size, Qceiling, Qfloor, Qopp, Qmult, inject_Z.
  cbn [Qnum Qden]. change (Z.pos (10 * 1)) with 10.
  pose proof (Z.div_mod (- (2 * Z.of_nat n)) 10 ltac:(lia)) as Hdiv.
  pose proof (Z.mod_pos_bound (- (2 * Z.of_nat n)) 10 ltac:(lia)) as Hmod.
  lia.
Qed.

Lemma n_test_of_small (n : nat) : (n ≤ 1)%nat → (n - n_test_of n = 0)%nat.
Proof. intros Hn. pose proof (n_test_of_ceil n). lia. Qed.

Lemma safe_indexing_omap {A} (a part : list A) (ind : list nat) :
  safe_indexing a ind = Ok part → part = omap (λ i, a !! i) ind.
Proof.
  unfold safe_indexing. intros Hs. apply traverse_Forall2 in Hs.
  induction Hs as [|i x ind part Hi _ IH]; [done|].
  cbn [omap list_omap]. destruct (a !! i) as [y|]; [|discriminate].
  injection Hi as ->. by rewrite IH.
Qed.

Lemma omap_lookup_seq {A} (a : list A) :
  omap (λ i, a !! i) (seq 0 (length a)) = a.
Proof.
  induction a as [|x a IH] using rev_ind; [done|].
  rewrite length_app. cbn [length]. rewrite Nat.add_1_r, seq_S, omap_app.
  cbn [omap list_omap Nat.add]. rewrite list_lookup_middle by done.
  f_equal. rewrite <- IH at 2. apply list_omap_ext, Forall2_same_length_lookup.
  split; [done|]. intros j i i' Hi Hi'. assert (i' = i) as -> by congruence.
  apply lookup_seq in Hi as [-> Hj]. by rewrite lookup_app_l.
Qed.

Lemma check_consistent_length_Ok (n1 n2 n3 n4 n5 n : nat) :
  check_consistent_length [n1; n2; n3; n4; n5] = Ok n →
  n1 = n ∧ n2 = n ∧ n3 = n ∧ n4 = n ∧ n5 = n.
Proof.
  cbn [check_consistent_length]. case_decide as Hall; [|discriminate].
  intros [= <-]. rewrite !Forall_cons in Hall.
  by destruct Hall as (? & ? & ? & ? & _).
Qed.

Lemma train_test_split_inv {A B C D E} (perm : nat → nat → list nat)
    (a1 : list A) (a2 : list B) (a3 : list C) (a4 : list D) (a5 : list E)
    tr1 te1 tr2 te2 tr3 te3 tr4 te4 tr5 te5 :
  train_test_split perm a1 a2 a3 a4 a5
  = Ok (tr1, te1, (tr2, te2), (tr3, te3), (tr4, te4), (tr5, te5)) →
  ∃ train test,
    (length a2 = length a1 ∧ length a3 = length a1 ∧ length a4 = length a1 ∧
     length a5 = length a1) ∧
    shuffle_split perm (length a1) = Ok (train, test) ∧
    (safe_indexing a1 train = Ok tr1 ∧ safe_indexing a2 train = Ok tr2 ∧
     safe_indexing a3 train = Ok tr3 ∧ safe_indexing a4 train = Ok tr4 ∧
     safe_indexing a5 train = Ok tr5) ∧
    (safe_indexing a1 test = Ok te1 ∧ safe_indexing a2 test = Ok te2 ∧
     safe_indexing a3 test = Ok te3 ∧ safe_indexing a4 test = Ok te4 ∧
     safe_indexing a5 test = Ok te5).
Proof.
  intros Hs. unfold train_test_split in Hs.
  apply bind_Ok in Hs as (n & Hn & Hs).
  apply check_consistent_length_Ok in Hn as (<- & H2 & H3 & H4 & H5).
  apply bind_Ok in Hs as ([train test] & Hsplit & Hs).
  repeat (apply bind_Ok in Hs as (? & ? & Hs)).
  injection Hs as <- <- <- <- <- <- <- <- <- <-.
  exists train, test. split_and!; done.
Qed.

Lemma train_test_split_error {A B C D E} (perm : nat → nat → list nat)
    (a1 : list A) (a2 : list B) (a3 : list C) (a4 : list D) (a5 : list E) (e : exn) :
  train_test_split perm a1 a2 a3 a4 a5 = Raise e → data_error e.
Proof.
  assert (Hidx : ∀ X (a : list X) ind, safe_indexing a ind = Raise e → data_error e).
  { intros X a ind Hr. apply traverse_Raise in Hr as (i & _ & Hi).
    destruct (a !! i); [done|]. injection Hi as <-. right. eauto. }
  unfold train_test_split. intros Hr.
  apply bind_Raise in Hr as [Hlen|(n & _ & Hr)].
  { left. cbn [check_consistent_length] in Hlen. destruct (decide _); [done|].
    injection Hlen as <-. eauto. }
  apply bind_Raise in Hr as [Hsplit|([train test] & _ & Hr)].
  { left. unfold shuffle_split, validate_shuffle_split in Hsplit.
    destruct (decide _); [|done]. injection Hsplit as <-. eauto. }
  repeat (apply bind_Raise in Hr as [Hr|(? & _ & Hr)]; [by eapply Hidx|]).
  done.
Qed.

Variable permutation : nat → nat → list nat.
Hypothesis permutation_spec : ∀ n, permutation random_state n ≡ₚ seq 0 n.

Lemma shuffle_split_Ok (n : nat) (train test : list nat) :
  shuffle_split permutation n = Ok (train, test) →
  (0 < n - n_test_of n)%nat ∧
  length test = n_test_of n ∧ length train = (n - n_test_of n)%nat ∧
  test ++ train = permutation random_state n.
Proof.
  unfold shuffle_split, validate_shuffle_split. case_decide as Hz; [discriminate|].
  cbn [mbind result_bind]. intros [= <- <-].
  pose proof (Permutation_length (permutation_spec n)) as Hlen.
  rewrite length_seq in Hlen.
  rewrite (take_ge (drop _ _)) by (rewrite length_drop; lia).
  rewrite length_take, length_drop, take_drop. split_and!; [lia | lia | lia | done].
Qed.

Lemma train_test_split_lengths {A B C D E}
    (a1 : list A) (a2 : list B) (a3 : list C) (a4 : list D) (a5 : list E)
    tr1 te1 tr2 te2 tr3 te3 tr4 te4 tr5 te5 :
  train_test_split permutation a1 a2 a3 a4 a5
  = Ok (tr1, te1, (tr2, te2), (tr3, te3), (tr4, te4), (tr5, te5)) →
  let t := n_test_of (length a1) in
  (0 < length a1 - t)%nat ∧
  (length te1 = t ∧ length te2 = t ∧ length te3 = t ∧ length te4 = t ∧
   length te5 = t) ∧
  (length tr1 = (length a1 - t)%nat ∧ length tr2 = (length a1 - t)%nat ∧
   length tr3 = (length a1 - t)%nat ∧ length tr4 = (length a1 - t)%nat ∧
   length tr5 = (length a1 - t)%nat).
Proof.
  intros Hs t.
  apply train_test_split_inv in Hs
    as (train & test & _ & Hsplit & Htrain & Htest).
  apply shuffle_split_Ok in Hsplit as (Hpos & Hte & Htr & _). fold t in Hpos, Hte, Htr.
  destruct Htrain as (T1%safe_indexing_rows%proj1 & T2%safe_indexing_rows%proj1 &
    T3%safe_indexing_rows%proj1 & T4%safe_indexing_rows%proj1 &
    T5%safe_indexing_rows%proj1).
  destruct Htest as (E1%safe_indexing_rows%proj1 & E2%safe_indexing_rows%proj1 &
    E3%safe_indexing_rows%proj1 & E4%safe_indexing_rows%proj1 &
    E5%safe_indexing_rows%proj1).
  split_and!; congruence.
Qed.

Lemma train_test_split_total {A B C D E}
    (a1 : list A) (a2 : list B) (a3 : list C) (a4 : list D) (a5 : list E) :
  length a2 = length a1 → length a3 = length a1 → length a4 = length a1 →
  length a5 = length a1 → (2 ≤ length a1)%nat →
  ∃ parts, train_test_split permutation a1 a2 a3 a4 a5 = Ok parts.
Proof.
  intros H2 H3 H4 H5 Hn.
  destruct (shuffle_split_partition permutation permutation_spec _ Hn)
    as (train & test & Hsplit & Hcat).
  destruct (shuffle_split_in_range permutation permutation_spec _ _ _ Hcat)
    as (Htr & Hte & _).
  assert (Hidx : ∀ {T} (a : list T) ind,
             length a = length a1 → Forall (λ i, i < length a1)%nat ind →
             ∃ part, safe_indexing a ind = Ok part).
  { intros T a ind Hlen Hind. rewrite <- Hlen in Hind.
    by apply safe_indexing_total. }
  destruct (Hidx _ a1 train eq_refl Htr) as (? & E1).
  destruct (Hidx _ a1 test eq_refl Hte) as (? & E2).
  destruct (Hidx _ a2 train H2 Htr) as (? & E3).
  destruct (Hidx _ a2 test H2 Hte) as (? & E4).
  destruct (Hidx _ a3 train H3 Htr) as (? & E5).
  destruct (Hidx _ a3 test H3 Hte) as (? & E6).
  destruct (Hidx _ a4 train H4 Htr) as (? & E7).
  destruct (Hidx _ a4 test H4 Hte) as (? & E8).
  destruct (Hidx _ a5 train H5 Htr) as (? & E9).
  destruct (Hidx _ a5 test H5 Hte) as (? & E10).
  unfold train_test_split, check_consistent_length.
  rewrite decide_True by (repeat constructor; done).
  cbn [mbind result_bind]. rewrite Hsplit. cbn [mbind result_bind].
  rewrite E1, E2, E3, E4, E5, E6, E7, E8, E9, E10. cbn [mbind result_bind]. eauto.
Qed.

(** X4.  Sizes of the split.  Of [n] rows the test parts get
    [ceil(n / 5)] (the least [t] with [n <= 5 t]) and the train parts the
    remaining [n - t]; the five arrays are cut alike, and neither side is
    empty. *)
Theorem train_test_split_sizes {A B C D E}
    (a1 : list A) (a2 : list B) (a3 : list C) (a4 : list D) (a5 : list E)
    tr1 te1 tr2 te2 tr3 te3 tr4 te4 tr5 te5 :
  train_test_split permutation a1 a2 a3 a4 a5
  = Ok (tr1, te1, (tr2, te2), (tr3, te3), (tr4, te4), (tr5, te5)) →
  let n := length a1 in
  let t := n_test_of n in
  (n ≤ 5 * t < n + 5)%nat ∧ (1 ≤ t < n)%nat ∧
  (length te1 = t ∧ length te2 = t ∧ length te3 = t ∧ length te4 = t ∧
   length te5 = t) ∧
  (length tr1 = (n - t)%nat ∧ length tr2 = (n - t)%nat ∧ length tr3 = (n - t)%nat ∧
   length tr4 = (n - t)%nat ∧ length tr5 = (n - t)%nat).
Proof.
  intros Hs n t.
  destruct (train_test_split_lengths _ _ _ _ _ _ _ _ _ _ _ _ _ _ _ Hs)
    as (Hpos & Hte & Htr).
  pose proof (n_test_of_ceil n). fold n t in Hpos, Hte, Htr.
  split_and!; try tauto; subst t; lia.
Qed.

(** X5.  Every row ends up on exactly one side: for each of the five
    arrays the test part followed by the train part is a rearrangement of
    the original array, so no comment, mask or label is lost or used
    twice. *)
Theorem train_test_split_keeps_every_row {A B C D E}
    (a1 : list A) (a2 : list B) (a3 : list C) (a4 : list D) (a5 : list E)
    tr1 te1 tr2 te2 tr3 te3 tr4 te4 tr5 te5 :
  train_test_split permutation a1 a2 a3 a4 a5
  = Ok (tr1, te1, (tr2, te2), (tr3, te3), (tr4, te4), (tr5, te5)) →
  te1 ++ tr1 ≡ₚ a1 ∧ te2 ++ tr2 ≡ₚ a2 ∧ te3 ++ tr3 ≡ₚ a3 ∧
  te4 ++ tr4 ≡ₚ a4 ∧ te5 ++ tr5 ≡ₚ a5.
Proof.
  intros Hs.
  apply train_test_split_inv in Hs
    as (train & test & (H2 & H3 & H4 & H5) & Hsplit & Htrain & Htest).
  apply shuffle_split_Ok in Hsplit as (_ & _ & _ & Hperm).
  assert (Hall : ∀ X (a : list X) tr te,
             length a = length a1 → safe_indexing a train = Ok tr →
             safe_indexing a test = Ok te → te ++ tr ≡ₚ a).
  { intros X a tr te Hlen ->%safe_indexing_omap ->%safe_indexing_omap.
    rewrite <- omap_app, Hperm, (permutation_spec (length a1)), <- Hlen.
    by rewrite omap_lookup_seq. }
  destruct Htrain as (? & ? & ? & ? & ?). destruct Htest as (? & ? & ? & ? & ?).
  split_and!; by apply Hall.
Qed.

End SplitSizes.

Lemma train_test_split_tiny {A B C D E} (permutation : nat → nat → list nat)
    (a1 : list A) (a2 : list B) (a3 : list C) (a4 : list D) (a5 : list E) :
  length a2 = length a1 → length a3 = length a1 →
  length a4 = length a1 → length a5 = length a1 → (length a1 ≤ 1)%nat →
  Split.train_test_split permutation a1 a2 a3 a4 a5
  = Raise (ValueError "the resulting train set will be empty").
Proof.
  intros H2 H3 H4 H5 Hn. unfold Split.train_test_split, Split.check_consistent_length.
  rewrite decide_True by (repeat constructor; done).
  cbn [mbind result_bind]. unfold Split.shuffle_split, Split.validate_shuffle_split.
  pose proof (n_test_of_small (length a1) Hn) as Hsmall.
  case_decide as Hz; [done | lia].
Qed.

(** X6.  What [train_test_split] refuses, whatever the permutation:
    arrays of different lengths, and inputs of fewer than two rows, for
    which the 80 percent side would be empty. *)
Theorem train_test_split_rejects {A B C D E} (permutation : nat → nat → list nat)
    (a1 : list A) (a2 : list B) (a3 : list C) (a4 : list D) (a5 : list E) :
  (¬ (length a2 = length a1 ∧ length a3 = length a1 ∧
      length a4 = length a1 ∧ length a5 = length a1) →
   Split.train_test_split permutation a1 a2 a3 a4 a5
   = Raise (ValueError "Found input variables with inconsistent numbers of samples")) ∧
  (length a2 = length a1 → length a3 = length a1 →
   length a4 = length a1 → length a5 = length a1 → (length a1 ≤ 1)%nat →
   Split.train_test_split permutation a1 a2 a3 a4 a5
   = Raise (ValueError "the resulting train set will be empty")).
Proof.
  split; [|apply train_test_split_tiny].
  unfold Split.train_test_split, Split.check_consistent_length.
  intros Hne. case_decide as Hall; [|done]. exfalso. apply Hne.
  rewrite !Forall_cons in Hall. by destruct Hall as (? & ? & ? & ? & _).
Qed.

(** ** Tokenization *)

Lemma encode_plus_length (tok : Tokenize.tokenizer) (max_len : nat) (text : string) :
  (2 ≤ max_len)%nat →
  length (Tokenize.encode_plus tok max_len text).1 = max_len ∧
  length (Tokenize.encode_plus tok max_len text).2 = max_len.
Proof.
  intros Hmax. unfold Tokenize.encode_plus. cbn [fst snd].
  set (pieces := take (max_len - 2) (Tokenize.tokenize tok text)).
  assert (Hp : (length pieces ≤ max_len - 2)%nat).
  { subst pieces. rewrite length_take. lia. }
  rewrite !length_app, !length_replicate. cbn [length].
  rewrite !length_app. cbn [length]. lia.
Qed.

Lemma tokenizer_call_shape (tok : Tokenize.tokenizer) (texts : list string) (max_len : nat) :
  (2 ≤ max_len)%nat →
  length (Tokenize.input_ids (Tokenize.call tok texts max_len)) = length texts ∧
  length (Tokenize.attention_mask (Tokenize.call tok texts max_len)) = length texts ∧
  Forall (λ row, length row = max_len)
         (Tokenize.input_ids (Tokenize.call tok texts max_len)) ∧
  Forall (λ row, length row = max_len)
         (Tokenize.attention_mask (Tokenize.call tok texts max_len)).
Proof.
  intros Hmax. unfold Tokenize.call. cbn [Tokenize.input_ids Tokenize.attention_mask].
  rewrite !length_map. split_and!; try done.
  - apply Forall_forall. intros row Hrow.
    apply list_elem_of_fmap in Hrow as (pr & -> & Hpr).
    apply list_elem_of_fmap in Hpr as (text & -> & _).
    by apply encode_plus_length.
  - apply Forall_forall. intros row Hrow.
    apply list_elem_of_fmap in Hrow as (pr & -> & Hpr).
    apply list_elem_of_fmap in Hpr as (text & -> & _).
    by apply encode_plus_length.
Qed.

Lemma astype_int32_shape (a : list (list Z)) (n : nat) :
  length (astype_int32 a) = length a ∧
  (Forall (λ row, length row = n) a → Forall (λ row, length row = n) (astype_int32 a)).
Proof.
  unfold astype_int32. rewrite length_map. split; [done|]. intros Ha.
  apply Forall_forall. intros row Hrow. apply list_elem_of_fmap in Hrow as (r & -> & Hr).
  rewrite length_map. by apply (proj1 (Forall_forall _ _) Ha).
Qed.

(** ** Tokenization and the int32 conversion *)

Section TokenizeFacts.

Import Tokenize.




Lemma to_int32_small (z : Z) : - 2 ^ 31 ≤ z < 2 ^ 31 → to_int32 z = z.
Proof. intros Hz. unfold to_int32. rewrite Z.mod_small; lia. Qed.

Lemma to_int32_range (z : Z) : - 2 ^ 31 ≤ to_int32 z < 2 ^ 31.
Proof.
  unfold to_int32. pose proof (Z.mod_pos_bound (z + 2 ^ 31) (2 ^ 32)). lia.
Qed.

Lemma astype_int32_small (a : list (list Z)) :
  Forall (Forall (λ z, - 2 ^ 31 ≤ z < 2 ^ 31)) a → astype_int32 a = a.
Proof.
  intros Ha. unfold astype_int32. rewrite <- (list_fmap_id a) at 2.
  apply Forall_fmap_ext_1. eapply Forall_impl; [exact Ha|].
  intros row Hrow. cbn. rewrite <- (list_fmap_id row) at 2.
  apply Forall_fmap_ext_1. eapply Forall_impl; [exact Hrow|].
  intros z Hz. by apply to_int32_small.
Qed.

(** X3.  The conversion of lines 47-55 and 198-204 loses nothing on
    what the tokenizers produce: every entry of a converted array fits in
    32 bits, attention masks come out unchanged, and so do the token ids
    of a tokenizer whose vocabulary ids are below [2^31].  Converting a
    second time changes nothing. *)
Theorem int32_conversion_keeps_tokens (tok : tokenizer) (texts : list string)
    (max_len : nat) :
  (∀ text, Forall (λ z, 0 ≤ z < 2 ^ 31) (tokenize tok text)) →
  0 ≤ cls_token_id tok < 2 ^ 31 →
  0 ≤ sep_token_id tok < 2 ^ 31 →
  0 ≤ pad_token_id tok < 2 ^ 31 →
  astype_int32 (tokenize_for_model tok texts max_len).1
  = (tokenize_for_model tok texts max_len).1 ∧
  astype_int32 (tokenize_for_model tok texts max_len).2
  = (tokenize_for_model tok texts max_len).2 ∧
  (∀ a, Forall (Forall (λ z, - 2 ^ 31 ≤ z < 2 ^ 31)) (astype_int32 a) ∧
        astype_int32 (astype_int32 a) = astype_int32 a).
Proof.
  intros Hvocab Hcls Hsep Hpad.
  assert (Hrange : ∀ a, Forall (Forall (λ z, - 2 ^ 31 ≤ z < 2 ^ 31)) (astype_int32 a)).
  { intros a. unfold astype_int32. apply Forall_fmap, Forall_forall. intros row _.
    apply Forall_fmap, Forall_forall. intros z _. apply to_int32_range. }
  split_and!.
  - apply astype_int32_small. unfold tokenize_for_model, call.
    cbn [fst input_ids]. rewrite <- list_fmap_compose.
    apply Forall_fmap, Forall_forall. intros text _. cbn.
    constructor; [lia|]. rewrite !Forall_app. split_and!.
    + eapply Forall_impl; [apply Forall_take, Hvocab|]. cbn. lia.
    + constructor; [lia | constructor].
    + apply Forall_replicate. lia.
  - apply astype_int32_small. unfold tokenize_for_model, call.
    cbn [snd attention_mask]. rewrite <- list_fmap_compose.
    apply Forall_fmap, Forall_forall. intros text _. cbn.
    constructor; [lia|]. rewrite !Forall_app. split; apply Forall_replicate; lia.
  - intros a. split; [apply Hrange | apply astype_int32_small, Hrange].
Qed.

End TokenizeFacts.

(** ** The ensemble graph *)

Section EnsembleFacts.

Import Keras Ensemble.
Context `{Transformers}.

Lemma call_no_dropout (t : tensor) tr1 tr2 keep1 keep2 θ feeds :
  has_dropout t = false →
  call tr1 keep1 θ feeds t = call tr2 keep2 θ feeds t.
Proof.
  induction t as [name shape|f o a IHa b IHb|a IHa b IHb|name u act x IHx|name r x IHx];
    simpl; intros Hd; try done.
  - apply orb_false_iff in Hd as [Ha Hb]. by rewrite (IHa Ha), (IHb Hb).
  - apply orb_false_iff in Hd as [Ha Hb]. by rewrite (IHa Ha), (IHb Hb).
  - by rewrite (IHx Hd).
Qed.

Lemma first_tokens (lhs : list (list (list R))) (rows : list (list R)) :
  traverse (λ tokens, match tokens !! 0%nat with
                      | Some v => Ok v
                      | None => Raise (IndexError 0)
                      end) lhs = Ok rows →
  length rows = length lhs ∧
  ∀ j tokens, lhs !! j = Some tokens →
              ∃ v, rows !! j = Some v ∧ tokens !! 0%nat = Some v.
Proof.
  intros Htr. apply traverse_Ok_lookup in Htr as [Hlen Hrows]. split; [done|].
  intros j tokens Hj. destruct (Hrows j tokens Hj) as (v & Hv & Hhead).
  exists v. split; [done|]. destruct (tokens !! 0%nat); [|done]. by injection Hhead as ->.
Qed.

(** What a forward pass up to the concatenation consists of. *)
Lemma call_combined_embedding training keep θ feeds v :
  call training keep θ feeds combined_embedding = Ok v →
  ∃ ids_b mask_b ids_r mask_r B,
    feeds !! "bert_input_ids" = Some ids_b ∧
    feeds !! "bert_attention_mask" = Some mask_b ∧
    feeds !! "roberta_input_ids" = Some ids_r ∧
    feeds !! "roberta_attention_mask" = Some mask_r ∧
    bert_branch θ (IntArray ids_b) (IntArray mask_b)
      = Ok (FloatArray (pooler_output (TFBertModel (bert_weights θ) ids_b mask_b))) ∧
    roberta_branch θ (IntArray ids_r) (IntArray mask_r) = Ok (FloatArray B) ∧
    length (pooler_output (TFBertModel (bert_weights θ) ids_b mask_b)) = length B ∧
    v = FloatArray
          (zip_with app (pooler_output (TFBertModel (bert_weights θ) ids_b mask_b)) B).
Proof.
  unfold combined_embedding, bert_output, roberta_output.
  unfold bert_input_ids, bert_attention, roberta_input_ids, roberta_attention.
  cbn [call]. intros Hc.
  destruct (feeds !! "bert_input_ids") as [ids_b|] eqn:E1; [|discriminate].
  destruct (decide (Forall _ ids_b)); [|discriminate].
  destruct (feeds !! "bert_attention_mask") as [mask_b|] eqn:E2; [|discriminate].
  destruct (decide (Forall _ mask_b)); [|discriminate].
  destruct (feeds !! "roberta_input_ids") as [ids_r|] eqn:E3; [|discriminate].
  destruct (decide (Forall _ ids_r)); [|discriminate].
  destruct (feeds !! "roberta_attention_mask") as [mask_r|] eqn:E4; [|discriminate].
  destruct (decide (Forall _ mask_r)); [|discriminate].
  cbn in Hc.
  destruct (traverse _ (last_hidden_state _)) as [B|] eqn:EB; [|discriminate].
  cbn in Hc. destruct (decide (length _ = length B)) as [Hlen|]; [|discriminate].
  injection Hc as <-.
  exists ids_b, mask_b, ids_r, mask_r, B. split_and!; try done.
  unfold roberta_branch. by rewrite EB.
Qed.

(** *** The dense head *)

Lemma sigmoid_range (x : R) : (0 < apply_activation sigmoid x < 1)%R.
Proof.
  simpl. pose proof (exp_pos (- x)) as Hexp.
  assert (Hden : (0 < 1 + exp (- x))%R) by lra.
  split.
  - apply Rdiv_lt_0_compat; lra.
  - apply (Rmult_lt_reg_r (1 + exp (- x))); [done|].
    field_simplify; lra.
Qed.

Lemma dense_forward_length p units act row :
  length (dense_forward p units act row) = units.
Proof. unfold dense_forward. by rewrite length_map, length_seq. Qed.

Lemma dropout_forward_widths keep name rate rows (n : nat) :
  Forall (λ row, length row = n) rows →
  Forall (λ row, length row = n) (dropout_forward keep name rate rows).
Proof.
  intros Hrows. unfold dropout_forward. apply Forall_lookup. intros i row Hi.
  rewrite list_lookup_imap in Hi.
  destruct (rows !! i) as [r|] eqn:Er; [|done]. simpl in Hi. injection Hi as <-.
  rewrite length_imap. exact (Forall_lookup_1 _ _ _ _ Hrows Er).
Qed.

Lemma call_Dense training keep θ feeds name units act x v :
  call training keep θ feeds (Dense name units act x) = Ok v →
  ∃ rows, call training keep θ feeds x = Ok (FloatArray rows) ∧
          Forall (λ row, length row = static_width x) rows ∧
          v = FloatArray (map (dense_forward (dense_weights θ name) units act) rows).
Proof.
  cbn [call]. intros Hc. destruct (call training keep θ feeds x) as [[a|rows]|]; try done.
  cbn in Hc. destruct (decide _) as [Hw|]; [|done]. injection Hc as <-. eauto.
Qed.

Lemma call_Dropout training keep θ feeds name rate x v :
  call training keep θ feeds (Dropout name rate x) = Ok v →
  ∃ rows, call training keep θ feeds x = Ok (FloatArray rows) ∧
          v = FloatArray (if training then dropout_forward keep name rate rows
                          else rows).
Proof.
  cbn [call]. intros Hc. destruct (call training keep θ feeds x) as [[a|rows]|]; try done.
  cbn in Hc. injection Hc as <-. eauto.
Qed.

Lemma Forall_dense_widths p units act (rows : list (list R)) :
  Forall (λ row, length row = units) (map (dense_forward p units act) rows).
Proof.
  apply Forall_forall. intros row Hrow. apply list_elem_of_fmap in Hrow as (r & -> & _).
  apply dense_forward_length.
Qed.

(** The training model's forward pass is the head applied to the very
    tensor the extractor returns. *)
Lemma call_classifier_output training keep θ feeds v :
  call training keep θ feeds classifier_output = Ok v →
  ∃ emb, call training keep θ feeds combined_embedding = Ok (FloatArray emb) ∧
         Forall (λ e, length e = 1536%nat) emb ∧
         v = FloatArray (head_forward training keep θ emb).
Proof.
  unfold classifier_output, x_dropout_1, x_dense_1, x_dropout, x_dense. intros Hc.
  apply call_Dense in Hc as (d2 & Hc & _ & ->).
  apply call_Dropout in Hc as (h2 & Hc & [= ->]).
  apply call_Dense in Hc as (d1 & Hc & _ & [= ->]).
  apply call_Dropout in Hc as (h1 & Hc & [= ->]).
  apply call_Dense in Hc as (emb & Hc & Hw & [= ->]).
  exists emb. split_and!; [done..|]. unfold head_forward. by destruct training.
Qed.

Lemma call_classifier_output_total training keep θ feeds emb :
  call training keep θ feeds combined_embedding = Ok (FloatArray emb) →
  Forall (λ e, length e = 1536%nat) emb →
  call training keep θ feeds classifier_output
    = Ok (FloatArray (head_forward training keep θ emb)).
Proof.
  intros Hc Hw.
  unfold classifier_output, x_dropout_1, x_dense_1, x_dropout, x_dense.
  cbn [call]. rewrite Hc. cbn.
  rewrite decide_True by done. cbn.
  rewrite decide_True.
  2:{ destruct training; [apply dropout_forward_widths|]; apply Forall_dense_widths. }
  cbn. rewrite decide_True.
  2:{ destruct training; [apply dropout_forward_widths|]; apply Forall_dense_widths. }
  unfold head_forward. by destruct training.
Qed.

Lemma head_forward_probabilities training keep θ emb :
  Forall (λ row, ∃ p : R, row = [p] ∧ (0 <= p <= 1)%R)
         (head_forward training keep θ emb).
Proof.
  unfold head_forward. apply Forall_forall. intros row Hrow.
  apply list_elem_of_fmap in Hrow as (r & -> & _).
  unfold dense_forward. simpl. eexists. split; [done|].
  pose proof (sigmoid_range
    (foldr Rplus (bias (dense_weights θ "classifier_output") 0)
       (imap (λ i x, (x * kernel (dense_weights θ "classifier_output") i 0)%R) r)))
    as Hs.
  simpl in Hs. lra.
Qed.

Lemma call_inference_keep (t : tensor) keep1 keep2 θ feeds :
  call false keep1 θ feeds t = call false keep2 θ feeds t.
Proof.
  induction t as [name shape|f o a IHa b IHb|a IHa b IHb|name u act x IHx|name r x IHx];
    cbn [call]; try done.
  - by rewrite IHa, IHb.
  - by rewrite IHa, IHb.
  - by rewrite IHx.
  - by rewrite IHx.
Qed.

Lemma weighted_sum_zero_kernel (b : R) (row : list R) :
  foldr Rplus b (imap (λ (i : nat) (x : R), (x * 0)%R) row) = b.
Proof.
  change (λ (i : nat) (x : R), (x * 0)%R) with (@const (R → R) nat (λ x, (x * 0)%R)).
  rewrite imap_const. induction row as [|x row IH]; [done|].
  cbn [fmap list_fmap foldr]. rewrite IH. lra.
Qed.

Lemma weighted_sum_unit_kernel (c : R) (row : list R) :
  Forall (λ x, x = c) row →
  foldr Rplus 0%R (imap (λ (i : nat) (x : R), (x * 1)%R) row)
  = (INR (length row) * c)%R.
Proof.
  change (λ (i : nat) (x : R), (x * 1)%R) with (@const (R → R) nat (λ x, (x * 1)%R)).
  rewrite imap_const. induction 1 as [|x row -> _ IH].
  - simpl. lra.
  - cbn [fmap list_fmap foldr length]. rewrite IH, S_INR. lra.
Qed.

Lemma dropout_changes_training_output :
  head_forward true (λ _ _ _, false) summing_store [[]]
  ≠ head_forward false (λ _ _ _, false) summing_store [[]].
Proof.
  unfold head_forward, summing_store. cbn [dense_weights].
  rewrite (decide_True (P := "classifier_output" = "classifier_output")) by done.
  rewrite (decide_False (P := "dense_1" = "classifier_output")) by done.
  rewrite (decide_False (P := "dense" = "classifier_output")) by done.
  set (h1 := map (dense_forward _ 128 relu) [[]]).
  assert (Hh2 : ∀ rows : list (list R),
             Forall (λ row, length row = 64%nat ∧ Forall (λ x, x = 1%R) row)
               (map (dense_forward {| kernel := λ _ _, 0%R; bias := λ _, 1%R |}
                                   64 relu) rows)).
  { intros rows. apply Forall_forall. intros row Hrow.
    apply list_elem_of_fmap in Hrow as (r & -> & _).
    split; [apply dense_forward_length|].
    unfold dense_forward. apply Forall_forall. intros x Hx.
    apply list_elem_of_fmap in Hx as (j & -> & _). cbn [bias kernel].
    rewrite weighted_sum_zero_kernel. simpl. apply Rmax_right. lra. }
  assert (Hlen1 : length h1 = 1%nat) by done.
  destruct h1 as [|r1 [|? ?]]; try done.
  cbn [dropout_forward imap map].
  pose proof (Hh2 [imap (λ (_ : nat) (_ : R), 0%R) r1]) as Htrain.
  pose proof (Hh2 [r1]) as Hinfer. cbn [map] in Htrain, Hinfer.
  apply Forall_singleton in Htrain as [Hlt Ht], Hinfer as [Hli Hi].
  set (t2 := dense_forward _ 64 relu (imap _ r1)) in *.
  set (i2 := dense_forward _ 64 relu r1) in *.
  clearbody t2 i2. clear Hh2.
  unfold dense_forward. cbn [map seq bias kernel].
  intros Heq. injection Heq as Heq.
  rewrite (weighted_sum_unit_kernel 0) in Heq.
  2:{ apply Forall_lookup. intros j x Hx. rewrite list_lookup_imap in Hx.
      destruct (_ !! j); [|done]. by injection Hx as <-. }
  rewrite (weighted_sum_unit_kernel 1 _ Hi), Hli in Heq.
  rewrite Rmult_0_r, Rmult_1_r in Heq. simpl apply_activation in Heq.
  rewrite Ropp_0, exp_0 in Heq.
  assert (H64 : (0 < INR 64)%R) by (apply lt_0_INR; lia).
  assert (Hexp : (exp (- INR 64) < 1)%R).
  { rewrite <- exp_0. apply exp_increasing. lra. }
  pose proof (exp_pos (- INR 64)).
  assert (Hne : (1 / (1 + 1) < 1 / (1 + exp (- INR 64)))%R).
  { apply Rmult_lt_compat_l; [lra|]. apply Rinv_lt_contravar; [nra | lra]. }
  rewrite Heq in Hne. lra.
Qed.

Hypothesis bert_base : encoder_contract 768 TFBertModel.
Hypothesis roberta_base : encoder_contract 768 TFRobertaModel.

Lemma roberta_branch_rows θ ids mask B :
  roberta_branch θ (IntArray ids) (IntArray mask) = Ok (FloatArray B) →
  length B = length ids ∧ Forall (λ v, length v = 768%nat) B.
Proof.
  unfold roberta_branch. intros Hr.
  destruct (traverse _ _) as [rows|] eqn:Erows; [|discriminate].
  injection Hr as ->. apply first_tokens in Erows as [Hlen Hrows].
  destruct (roberta_base (roberta_weights θ) ids mask) as (_ & _ & Hshape).
  split; [by rewrite Hlen, (Forall2_length _ _ _ Hshape)|].
  apply Forall_lookup. intros j v Hv.
  destruct (lookup_lt_is_Some_2 (last_hidden_state
              (TFRobertaModel (roberta_weights θ) ids mask)) j) as [tokens Htok].
  { rewrite <- Hlen. by eapply lookup_lt_Some. }
  destruct (Hrows j tokens Htok) as (v' & Hv' & Hhead).
  assert (v' = v) as -> by congruence.
  destruct (Forall2_lookup_l _ _ _ _ _ Hshape Htok) as (row & _ & _ & Hwidth).
  exact (Forall_lookup_1 _ _ _ _ Hwidth Hhead).
Qed.

Lemma fused_rows training keep θ feeds embs :
  call training keep θ feeds combined_embedding = Ok (FloatArray embs) →
  ∃ ids_b mask_b ids_r mask_r B,
    feeds !! "bert_input_ids" = Some ids_b ∧
    feeds !! "bert_attention_mask" = Some mask_b ∧
    feeds !! "roberta_input_ids" = Some ids_r ∧
    feeds !! "roberta_attention_mask" = Some mask_r ∧
    roberta_branch θ (IntArray ids_r) (IntArray mask_r) = Ok (FloatArray B) ∧
    length embs = length ids_b ∧ length ids_r = length ids_b ∧
    ∀ j e, embs !! j = Some e →
      length e = 1536%nat ∧
      pooler_output (TFBertModel (bert_weights θ) ids_b mask_b) !! j
        = Some (take 768 e) ∧
      B !! j = Some (drop 768 e).
Proof.
  intros Hc.
  apply call_combined_embedding in Hc
    as (ids_b & mask_b & ids_r & mask_r & B & F1 & F2 & F3 & F4 & _ & HB & Hlen & Hv).
  injection Hv as ->.
  exists ids_b, mask_b, ids_r, mask_r, B.
  destruct (bert_base (bert_weights θ) ids_b mask_b) as (HlenA & HwA & _).
  destruct (roberta_branch_rows _ _ _ _ HB) as [HlenB HwB].
  split_and!; try done.
  - rewrite length_zip_with. lia.
  - lia.
  - intros j e He. rewrite lookup_zip_with in He.
    destruct (pooler_output _ !! j) as [a|] eqn:Ea; [|done].
    destruct (B !! j) as [b|] eqn:Eb; [|done].
    simpl in He. injection He as <-.
    pose proof (Forall_lookup_1 _ _ _ _ HwA Ea) as Hla. simpl in Hla.
    pose proof (Forall_lookup_1 _ _ _ _ HwB Eb) as Hlb. simpl in Hlb.
    split_and!.
    + rewrite length_app. lia.
    + by rewrite take_app_length' by done.
    + by rewrite drop_app_length' by done.
Qed.

Lemma model_call_extractor_widths training keep θ xs rows :
  model_call embedding_extractor training keep θ xs ≫= as_float = Ok rows →
  Forall (λ e, length e = 1536%nat) rows.
Proof.
  intros Hc. apply bind_Ok in Hc as (v & Hv & Hrows).
  unfold model_call in Hv. apply bind_Ok in Hv as (feeds & _ & Hcall).
  destruct v as [a|rows']; [done|]. injection Hrows as ->.
  cbn [outputs embedding_extractor] in Hcall.
  apply fused_rows in Hcall as (? & ? & ? & ? & ? & _ & _ & _ & _ & _ & _ & _ & Hrows).
  apply Forall_lookup. intros j e He. by destruct (Hrows j e He).
Qed.

Lemma predict_extractor_widths θ xs batch_size embs :
  predict embedding_extractor θ xs batch_size = Ok embs →
  Forall (λ e, length e = 1536%nat) embs.
Proof.
  unfold predict. intros Hp. apply bind_Ok in Hp as (n & _ & Hp).
  apply bind_Ok in Hp as (outs & Houts & Hp). injection Hp as <-.
  apply Forall_concat. apply traverse_Forall2 in Houts.
  apply Forall_lookup. intros k rows Hk.
  destruct (Forall2_lookup_r _ _ _ _ _ Houts Hk) as (i & _ & Hi).
  by eapply model_call_extractor_widths.
Qed.

Lemma call_combined_embedding_weights training keep θ θ' feeds :
  bert_weights θ' = bert_weights θ →
  roberta_weights θ' = roberta_weights θ →
  call training keep θ' feeds combined_embedding
  = call training keep θ feeds combined_embedding.
Proof.
  intros Hb Hr. unfold combined_embedding, bert_output, roberta_output.
  unfold bert_input_ids, bert_attention, roberta_input_ids, roberta_attention.
  cbn [call].
  destruct (feeds !! "bert_input_ids") as [a1|]; [|done].
  destruct (decide _); [|done].
  destruct (feeds !! "bert_attention_mask") as [a2|]; [|done].
  destruct (decide _); [|done].
  destruct (feeds !! "roberta_input_ids") as [a3|]; [|done].
  destruct (decide _); [|done].
  destruct (feeds !! "roberta_attention_mask") as [a4|]; [|done].
  destruct (decide _); [|done].
  cbn. by rewrite Hb, Hr.
Qed.

Lemma model_call_extractor_weights training keep θ θ' xs :
  bert_weights θ' = bert_weights θ →
  roberta_weights θ' = roberta_weights θ →
  model_call embedding_extractor training keep θ' xs
  = model_call embedding_extractor training keep θ xs.
Proof.
  intros Hb Hr. unfold model_call.
  destruct (feed (inputs embedding_extractor) xs) as [feeds|]; [|done].
  change (call training keep θ' feeds combined_embedding
          = call training keep θ feeds combined_embedding).
  by apply call_combined_embedding_weights.
Qed.

Lemma predict_extractor_weights θ θ' xs batch_size :
  bert_weights θ' = bert_weights θ →
  roberta_weights θ' = roberta_weights θ →
  predict embedding_extractor θ' xs batch_size
  = predict embedding_extractor θ xs batch_size.
Proof.
  intros Hb Hr. unfold predict. destruct (cardinality xs) as [n|]; [|done].
  assert (Heq : ∀ l : list nat,
    traverse (λ k, v ← model_call embedding_extractor false no_draw θ'
                        (map (λ x, take batch_size (drop (k * batch_size) x)) xs);
                   as_float v) l
    = traverse (λ k, v ← model_call embedding_extractor false no_draw θ
                          (map (λ x, take batch_size (drop (k * batch_size) x)) xs);
                     as_float v) l).
  { induction l as [|k l IH]; [done|]. cbn [traverse]. rewrite IH.
    by rewrite (model_call_extractor_weights _ _ θ θ'). }
  cbn. by rewrite Heq.
Qed.

Lemma roberta_branch_total θ ids mask :
  Forall (λ row : list Z, (0 < length row)%nat) ids →
  ∃ B, roberta_branch θ (IntArray ids) (IntArray mask) = Ok (FloatArray B).
Proof.
  intros Hids. unfold roberta_branch.
  destruct (roberta_base (roberta_weights θ) ids mask) as (_ & _ & Hshape).
  destruct (traverse_total
              (λ tokens : list (list R),
                 match tokens !! 0%nat with
                 | Some v => Ok v
                 | None => Raise (IndexError 0)
                 end)
              (last_hidden_state (TFRobertaModel (roberta_weights θ) ids mask)))
    as [B HB].
  { apply Forall_lookup. intros j tokens Hj.
    destruct (Forall2_lookup_l _ _ _ _ _ Hshape Hj) as (row & Hrow & Hlen & _).
    pose proof (Forall_lookup_1 _ _ _ _ Hids Hrow) as Hpos. cbn in Hpos.
    destruct (lookup_lt_is_Some_2 tokens 0) as [v Hv]; [lia|].
    rewrite Hv. eauto. }
  rewrite HB. eauto.
Qed.

Lemma extractor_call_total training keep θ ids_b mask_b ids_r mask_r :
  Forall (λ row, length row = max_seq_length) ids_b →
  Forall (λ row, length row = max_seq_length) mask_b →
  Forall (λ row, length row = max_seq_length) ids_r →
  Forall (λ row, length row = max_seq_length) mask_r →
  length ids_r = length ids_b →
  ∃ embs,
    model_call embedding_extractor training keep θ [ids_b; mask_b; ids_r; mask_r]
    = Ok (FloatArray embs) ∧
    length embs = length ids_b ∧ Forall (λ e, length e = 1536%nat) embs.
Proof.
  intros H1 H2 H3 H4 Hlen.
  destruct (roberta_branch_total θ ids_r mask_r) as [B HB].
  { eapply Forall_impl; [exact H3|]. intros row Hrow. cbn in Hrow.
    rewrite Hrow. unfold max_seq_length. lia. }
  destruct (roberta_branch_rows _ _ _ _ HB) as [HlenB _].
  destruct (bert_base (bert_weights θ) ids_b mask_b) as (HlenA & _ & _).
  assert (Hcall : model_call embedding_extractor training keep θ
                    [ids_b; mask_b; ids_r; mask_r]
                  = Ok (FloatArray
                          (zip_with app
                             (pooler_output (TFBertModel (bert_weights θ) ids_b mask_b))
                             B))).
  { unfold model_call, embedding_extractor, combined_embedding, bert_output,
      roberta_output, bert_input_ids, bert_attention, roberta_input_ids,
      roberta_attention.
    cbn [inputs outputs feed input_name mbind result_bind call].
    repeat first [ rewrite lookup_insert_eq
                 | rewrite lookup_insert_ne by (apply String.eqb_neq; reflexivity) ].
    rewrite !decide_True by done. cbn [mbind result_bind bert_branch].
    rewrite HB. cbn [mbind result_bind].
    rewrite decide_True by lia. done. }
  eexists. split; [exact Hcall|].
  pose proof Hcall as Hw. unfold model_call in Hw.
  apply bind_Ok in Hw as (feeds & _ & Hw).
  cbn [outputs embedding_extractor] in Hw.
  apply fused_rows in Hw as (? & ? & ? & ? & ? & _ & _ & _ & _ & _ & _ & _ & Hrows).
  split.
  - rewrite length_zip_with. lia.
  - apply Forall_lookup. intros j e He. by destruct (Hrows j e He).
Qed.

(** A single request: one row per array, one batch. *)
Lemma predict_single θ r1 r2 r3 r4 :
  length r1 = max_seq_length → length r2 = max_seq_length →
  length r3 = max_seq_length → length r4 = max_seq_length →
  ∃ e, predict embedding_extractor θ [[r1]; [r2]; [r3]; [r4]] 32 = Ok [e] ∧
       length e = 1536%nat.
Proof.
  intros H1 H2 H3 H4.
  destruct (extractor_call_total false no_draw θ [r1] [r2] [r3] [r4])
    as (embs & Hcall & Hlen & Hw); try (by constructor).
  destruct embs as [|e [|? ?]]; try done.
  exists e. split; [|by inversion Hw].
  unfold predict. cbn [cardinality length].
  rewrite decide_True by (repeat constructor).
  cbn [mbind result_bind]. change ((1 + 32 - 1) / 32)%nat with 1%nat.
  cbn [seq traverse map]. cbn [Nat.mul drop take].
  rewrite Hcall. done.
Qed.

(** C4.  The two branches read different fields of their encoder's
    output: the BERT branch returns [pooler_output] as it is, the RoBERTa
    branch returns, for every row of the batch, token 0 of
    [last_hidden_state] (and nothing else makes it succeed).  The graph
    wires the first strategy to the BERT inputs and the second to the
    RoBERTa inputs. *)
Theorem branches_pooled_and_first_token (θ : store) (ids mask : list (list Z)) :
  bert_branch θ (IntArray ids) (IntArray mask)
    = Ok (FloatArray (pooler_output (TFBertModel (bert_weights θ) ids mask))) ∧
  (∀ rows,
      roberta_branch θ (IntArray ids) (IntArray mask) = Ok (FloatArray rows) ↔
      Forall2 (λ tokens v, tokens !! 0%nat = Some v)
              (last_hidden_state (TFRobertaModel (roberta_weights θ) ids mask)) rows) ∧
  bert_output = Lambda bert_branch 768 bert_input_ids bert_attention ∧
  roberta_output = Lambda roberta_branch 768 roberta_input_ids roberta_attention ∧
  combined_embedding = Concatenate bert_output roberta_output.
Proof.
  split_and!; try done. intros rows. unfold roberta_branch. split.
  - intros Hr. destruct (traverse _ _) as [rows'|] eqn:Etr; [|done].
    injection Hr as ->. apply traverse_Forall2 in Etr.
    eapply Forall2_impl; [exact Etr|]. intros tokens v Hv. cbn in Hv.
    destruct (tokens !! 0%nat); [|done]. by injection Hv as ->.
  - intros Hall.
    assert (Htr : traverse (λ tokens : list (list R),
                    match tokens !! 0%nat with
                    | Some v => Ok v
                    | None => Raise (IndexError 0)
                    end)
                    (last_hidden_state (TFRobertaModel (roberta_weights θ) ids mask))
                  = Ok rows).
    { apply traverse_Forall2. eapply Forall2_impl; [exact Hall|].
      intros tokens v Hv. cbn in Hv. by rewrite Hv. }
    by rewrite Htr.
Qed.


End EnsembleFacts.

(** ** The embedding extractor as a function of its input arrays *)

Section ExtractorFacts.

Import Keras Ensemble.
Context `{Transformers}.

(** X7.  What the extractor refuses, whatever the encoders do: a call
    with other than four arrays, and a call in which some row of some
    array is not exactly [max_seq_length] ids wide. *)
Theorem extractor_rejects_malformed_inputs training keep θ
    (xs : list (list (list Z))) :
  (length xs ≠ 4%nat →
   model_call embedding_extractor training keep θ xs
   = Raise (ValueError "wrong number of input arrays")) ∧
  (length xs = 4%nat →
   ¬ Forall (Forall (λ row, length row = max_seq_length)) xs →
   model_call embedding_extractor training keep θ xs
   = Raise (ValueError "input is incompatible with the layer")).
Proof.
  split.
  - intros Hlen. unfold model_call, embedding_extractor. cbn [inputs feed].
    destruct xs as [|a [|b [|c [|d [|e xs]]]]]; try done.
  - intros Hlen Hbad.
    destruct xs as [|a [|b [|c [|d [|e xs]]]]]; try done.
    unfold model_call, embedding_extractor, combined_embedding, bert_output,
      roberta_output, bert_input_ids, bert_attention, roberta_input_ids,
      roberta_attention.
    cbn [inputs outputs feed input_name mbind result_bind call].
    repeat first [ rewrite lookup_insert_eq
                 | rewrite lookup_insert_ne by (apply String.eqb_neq; reflexivity) ].
    destruct (decide (Forall (λ row, length row = max_seq_length) a)); [|done].
    destruct (decide (Forall (λ row, length row = max_seq_length) b)); [|done].
    cbn [mbind result_bind bert_branch].
    destruct (decide (Forall (λ row, length row = max_seq_length) c)); [|done].
    destruct (decide (Forall (λ row, length row = max_seq_length) d)); [|done].
    exfalso. apply Hbad. by repeat constructor.
Qed.


Lemma model_call_extractor_error training keep θ xs e :
  model_call embedding_extractor training keep θ xs = Raise e → data_error e.
Proof.
  unfold model_call, embedding_extractor. cbn [inputs outputs]. intros Hr.
  apply bind_Raise in Hr as [Hfeed|(feeds & _ & Hcall)].
  - cbn [feed input_name] in Hfeed. left.
    destruct xs as [|a [|b [|c [|d [|? xs]]]]]; cbn in Hfeed;
      try discriminate Hfeed; injection Hfeed as <-; eauto.
  - revert Hcall. unfold combined_embedding, bert_output, roberta_output,
      bert_input_ids, bert_attention, roberta_input_ids, roberta_attention.
    cbn [call].
    destruct (feeds !! "bert_input_ids") as [ids_b|]; [|intros [= <-]; left; eauto].
    destruct (decide _); [|intros [= <-]; left; eauto].
    destruct (feeds !! "bert_attention_mask") as [mask_b|];
      [|intros [= <-]; left; eauto].
    destruct (decide _); [|intros [= <-]; left; eauto].
    cbn [mbind result_bind bert_branch].
    destruct (feeds !! "roberta_input_ids") as [ids_r|]; [|intros [= <-]; left; eauto].
    destruct (decide _); [|intros [= <-]; left; eauto].
    destruct (feeds !! "roberta_attention_mask") as [mask_r|];
      [|intros [= <-]; left; eauto].
    destruct (decide _); [|intros [= <-]; left; eauto].
    cbn [mbind result_bind roberta_branch].
    destruct (traverse _ (last_hidden_state _)) as [B|e'] eqn:EB.
    + cbn [mbind result_bind]. destruct (decide _); [done|].
      intros [= <-]. left. eauto.
    + cbn [mbind result_bind]. intros [= <-].
      apply traverse_Raise in EB as (tokens & _ & Htok).
      destruct (tokens !! 0%nat); [done|]. injection Htok as <-. right. eauto.
Qed.

Lemma model_call_extractor_float training keep θ xs v :
  model_call embedding_extractor training keep θ xs = Ok v → ∃ rows, v = FloatArray rows.
Proof.
  unfold model_call. intros Hc. apply bind_Ok in Hc as (feeds & _ & Hc).
  cbn [outputs embedding_extractor] in Hc.
  apply call_combined_embedding in Hc as (? & ? & ? & ? & ? & _ & _ & _ & _ & _ & _ & _ & ->).
  eauto.
Qed.

Lemma predict_extractor_error θ xs batch_size e :
  predict embedding_extractor θ xs batch_size = Raise e → data_error e.
Proof.
  unfold predict. intros Hr. apply bind_Raise in Hr as [Hcard|(n & _ & Hr)].
  - left. destruct xs as [|x rest]; cbn [cardinality] in Hcard.
    + injection Hcard as <-. eauto.
    + destruct (decide _); [done|]. injection Hcard as <-. eauto.
  - apply bind_Raise in Hr as [Hout|(outs & _ & Hr)]; [|done].
    apply traverse_Raise in Hout as (k & _ & Hk).
    apply bind_Raise in Hk as [Hcall|(v & Hv & Hfloat)].
    + by eapply model_call_extractor_error.
    + apply model_call_extractor_float in Hv as [rows ->]. done.
Qed.

Hypothesis bert_base : encoder_contract 768 TFBertModel.
Hypothesis roberta_base : encoder_contract 768 TFRobertaModel.

(** The batches of [predict], up to the first [m] of them. *)
Lemma predict_batches θ (ids_b mask_b ids_r mask_r : list (list Z))
    (batch_size m : nat) :
  Forall (Forall (λ row, length row = max_seq_length)) [ids_b; mask_b; ids_r; mask_r] →
  length ids_r = length ids_b →
  ∃ outs,
    traverse
      (λ k, v ← model_call embedding_extractor false no_draw θ
                 (map (λ x, take batch_size (drop (k * batch_size) x))
                      [ids_b; mask_b; ids_r; mask_r]);
            as_float v)
      (seq 0 m) = Ok outs ∧
    length (concat outs) = (length ids_b `min` (m * batch_size))%nat ∧
    Forall (Forall (λ e, length e = 1536%nat)) outs.
Proof.
  intros Hw Hlen. rewrite !Forall_cons in Hw. destruct Hw as (H1 & H2 & H3 & H4 & _).
  induction m as [|m (outs & Houts & Hcount & Hwidths)].
  - exists []. cbn. split_and!; [done | lia | done].
  - destruct (extractor_call_total bert_base roberta_base false no_draw θ
                (take batch_size (drop (m * batch_size) ids_b))
                (take batch_size (drop (m * batch_size) mask_b))
                (take batch_size (drop (m * batch_size) ids_r))
                (take batch_size (drop (m * batch_size) mask_r)))
      as (embs & Hcall & Hn & Hwidth);
      try (by apply Forall_take, Forall_drop).
    { rewrite !length_take, !length_drop. lia. }
    exists (outs ++ [embs]). split_and!.
    + rewrite seq_S. apply traverse_app; [done|].
      cbn [traverse map Nat.add]. rewrite Hcall. done.
    + rewrite concat_app, length_app, Hcount. cbn [concat length].
      rewrite app_nil_r, Hn, length_take, length_drop. nia.
    + apply Forall_app. split; [done | by constructor].
Qed.

Lemma predict_extractor_total θ (ids_b mask_b ids_r mask_r : list (list Z))
    (batch_size : nat) :
  Forall (Forall (λ row, length row = max_seq_length)) [ids_b; mask_b; ids_r; mask_r] →
  length mask_b = length ids_b → length ids_r = length ids_b →
  length mask_r = length ids_b → (0 < batch_size)%nat →
  ∃ embs,
    predict embedding_extractor θ [ids_b; mask_b; ids_r; mask_r] batch_size = Ok embs ∧
    length embs = length ids_b ∧ Forall (λ e, length e = 1536%nat) embs.
Proof.
  intros Hw Hm Hr Hmr Hbs. unfold predict. cbn [cardinality].
  rewrite decide_True by (repeat constructor; done). cbn [mbind result_bind].
  destruct (predict_batches θ ids_b mask_b ids_r mask_r batch_size
              ((length ids_b + batch_size - 1) / batch_size) Hw Hr)
    as (outs & -> & Hcount & Hwidths).
  cbn [mbind result_bind]. eexists. split; [done|]. split.
  - rewrite Hcount. apply Nat.min_l.
    pose proof (Nat.div_mod (length ids_b + batch_size - 1) batch_size ltac:(lia)).
    pose proof (Nat.mod_upper_bound (length ids_b + batch_size - 1) batch_size
                  ltac:(lia)).
    nia.
  - by apply Forall_concat.
Qed.

(** X9.  [predict] on the extractor walks the rows in batches and
    returns one embedding per example, each 1536 wide, for any positive
    batch size: the 32 of lines 136-143 and of [predict_sarcasm], but also
    one that does not divide the number of rows. *)
Theorem predict_returns_row_per_example θ (ids_b mask_b ids_r mask_r : list (list Z))
    (batch_size : nat) :
  Forall (Forall (λ row, length row = max_seq_length)) [ids_b; mask_b; ids_r; mask_r] →
  length mask_b = length ids_b → length ids_r = length ids_b →
  length mask_r = length ids_b →
  (0 < length ids_b)%nat → (0 < batch_size)%nat →
  ∃ embs,
    predict embedding_extractor θ [ids_b; mask_b; ids_r; mask_r] batch_size = Ok embs ∧
    length embs = length ids_b ∧ Forall (λ e, length e = 1536%nat) embs.
Proof. intros Hw Hm Hr Hmr _ Hbs. by apply predict_extractor_total. Qed.

End ExtractorFacts.

(** ** Callbacks and the fit loop *)

Section TrainingFacts.

Import Training.

Lemma Qlt_bool_true (a b : Q) : Qlt_bool a b = true ↔ (a < b)%Q.
Proof.
  unfold Qlt_bool. rewrite negb_true_iff. split.
  - intros Hle. apply Qnot_le_lt. intros Hba.
    apply Qle_bool_iff in Hba. congruence.
  - intros Hlt. destruct (Qle_bool b a) eqn:E; [|done].
    apply Qle_bool_iff in E. exfalso. by apply (Qlt_not_le a b).
Qed.

Lemma Qlt_bool_false (a b : Q) : Qlt_bool a b = false ↔ (b <= a)%Q.
Proof.
  unfold Qlt_bool. rewrite negb_false_iff. apply Qle_bool_iff.
Qed.

(** *** ReduceLROnPlateau, one epoch *)

Lemma reduce_lr_improved c lr current :
  ReduceLROnPlateau.cooldown_counter c = 0%nat →
  improves current (ReduceLROnPlateau.min_delta c) (ReduceLROnPlateau.best c) = true →
  ReduceLROnPlateau.on_epoch_end c lr current
  = (ReduceLROnPlateau.set_state c (Some current) 0 0, lr).
Proof.
  intros Hcd Himp. destruct c; cbn -[improves] in *; subst.
  unfold ReduceLROnPlateau.on_epoch_end, ReduceLROnPlateau.in_cooldown.
  cbn -[improves Qlt_bool Qmax Qmult].
  rewrite ?(bool_decide_eq_false_2 (0 < 0)%nat) by lia.
  cbn -[improves Qlt_bool Qmax Qmult].
  by rewrite Himp.
Qed.

Lemma reduce_lr_waiting c lr current :
  ReduceLROnPlateau.cooldown_counter c = 0%nat →
  improves current (ReduceLROnPlateau.min_delta c) (ReduceLROnPlateau.best c) = false →
  (S (ReduceLROnPlateau.wait c) < ReduceLROnPlateau.patience c)%nat →
  ReduceLROnPlateau.on_epoch_end c lr current
  = (ReduceLROnPlateau.set_state c (ReduceLROnPlateau.best c)
       (S (ReduceLROnPlateau.wait c)) 0, lr).
Proof.
  intros Hcd Himp Hw. destruct c; cbn -[improves] in *; subst.
  unfold ReduceLROnPlateau.on_epoch_end, ReduceLROnPlateau.in_cooldown.
  cbn -[improves Qlt_bool Qmax Qmult].
  rewrite ?(bool_decide_eq_false_2 (0 < 0)%nat) by lia.
  cbn -[improves Qlt_bool Qmax Qmult].
  rewrite Himp. rewrite ?(bool_decide_eq_false_2 (0 < 0)%nat) by lia.
  by rewrite bool_decide_false by lia.
Qed.

Lemma reduce_lr_plateau c lr current :
  ReduceLROnPlateau.cooldown_counter c = 0%nat →
  improves current (ReduceLROnPlateau.min_delta c) (ReduceLROnPlateau.best c) = false →
  (ReduceLROnPlateau.patience c ≤ S (ReduceLROnPlateau.wait c))%nat →
  (ReduceLROnPlateau.min_lr c < lr)%Q →
  ReduceLROnPlateau.on_epoch_end c lr current
  = (ReduceLROnPlateau.set_state c (ReduceLROnPlateau.best c) 0
       (ReduceLROnPlateau.cooldown c),
     Qmax (lr * ReduceLROnPlateau.factor c) (ReduceLROnPlateau.min_lr c)).
Proof.
  intros Hcd Himp Hw Hlr. destruct c; cbn -[improves] in *; subst.
  unfold ReduceLROnPlateau.on_epoch_end, ReduceLROnPlateau.in_cooldown.
  cbn -[improves Qlt_bool Qmax Qmult].
  rewrite ?(bool_decide_eq_false_2 (0 < 0)%nat) by lia.
  cbn -[improves Qlt_bool Qmax Qmult].
  rewrite Himp. rewrite ?(bool_decide_eq_false_2 (0 < 0)%nat) by lia.
  rewrite bool_decide_true by lia.
  by rewrite (proj2 (Qlt_bool_true _ _) Hlr).
Qed.

(** *** EarlyStopping, one epoch *)

Lemma early_stopping_improved {W} (c : EarlyStopping.t W) epoch current w :
  improves (current - EarlyStopping.min_delta c) 0 (EarlyStopping.best c) = true →
  EarlyStopping.on_epoch_end c epoch current w
  = (EarlyStopping.set_state c 0 (Some current)
       (if EarlyStopping.restore_best_weights c then Some w
        else EarlyStopping.best_weights c)
       (EarlyStopping.stopped_epoch c), w, false).
Proof.
  intros Himp. unfold EarlyStopping.on_epoch_end. rewrite Himp.
  destruct (EarlyStopping.restore_best_weights c); [done|].
  by destruct (EarlyStopping.best_weights c).
Qed.

Lemma early_stopping_fires {W} (c : EarlyStopping.t W) epoch current w b :
  improves (current - EarlyStopping.min_delta c) 0 (EarlyStopping.best c) = false →
  (EarlyStopping.patience c ≤ S (EarlyStopping.wait c))%nat →
  (0 < epoch)%nat →
  EarlyStopping.restore_best_weights c = true →
  EarlyStopping.best_weights c = Some b →
  EarlyStopping.on_epoch_end c epoch current w
  = (EarlyStopping.set_state c (S (EarlyStopping.wait c)) (EarlyStopping.best c)
       (Some b) epoch, b, true).
Proof.
  intros Himp Hw He Hr Hb. unfold EarlyStopping.on_epoch_end.
  rewrite Himp, Hb, Hr. by rewrite !bool_decide_true by lia.
Qed.

Lemma early_stopping_waiting {W} (c : EarlyStopping.t W) epoch current w b :
  improves (current - EarlyStopping.min_delta c) 0 (EarlyStopping.best c) = false →
  (S (EarlyStopping.wait c) < EarlyStopping.patience c)%nat →
  EarlyStopping.best_weights c = Some b →
  EarlyStopping.on_epoch_end c epoch current w
  = (EarlyStopping.set_state c (S (EarlyStopping.wait c)) (EarlyStopping.best c)
       (Some b) (EarlyStopping.stopped_epoch c), w, false).
Proof.
  intros Himp Hw Hb. unfold EarlyStopping.on_epoch_end.
  rewrite Himp, Hb. by rewrite bool_decide_false by lia.
Qed.

(** *** Plateaus *)

Lemma plateau_unique (l1 l1' l2 l2' : list Q) (m m' : Q) :
  l1 ++ m :: l2 = l1' ++ m' :: l2' →
  Forall (λ x, m < x)%Q l1 → Forall (λ x, m <= x)%Q l2 →
  Forall (λ x, m' < x)%Q l1' → Forall (λ x, m' <= x)%Q l2' →
  length l1 = length l1'.
Proof.
  intros Heq H1 H2 H1' H2'.
  destruct (Nat.lt_trichotomy (length l1) (length l1')) as [Hlt|[Heq'|Hgt]]; [|done|].
  - exfalso.
    assert (Hm : l1' !! length l1 = Some m).
    { rewrite <- (lookup_app_l l1' (m' :: l2')) by done.
      rewrite <- Heq. by rewrite list_lookup_middle. }
    assert (Hm' : l2 !! (length l1' - length l1 - 1)%nat = Some m').
    { assert (Hx : (l1 ++ m :: l2) !! length l1' = Some m')
        by (rewrite Heq; by rewrite list_lookup_middle).
      rewrite lookup_app_r in Hx by lia.
      destruct (length l1' - length l1)%nat as [|k] eqn:Ek; [lia|].
      simpl in Hx. by replace (S k - 1)%nat with k by lia. }
    pose proof (Forall_lookup_1 _ _ _ _ H1' Hm) as Ha. cbv beta in Ha.
    pose proof (Forall_lookup_1 _ _ _ _ H2 Hm') as Hb. cbv beta in Hb.
    lra.
  - exfalso.
    assert (Hm : l1 !! length l1' = Some m').
    { rewrite <- (lookup_app_l l1 (m :: l2)) by done.
      rewrite Heq. by rewrite list_lookup_middle. }
    assert (Hm' : l2' !! (length l1 - length l1' - 1)%nat = Some m).
    { assert (Hx : (l1' ++ m' :: l2') !! length l1 = Some m)
        by (rewrite <- Heq; by rewrite list_lookup_middle).
      rewrite lookup_app_r in Hx by lia.
      destruct (length l1 - length l1')%nat as [|k] eqn:Ek; [lia|].
      simpl in Hx. by replace (S k - 1)%nat with k by lia. }
    pose proof (Forall_lookup_1 _ _ _ _ H1 Hm) as Ha. cbv beta in Ha.
    pose proof (Forall_lookup_1 _ _ _ _ H2' Hm') as Hb. cbv beta in Hb.
    lra.
Qed.

Lemma plateau_wait (k : nat) (l1 l2 : list Q) (m : Q) :
  Forall (λ x, m < x)%Q l1 → Forall (λ x, m <= x)%Q l2 →
  plateau k (l1 ++ m :: l2) ↔ (k ≤ length l2)%nat.
Proof.
  intros H1 H2. split.
  - intros (l1' & m' & l2' & Heq & H1' & H2' & Hk).
    pose proof (plateau_unique _ _ _ _ _ _ Heq H1 H2 H1' H2') as Hlen.
    apply (f_equal length) in Heq. rewrite !length_app in Heq. simpl in Heq. lia.
  - intros Hk. by exists l1, m, l2.
Qed.

Lemma plateau_nil (k : nat) : ¬ plateau k [].
Proof. intros (l1 & m & l2 & Heq & _). by destruct l1. Qed.

(** *** The epoch loop under the script's callbacks *)

Section Loop.

Context {W : Type}.
Variable train_epoch : nat → Q → W → W.
Variable val_loss : W → Q.

Lemma es_tracks_intro (e : EarlyStopping.t W) (l l1 l2 : list Q) (m : Q) (wb : W) :
  l = l1 ++ m :: l2 →
  Forall (λ x, m < x)%Q l1 → Forall (λ x, m <= x)%Q l2 →
  EarlyStopping.best e = Some m → EarlyStopping.wait e = length l2 →
  EarlyStopping.best_weights e = Some wb → val_loss wb = m →
  es_tracks val_loss e l.
Proof.
  intros Hl H1 H2 Hb Hw Hbw Hv. unfold es_tracks.
  destruct l as [|x l]; [by destruct l1|]. by exists l1, m, l2, wb.
Qed.

Lemma prefix_snoc_inv (p l : list Q) (x : Q) :
  p `prefix_of` l ++ [x] → p ≠ l ++ [x] →
  p = l ∨ (p `prefix_of` l ∧ p ≠ l).
Proof.
  intros [k Hk] Hne. destruct k as [|y k _] using rev_ind.
  - rewrite app_nil_r in Hk. congruence.
  - rewrite app_assoc in Hk. apply app_inj_tail in Hk as [-> _].
    destruct k as [|z k]; [left; by rewrite app_nil_r|].
    right. split; [by eexists|]. intros Heq.
    apply (f_equal length) in Heq. rewrite length_app in Heq. simpl in Heq. lia.
Qed.

Lemma epoch_step_invariant (epoch : nat) (r : run W) :
  fit_invariant val_loss r →
  stop_training r = false →
  length (val_losses r) = epoch →
  fit_invariant val_loss (epoch_step train_epoch val_loss epoch r) ∧
  length (val_losses (epoch_step train_epoch val_loss epoch r)) = S epoch.
Proof.
  intros (c & e & Hcbs & Hpat & Hdelta & Hrestore & Htr & Hpre & Hst) Hstop Hlen.
  rewrite Hstop in Hst. destruct Hst as [Hnp Hlast].
  unfold epoch_step. rewrite Hcbs, Hstop. cbn [on_epoch_end].
  set (w := train_epoch epoch (learning_rate r) (weights r)).
  set (current := val_loss w).
  destruct (ReduceLROnPlateau.on_epoch_end c (learning_rate r) current) as [c' lr'].
  assert (Hprefix : ∀ p, p `prefix_of` val_losses r ++ [current] →
                         p ≠ val_losses r ++ [current] → ¬ plateau 4 p).
  { intros p Hp Hne. apply prefix_snoc_inv in Hp as [->|[Hp Hne']]; [done| |done].
    by apply Hpre. }
  destruct (val_losses r) as [|x0 l0] eqn:El.
  - (* first epoch: anything improves on the initial best *)
    destruct Htr as (Hbest & Hwait & Hbw).
    rewrite (early_stopping_improved e epoch current w) by (by rewrite Hbest).
    rewrite Hrestore. cbn. split; [|by rewrite <- Hlen].
    eexists c', _. split_and!; try done.
    + by apply (es_tracks_intro _ _ [] [] current w).
    + split; [|done]. intros Hpl.
      apply (plateau_wait 4 [] [] current) in Hpl; [simpl in Hpl; lia|done..].
  - destruct Htr as (l1 & m & l2 & wb & Hl & H1 & H2 & Hbest & Hwait & Hbw & Hv).
    assert (Hepoch : (0 < epoch)%nat) by (rewrite <- Hlen; simpl; lia).
    destruct (improves (current - EarlyStopping.min_delta e) 0 (EarlyStopping.best e))
      eqn:Himp.
    + (* a new best *)
      rewrite (early_stopping_improved e epoch current w Himp).
      rewrite Hrestore. cbn. split; [|rewrite length_app; simpl in *; lia].
      rewrite Hbest, Hdelta in Himp. apply Qlt_bool_true in Himp.
      assert (Hlt : (current < m)%Q) by lra.
      assert (Hall : Forall (λ x, current < x)%Q (x0 :: l0)).
      { rewrite Hl. apply Forall_app. split.
        - eapply Forall_impl; [exact H1|]. intros y Hy. simpl in *. lra.
        - constructor; [done|].
          eapply Forall_impl; [exact H2|]. intros y Hy. simpl in *. lra. }
      eexists c', _. split_and!; try done.
      * by apply (es_tracks_intro _ _ (x0 :: l0) [] current w).
      * split; [|intros _; cbn [val_losses weights];
           change (x0 :: l0 ++ [current]) with ((x0 :: l0) ++ [current]);
           by rewrite last_snoc]. intros Hpl.
        apply (plateau_wait 4 (x0 :: l0) [] current) in Hpl;
          [simpl in Hpl; lia|done..].
    + (* no improvement on the best so far *)
      pose proof Himp as Himp'. rewrite Hbest, Hdelta in Himp'.
      apply Qlt_bool_false in Himp'.
      assert (Hle : (m <= current)%Q) by lra.
      assert (Hl' : x0 :: l0 ++ [current] = l1 ++ m :: (l2 ++ [current])).
      { change (x0 :: l0 ++ [current]) with ((x0 :: l0) ++ [current]).
        rewrite Hl. by rewrite <- app_assoc. }
      assert (H2' : Forall (λ x, m <= x)%Q (l2 ++ [current])).
      { apply Forall_app. split; [done|]. by constructor. }
      destruct (decide (4 ≤ S (length l2))%nat) as [Hfire|Hwaiting].
      * rewrite (early_stopping_fires e epoch current w wb Himp) by
          (try done; lia).
        cbn. split; [|rewrite length_app; simpl in *; lia].
        eexists c', _. split_and!; try done.
        -- apply (es_tracks_intro _ _ l1 (l2 ++ [current]) m wb); try done.
           cbn. rewrite length_app. simpl. lia.
        -- split; [|done]. rewrite Hl'. apply plateau_wait; try done.
           rewrite length_app. simpl. lia.
      * rewrite (early_stopping_waiting e epoch current w wb Himp) by
          (try done; lia).
        cbn. split; [|rewrite length_app; simpl in *; lia].
        eexists c', _. split_and!; try done.
        -- apply (es_tracks_intro _ _ l1 (l2 ++ [current]) m wb); try done.
           cbn. rewrite length_app. simpl. lia.
        -- split; [|intros _; cbn [val_losses weights];
           change (x0 :: l0 ++ [current]) with ((x0 :: l0) ++ [current]);
           by rewrite last_snoc].
           rewrite Hl'. intros Hpl. apply plateau_wait in Hpl; [|done..].
           rewrite length_app in Hpl. simpl in Hpl. lia.
Qed.

Lemma epochs_loop_invariant (todo epoch : nat) (r : run W) :
  fit_invariant val_loss r →
  stop_training r = false →
  length (val_losses r) = epoch →
  fit_invariant val_loss (epochs_loop train_epoch val_loss todo epoch r) ∧
  (length (val_losses (epochs_loop train_epoch val_loss todo epoch r))
     ≤ epoch + todo)%nat ∧
  (stop_training (epochs_loop train_epoch val_loss todo epoch r) = false →
   length (val_losses (epochs_loop train_epoch val_loss todo epoch r))
     = (epoch + todo)%nat).
Proof.
  revert epoch r. induction todo as [|todo IH]; intros epoch r Hinv Hstop Hlen.
  - cbn [epochs_loop]. split_and!; [done|lia|lia].
  - cbn [epochs_loop].
    destruct (epoch_step_invariant epoch r Hinv Hstop Hlen) as [Hinv' Hlen'].
    destruct (stop_training (epoch_step train_epoch val_loss epoch r)) eqn:Hstop'.
    + split_and!; [done|lia|]. intros Hf. congruence.
    + destruct (IH (S epoch) _ Hinv' Hstop' Hlen') as (Hi & Hle & Heq).
      split_and!; [done|lia|]. intros Hf. rewrite (Heq Hf). lia.
Qed.

Lemma fit_invariant_init (w : W) (lr : Q) (c : ReduceLROnPlateau.t) :
  fit_invariant val_loss
    {| weights := w; learning_rate := lr; stop_training := false;
       callbacks := [CReduceLR c; CEarlyStopping early_stopper];
       val_losses := [] |}.
Proof.
  exists c, early_stopper. cbn. split_and!; try done.
  - intros p Hp Hne. apply prefix_nil_inv in Hp. congruence.
  - apply plateau_nil.
Qed.

Lemma fit_result (w : W) (lr : Q) (budget : nat) (c : ReduceLROnPlateau.t) :
  let r := fit train_epoch val_loss w lr budget
             [CReduceLR c; CEarlyStopping early_stopper] in
  fit_invariant val_loss r ∧
  (length (val_losses r) ≤ budget)%nat ∧
  (stop_training r = false → length (val_losses r) = budget).
Proof.
  unfold fit.
  destruct (epochs_loop_invariant budget 0 _ (fit_invariant_init w lr c) eq_refl eq_refl)
    as (Hinv & Hle & Heq).
  split_and!; [done|lia|]. intros Hf. by rewrite (Heq Hf).
Qed.


Lemma epoch_step_callbacks (epoch : nat) (r0 : run W) c e :
  callbacks r0 = [CReduceLR c; CEarlyStopping e] →
  callbacks (epoch_step train_epoch val_loss epoch r0)
  = [CReduceLR
       (ReduceLROnPlateau.on_epoch_end c (learning_rate r0)
          (val_loss (train_epoch epoch (learning_rate r0) (weights r0)))).1;
     CEarlyStopping
       (EarlyStopping.on_epoch_end e epoch
          (val_loss (train_epoch epoch (learning_rate r0) (weights r0)))
          (train_epoch epoch (learning_rate r0) (weights r0))).1.1] ∧
  val_losses (epoch_step train_epoch val_loss epoch r0)
  = val_losses r0 ++ [val_loss (train_epoch epoch (learning_rate r0) (weights r0))].
Proof.
  intros Hcbs. unfold epoch_step. rewrite Hcbs. cbn [on_epoch_end].
  destruct (ReduceLROnPlateau.on_epoch_end _ _ _) as [c' lr'].
  by destruct (EarlyStopping.on_epoch_end _ _ _ _) as [[e' w'] s].
Qed.


Lemma fit_one_epoch (w : W) (lr : Q) :
  let r := fit train_epoch val_loss w lr epochs
             [CReduceLR lr_scheduler; CEarlyStopping early_stopper] in
  stop_training r = false ∧
  val_losses r = [val_loss (train_epoch 0 lr w)] ∧
  weights r = train_epoch 0 lr w ∧
  learning_rate r = lr ∧
  ∃ c e, callbacks r = [CReduceLR c; CEarlyStopping e] ∧
         EarlyStopping.stopped_epoch e = 0%nat ∧ EarlyStopping.wait e = 0%nat.
Proof.
  intros r. split_and!; try done. eexists _, _. by split.
Qed.

Lemma fit_short_budget (w : W) (lr : Q) (budget : nat) (c : ReduceLROnPlateau.t) :
  (budget ≤ 4)%nat →
  stop_training (fit train_epoch val_loss w lr budget
                   [CReduceLR c; CEarlyStopping early_stopper]) = false ∧
  length (val_losses (fit train_epoch val_loss w lr budget
                        [CReduceLR c; CEarlyStopping early_stopper])) = budget.
Proof.
  intros Hb.
  destruct (fit_result w lr budget c) as (Hinv & Hle & Hfull).
  destruct Hinv as (c' & e & _ & _ & _ & _ & _ & _ & Hst).
  destruct (stop_training _) eqn:Hstop; [|by split; [|apply Hfull]].
  exfalso. destruct Hst as [(l1 & m & l2 & Hl & _ & _ & Hk) _].
  apply (f_equal length) in Hl. rewrite length_app in Hl. simpl in Hl. lia.
Qed.

End Loop.

End TrainingFacts.

(** ** The learning-rate schedule and the validation split *)

Section ScheduleFacts.

Import Training.
Context {W : Type}.
Variable train_epoch : nat → Q → W → W.
Variable val_loss : W → Q.

Lemma epoch_step_learning_rate (epoch : nat) (r0 : run W) c e :
  callbacks r0 = [CReduceLR c; CEarlyStopping e] →
  learning_rate (epoch_step train_epoch val_loss epoch r0)
  = (ReduceLROnPlateau.on_epoch_end c (learning_rate r0)
       (val_loss (train_epoch epoch (learning_rate r0) (weights r0)))).2.
Proof.
  intros Hcbs. unfold epoch_step. rewrite Hcbs. cbn [on_epoch_end].
  destruct (ReduceLROnPlateau.on_epoch_end _ _ _) as [c' lr'].
  by destruct (EarlyStopping.on_epoch_end _ _ _ _) as [[e' w'] s].
Qed.

Lemma halved_positive (lr0 : Q) (r : run W) :
  (0 < lr0)%Q → halved lr0 r → (0 < learning_rate r <= lr0)%Q.
Proof.
  intros Hpos (c & e & k & _ & _ & _ & _ & _ & _ & _ & _ & Hlr).
  assert (Hpow : (1 <= 2 ^ Z.of_nat k)%Z).
  { pose proof (Z.pow_pos_nonneg 2 (Z.of_nat k)). lia. }
  assert (Hq : (1 <= inject_Z (2 ^ Z.of_nat k))%Q).
  { change 1%Q with (inject_Z 1). by rewrite <- Zle_Qle. }
  split.
  - destruct (Qlt_le_dec 0 (learning_rate r)) as [|Hle]; [done|]. exfalso.
    assert (learning_rate r * inject_Z (2 ^ Z.of_nat k) <= 0)%Q; [|lra].
    nra.
  - nra.
Qed.

Lemma epoch_step_halved (lr0 : Q) (epoch : nat) (r : run W) :
  (0 < lr0)%Q → halved lr0 r →
  halved lr0 (epoch_step train_epoch val_loss epoch r).
Proof.
  intros Hpos Hinv. pose proof (halved_positive lr0 r Hpos Hinv) as [Hlrpos _].
  destruct Hinv as (c & e & k & Hcbs & Hf & Hp & Hcd & Hmin & Hdelta & Hcc & Hk & Hlr).
  destruct (epoch_step_callbacks train_epoch val_loss epoch r c e Hcbs) as [Hcbs' Hlosses].
  pose proof (epoch_step_learning_rate epoch r c e Hcbs) as Hlr'.
  set (current := val_loss (train_epoch epoch (learning_rate r) (weights r))) in *.
  unfold halved. rewrite Hcbs', Hlosses, Hlr', length_app. cbn [length].
  destruct (improves current (ReduceLROnPlateau.min_delta c) (ReduceLROnPlateau.best c))
    eqn:Himp.
  - rewrite (reduce_lr_improved c _ _ Hcc Himp). cbn [fst snd].
    eexists _, _, k. split; [done|].
    cbn [ReduceLROnPlateau.set_state ReduceLROnPlateau.factor
         ReduceLROnPlateau.patience ReduceLROnPlateau.cooldown
         ReduceLROnPlateau.min_lr ReduceLROnPlateau.min_delta
         ReduceLROnPlateau.cooldown_counter ReduceLROnPlateau.wait].
    split_and!; try done. lia.
  - destruct (decide (S (ReduceLROnPlateau.wait c) < ReduceLROnPlateau.patience c)%nat)
      as [Hw|Hw].
    + rewrite (reduce_lr_waiting c _ _ Hcc Himp Hw). cbn [fst snd].
      eexists _, _, k. split; [done|].
      cbn [ReduceLROnPlateau.set_state ReduceLROnPlateau.factor
           ReduceLROnPlateau.patience ReduceLROnPlateau.cooldown
           ReduceLROnPlateau.min_lr ReduceLROnPlateau.min_delta
           ReduceLROnPlateau.cooldown_counter ReduceLROnPlateau.wait].
      split_and!; try done. lia.
    + rewrite (reduce_lr_plateau c _ _ Hcc Himp) by (rewrite ?Hmin; done || lia).
      cbn [fst snd]. eexists _, _, (S k). split; [done|].
      cbn [ReduceLROnPlateau.set_state ReduceLROnPlateau.factor
           ReduceLROnPlateau.patience ReduceLROnPlateau.cooldown
           ReduceLROnPlateau.min_lr ReduceLROnPlateau.min_delta
           ReduceLROnPlateau.cooldown_counter ReduceLROnPlateau.wait].
      split_and!; try done; [lia|].
      rewrite Hf, Hmin.
      assert (Hmax : (Qmax (learning_rate r * (1 # 2)) 0 == learning_rate r * (1 # 2))%Q).
      { apply Q.max_l. nra. }
      rewrite Hmax. rewrite Nat2Z.inj_succ, Z.pow_succ_r by lia.
      rewrite inject_Z_mult. rewrite <- Hlr.
      change (inject_Z 2) with 2%Q. field.
Qed.

Lemma epochs_loop_halved (lr0 : Q) (todo epoch : nat) (r : run W) :
  (0 < lr0)%Q → halved lr0 r →
  halved lr0 (epochs_loop train_epoch val_loss todo epoch r).
Proof.
  intros Hpos. revert epoch r. induction todo as [|todo IH]; intros epoch r Hinv.
  - done.
  - cbn [epochs_loop].
    pose proof (epoch_step_halved lr0 epoch r Hpos Hinv) as Hstep.
    destruct (stop_training _); [done | by apply IH].
Qed.

(** X10.  Over a run of [fit] of any length with the two callbacks of the
    script, a positive learning rate stays positive and never grows: it is
    the initial rate halved [k] times, where [k] is at most half the
    number of epochs run. *)
Theorem learning_rate_only_halves (w : W) (lr : Q) (budget : nat) :
  (0 < lr)%Q →
  let r := fit train_epoch val_loss w lr budget
             [CReduceLR lr_scheduler; CEarlyStopping early_stopper] in
  (0 < learning_rate r <= lr)%Q ∧
  ∃ k, (2 * k ≤ length (val_losses r))%nat ∧ (length (val_losses r) ≤ budget)%nat ∧
       (learning_rate r * inject_Z (2 ^ Z.of_nat k) == lr)%Q.
Proof.
  intros Hpos r.
  assert (Hinv : halved lr r).
  { subst r. unfold fit. apply epochs_loop_halved; [done|].
    exists lr_scheduler, early_stopper, 0%nat. cbn -[Qmult inject_Z Qeq].
    split_and!; try done. exact (Qmult_1_r lr). }
  split; [by apply halved_positive|].
  destruct Hinv as (c & e & k & _ & _ & _ & _ & _ & _ & _ & Hk & Hlr).
  exists k. split_and!; [lia | | done].
  subst r. by destruct (fit_result train_epoch val_loss w lr budget lr_scheduler)
    as (_ & Hle & _).
Qed.

End ScheduleFacts.

Lemma split_at_floor (n : nat) :
  (9 * n - 9 ≤ 10 * Training.split_at n ≤ 9 * n)%nat.
Proof.
  unfold Training.split_at, Training.validation_split, Qfloor, Qminus,
    Qplus, Qopp, Qmult, inject_Z.
  cbn [Qnum Qden]. change (Z.pos (1 * (1 * 10))) with 10%Z.
  pose proof (Z.div_mod (Z.of_nat n * (1 * 10 + - (1) * 1)) 10 ltac:(lia)).
  pose proof (Z.mod_pos_bound (Z.of_nat n * (1 * 10 + - (1) * 1)) 10 ltac:(lia)).
  lia.
Qed.


(** ** The fine-tuning head and its objective *)

Section HeadFacts.

Import Keras Ensemble.
Context `{Transformers}.

Lemma binary_crossentropy_nonneg (y_true : Z) (y_pred : R) :
  y_true = 0 ∨ y_true = 1 →
  (0 <= Training.binary_crossentropy_loss y_true y_pred)%R.
Proof.
  intros Hy. unfold Training.binary_crossentropy_loss, Training.epsilon.
  set (p := Rmin (Rmax y_pred (1 / 10000000)) (1 - 1 / 10000000)).
  assert (Hp : (1 / 10000000 <= p <= 1 - 1 / 10000000)%R).
  { subst p. split.
    - apply Rmin_glb; [apply Rmax_r | lra].
    - apply Rmin_r. }
  assert (Hln : ∀ x, (0 < x < 1)%R → (ln x < 0)%R).
  { intros x [Hx0 Hx1]. rewrite <- ln_1. by apply ln_increasing. }
  pose proof (Hln p ltac:(lra)) as H1.
  pose proof (Hln (1 - p)%R ltac:(lra)) as H2.
  destruct Hy as [-> | ->]; simpl IZR; lra.
Qed.

(** C7.  A successful forward pass of the training model is the fused
    embedding followed by a dense layer of 128 units, dropout, a dense
    layer of 64 units, dropout and one sigmoid unit, so each sample's
    output is a single number between 0 and 1.  In inference mode the two
    dropout layers are the identity and no random draw matters; in
    training mode they are not (some weights and draw change the output).
    The loss the model is compiled with is binary cross-entropy on the
    clipped probability, which is never negative on a 0/1 label. *)
Theorem head_outputs_probability training keep θ feeds v :
  call training keep θ feeds classifier_output = Ok v →
  (∃ emb,
      call training keep θ feeds combined_embedding = Ok (FloatArray emb) ∧
      let h1 := map (dense_forward (dense_weights θ "dense") 128 relu) emb in
      let d1 := if training then dropout_forward keep "dropout" (3 / 10) h1 else h1 in
      let h2 := map (dense_forward (dense_weights θ "dense_1") 64 relu) d1 in
      let d2 := if training then dropout_forward keep "dropout_1" (3 / 10) h2 else h2 in
      v = FloatArray
            (map (dense_forward (dense_weights θ "classifier_output") 1 sigmoid) d2) ∧
      Forall (λ row, length row = 128%nat) h1 ∧
      Forall (λ row, length row = 64%nat) h2) ∧
  (∃ probs, v = FloatArray probs ∧
            Forall (λ row, ∃ p : R, row = [p] ∧ (0 <= p <= 1)%R) probs) ∧
  (∀ keep', call false keep θ feeds classifier_output
            = call false keep' θ feeds classifier_output) ∧
  (∀ emb keep',
      head_forward false keep' θ emb
      = map (dense_forward (dense_weights θ "classifier_output") 1 sigmoid)
          (map (dense_forward (dense_weights θ "dense_1") 64 relu)
             (map (dense_forward (dense_weights θ "dense") 128 relu) emb))) ∧
  head_forward true (λ _ _ _, false) summing_store [[]]
    ≠ head_forward false (λ _ _ _, false) summing_store [[]] ∧
  Training.compile_loss = Training.binary_crossentropy ∧
  (∀ y_true y_pred,
      Training.loss_fn Training.compile_loss y_true y_pred
      = (- (IZR y_true * ln (Rmin (Rmax y_pred Training.epsilon) (1 - Training.epsilon))
            + (1 - IZR y_true)
              * ln (1 - Rmin (Rmax y_pred Training.epsilon) (1 - Training.epsilon))))%R) ∧
  (∀ y_true y_pred,
      y_true = 0 ∨ y_true = 1 →
      (0 <= Training.loss_fn Training.compile_loss y_true y_pred)%R).
Proof.
  intros Hc. apply call_classifier_output in Hc as (emb & Hemb & Hw & ->).
  split_and!.
  - exists emb. split; [done|]. cbn zeta. split_and!.
    + unfold head_forward. by destruct training.
    + apply Forall_dense_widths.
    + apply Forall_dense_widths.
  - eexists. split; [done|]. apply head_forward_probabilities.
  - intros keep'. apply call_inference_keep.
  - done.
  - apply dropout_changes_training_output.
  - done.
  - done.
  - intros y p Hy. by apply binary_crossentropy_nonneg.
Qed.

End HeadFacts.

(** ** The MLP classifier *)

Section SklearnFacts.

Import Sklearn.
Context `{MLPBackend}.

Lemma elem_of_unique (y : list Z) (c : Z) : c ∈ unique y ↔ c ∈ y.
Proof. unfold unique. by rewrite merge_sort_Permutation, elem_of_remove_dups. Qed.

Lemma NoDup_unique (y : list Z) : NoDup (unique y).
Proof. unfold unique. rewrite merge_sort_Permutation. apply NoDup_remove_dups. Qed.

Lemma unique_nonempty (y : list Z) : y ≠ [] → unique y ≠ [].
Proof.
  intros Hy Hu. destruct y as [|c y]; [done|].
  assert (Hc : c ∈ unique (c :: y)) by (apply elem_of_unique; by left).
  rewrite Hu in Hc. by apply elem_of_nil in Hc.
Qed.

(** Labels from {0,1} leave at most the two classes 0 and 1. *)
Lemma unique_binary (y : list Z) :
  Forall (λ c, c = 0 ∨ c = 1) y →
  Forall (λ c, c = 0 ∨ c = 1) (unique y) ∧ (length (unique y) ≤ 2)%nat.
Proof.
  intros Hy.
  assert (Hsub : Forall (λ c, c = 0 ∨ c = 1) (unique y)).
  { apply Forall_forall. intros c Hc. rewrite elem_of_unique in Hc.
    by apply (proj1 (Forall_forall _ _) Hy). }
  split; [done|].
  assert (Hincl : unique y ⊆ [0; 1]).
  { intros c Hc. destruct (proj1 (Forall_forall _ _) Hsub c Hc) as [->| ->].
    - by left.
    - right. by left. }
  apply (submseteq_length _ [0; 1]).
  apply NoDup_submseteq; [apply NoDup_unique | done].
Qed.

Lemma fit_stochastic_n_iter (todo : nat) tol k X y (s : solver) :
  (n_iter (fit_stochastic todo tol k X y s) ≤ n_iter s + todo)%nat ∧
  ((0 < todo)%nat → (n_iter s < n_iter (fit_stochastic todo tol k X y s))%nat).
Proof.
  revert s. induction todo as [|todo IH]; intros s; cbn [fit_stochastic].
  - split; lia.
  - destruct (solver_pass (coefs s) X y) as [w loss].
    destruct (update_no_improvement_count tol loss s) as [best count].
    destruct (bool_decide _).
    + cbn. split; lia.
    + match goal with |- context [fit_stochastic _ _ _ _ _ ?s'] =>
        destruct (IH s') as [Hle Hlt] end.
      cbn [n_iter] in Hle, Hlt. split; [lia|]. intros _.
      destruct todo as [|todo']; [cbn; lia|]. lia.
Qed.

Lemma argmax_lt (proba : nat → R) (n : nat) : (0 < n)%nat → (argmax proba n < n)%nat.
Proof.
  induction n as [|n IH]; [lia|]. intros _. cbn [argmax].
  destruct n as [|n]; [cbn; destruct (Rlt_dec _ _); lia|].
  destruct (Rlt_dec _ _); [lia|]. specialize (IH ltac:(lia)). lia.
Qed.

Lemma inverse_transform_class classes n_outputs proba c :
  inverse_transform classes n_outputs proba = Ok c → c ∈ classes.
Proof.
  unfold inverse_transform. destruct classes as [|c0 [|c1 [|c2 rest]]].
  - done.
  - intros [= <-]. by left.
  - intros [= <-]. destruct (Rlt_dec _ _); [right|]; by left.
  - destruct (_ !! _) as [c'|] eqn:Ec; [|done]. intros [= <-].
    by eapply list_elem_of_lookup_2.
Qed.

Lemma inverse_transform_total classes proba :
  classes ≠ [] →
  ∃ c, inverse_transform classes
         (if bool_decide (length classes ≤ 2)%nat then 1%nat else length classes)
         proba = Ok c.
Proof.
  intros Hne. unfold inverse_transform. destruct classes as [|c0 [|c1 [|c2 rest]]].
  - done.
  - eauto.
  - eauto.
  - rewrite bool_decide_false by (simpl; lia).
    destruct (lookup_lt_is_Some_2 (c0 :: c1 :: c2 :: rest)
                (argmax proba (length (c0 :: c1 :: c2 :: rest)))) as [c Hc].
    { apply argmax_lt. simpl. lia. }
    rewrite Hc. eauto.
Qed.

Lemma fit_inv (clf clf' : MLPClassifier) (X : list (list R)) (y : list Z) :
  fit clf X y = Ok clf' →
  ∃ x0 X0 f,
    X = x0 :: X0 ∧ length X = length y ∧ Forall (λ x, length x = length x0) X ∧
    hidden_layer_sizes clf' = hidden_layer_sizes clf ∧
    max_iter clf' = max_iter clf ∧ random_state clf' = random_state clf ∧
    state clf' = Some f ∧
    classes_ f = unique y ∧ n_features_in_ f = length x0 ∧
    n_outputs_ f = (if bool_decide (length (unique y) ≤ 2)%nat
                    then 1%nat else length (unique y)) ∧
    layer_units f = [length x0] ++ hidden_layer_sizes clf ++ [n_outputs_ f] ∧
    coefs_ f = coefs (fit_stochastic (max_iter clf) (tol clf) (n_iter_no_change clf) X y
                        {| coefs := init_coef (random_state clf) (layer_units f);
                           n_iter := 0; loss_curve := []; best_loss := None;
                           no_improvement_count := 0 |}) ∧
    (n_iter_ f ≤ max_iter clf)%nat ∧
    ((0 < max_iter clf)%nat → (0 < n_iter_ f)%nat).
Proof.
  unfold fit. destruct X as [|x0 X0]; [done|].
  destruct (decide _) as [[Hlen Hw]|]; [|done]. intros [= <-].
  exists x0, X0. eexists. split_and!; try done; cbn.
  - match goal with |- context [fit_stochastic ?a ?b ?c ?d ?e ?s] =>
      pose proof (proj1 (fit_stochastic_n_iter a b c d e s)) as Hle end.
    cbn in Hle. exact Hle.
  - match goal with |- context [fit_stochastic ?a ?b ?c ?d ?e ?s] =>
      pose proof (proj2 (fit_stochastic_n_iter a b c d e s)) as Hlt end.
    cbn in Hlt. exact Hlt.
Qed.

Lemma predict_fitted (clf clf' : MLPClassifier) (X : list (list R)) (y : list Z) :
  fit clf X y = Ok clf' →
  ∀ X' : list (list R),
    (∀ f, state clf' = Some f → Forall (λ x, length x = n_features_in_ f) X') →
    ∃ preds, predict clf' X' = Ok preds ∧ length preds = length X'.
Proof.
  intros Hfit X' Hw.
  destruct (fit_inv _ _ _ _ Hfit)
    as (x0 & X0 & f & -> & Hlen & _ & _ & _ & _ & Hst & Hcl & Hnf & Hno & _).
  unfold predict. rewrite Hst. rewrite decide_True by (by apply Hw).
  assert (Hne : unique y ≠ []).
  { apply unique_nonempty. intros ->. done. }
  destruct (traverse_total
              (λ x, inverse_transform (classes_ f) (n_outputs_ f)
                                      (forward_pass (coefs_ f) x)) X') as [preds Hp].
  { apply Forall_forall. intros x _. rewrite Hcl, Hno.
    by apply inverse_transform_total. }
  exists preds. split; [done|]. by apply traverse_Ok_lookup in Hp as [-> _].
Qed.

Lemma predict_classes (clf : MLPClassifier) (f : fitted) X' preds :
  state clf = Some f →
  predict clf X' = Ok preds →
  Forall (λ p, p ∈ classes_ f) preds.
Proof.
  intros Hst. unfold predict. rewrite Hst. destruct (decide _); [|done].
  intros Hp. apply traverse_Forall2 in Hp. apply Forall_lookup. intros j p Hj.
  destruct (Forall2_lookup_r _ _ _ _ _ Hp Hj) as (x & _ & Hx).
  by eapply inverse_transform_class.
Qed.

Lemma predict_binary (clf clf' : MLPClassifier) X y X' preds :
  fit clf X y = Ok clf' →
  Forall (λ c, c = 0 ∨ c = 1) y →
  predict clf' X' = Ok preds →
  Forall (λ p, p = 0 ∨ p = 1) preds.
Proof.
  intros Hfit Hy Hp.
  destruct (fit_inv _ _ _ _ Hfit)
    as (x0 & X0 & f & _ & _ & _ & _ & _ & _ & Hst & Hcl & _).
  pose proof (predict_classes _ _ _ _ Hst Hp) as Hin. rewrite Hcl in Hin.
  eapply Forall_impl; [exact Hin|]. intros p Hpin. cbn in Hpin.
  rewrite elem_of_unique in Hpin.
  by apply (proj1 (Forall_forall _ _) Hy).
Qed.

End SklearnFacts.

(** ** Fitting and predicting with the MLP *)

Section MlpFacts.

Import Sklearn.
Context `{MLPBackend}.

Lemma fit_error (clf : MLPClassifier) (X : list (list R)) (y : list Z) (e : exn) :
  fit clf X y = Raise e → ∃ msg, e = ValueError msg.
Proof.
  unfold fit. destruct X as [|x0 X0]; [intros [= <-]; eauto|].
  destruct (decide _); [done | intros [= <-]; eauto].
Qed.

Lemma predict_error (clf : MLPClassifier) (f : fitted) (X : list (list R)) (e : exn) :
  state clf = Some f → predict clf X = Raise e → data_error e.
Proof.
  intros Hst. unfold predict. rewrite Hst.
  destruct (decide _); [|intros [= <-]; left; eauto].
  intros Hr. apply traverse_Raise in Hr as (x & _ & Hx).
  unfold inverse_transform in Hx.
  destruct (classes_ f) as [|c0 [|c1 [|c2 rest]]]; try done.
  - injection Hx as <-. left. eauto.
  - destruct (_ !! _); [done|]. injection Hx as <-. right. eauto.
Qed.

Lemma fit_total (clf : MLPClassifier) (X : list (list R)) (y : list Z) (n : nat) :
  X ≠ [] → length X = length y → Forall (λ x, length x = n) X →
  ∃ clf' f, fit clf X y = Ok clf' ∧ state clf' = Some f ∧ n_features_in_ f = n.
Proof.
  intros Hne Hlen Hw. unfold fit. destruct X as [|x0 X0]; [done|].
  assert (Hx0 : length x0 = n) by (by inversion Hw).
  rewrite decide_True.
  - eexists _, _. split; [done|]. by split.
  - split; [done|]. eapply Forall_impl; [exact Hw|]. intros x Hx. cbn in Hx. congruence.
Qed.


Lemma fit_stochastic_progress (todo : nat) tol k X y (s : solver) :
  length (loss_curve s) = n_iter s →
  (no_improvement_count s + 1 ≤ n_iter s)%nat ∨
    (best_loss s = None ∧ no_improvement_count s = 0%nat) →
  let s' := fit_stochastic todo tol k X y s in
  length (loss_curve s') = n_iter s' ∧
  (n_iter s' = (n_iter s + todo)%nat ∨ (k + 2 ≤ n_iter s')%nat).
Proof.
  revert s. induction todo as [|todo IH]; intros s Hcurve Hcount; cbn [fit_stochastic].
  - split; [done | left; lia].
  - destruct (solver_pass (coefs s) X y) as [w loss].
    destruct (update_no_improvement_count tol loss s) as [best count] eqn:Hup.
    assert (Hnew : (count + 1 ≤ S (n_iter s))%nat ∧ best ≠ None).
    { unfold update_no_improvement_count in Hup. injection Hup as <- <-.
      destruct (best_loss s) as [b|].
      - destruct Hcount as [Hc|[? _]]; [|done].
        split; [destruct (Training.Qlt_bool _ _); lia|].
        by destruct (Training.Qlt_bool loss b).
      - split; [lia | done]. }
    destruct Hnew as [Hc Hb].
    destruct (bool_decide (k < count)%nat) eqn:Hstop.
    + cbn [loss_curve n_iter]. rewrite length_app. cbn [length].
      apply bool_decide_eq_true_1 in Hstop. split; [lia | right; lia].
    + match goal with |- context [fit_stochastic _ _ _ _ _ ?s'] =>
        destruct (IH s') as [Hlen Hn] end.
      { cbn [loss_curve n_iter]. rewrite length_app. cbn [length]. lia. }
      { left. cbn [no_improvement_count n_iter]. lia. }
      cbn [n_iter] in Hn. split; [done|]. destruct Hn as [->|Hn]; [left; lia | by right].
Qed.

(** X13.  How long the solver of line 152 runs: the loss curve has one
    entry per pass, and the number of passes is at most [max_iter] and at
    least the smaller of [max_iter] and [n_iter_no_change + 2], because
    the stopping rule needs more than [n_iter_no_change] passes in a row
    without improvement and the first pass always improves.  For the
    classifier of line 151 that is between 12 and 1000 passes. *)
Theorem mlp_solver_passes (clf clf' : MLPClassifier) (X : list (list R)) (y : list Z)
    (f : fitted) :
  fit clf X y = Ok clf' → state clf' = Some f →
  length (loss_curve_ f) = n_iter_ f ∧
  (max_iter clf `min` (n_iter_no_change clf + 2) ≤ n_iter_ f ≤ max_iter clf)%nat ∧
  (max_iter mlp_clf `min` (n_iter_no_change mlp_clf + 2) = 12)%nat ∧
  max_iter mlp_clf = 1000%nat.
Proof.
  intros Hfit Hst.
  destruct (fit_inv _ _ _ _ Hfit)
    as (x0 & X0 & f' & -> & _ & _ & _ & _ & _ & Hst' & _ & _ & _ & _ & _ & Hle & _).
  assert (f' = f) as -> by congruence.
  unfold fit in Hfit. destruct (decide _); [|done]. injection Hfit as <-.
  cbn [state] in Hst. injection Hst as <-. cbn [loss_curve_ n_iter_] in *.
  match goal with |- context [fit_stochastic ?a ?b ?c ?d ?e ?s] =>
    destruct (fit_stochastic_progress a b c d e s) as [Hlen Hn] end; [done | by right|].
  cbn [n_iter] in Hn. split_and!; [done | lia | done | done | done].
Qed.


Lemma unique_both_classes (y : list Z) :
  Forall (λ c, c = 0 ∨ c = 1) y → 0 ∈ y → 1 ∈ y → unique y = [0; 1].
Proof.
  intros Hy H0 H1. destruct (unique_binary y Hy) as [Hbin Hlen].
  pose proof (NoDup_unique y) as Hnd.
  assert (Hsorted : Sorted Z.le (unique y)) by apply (Sorted_merge_sort Z.le _).
  rewrite <- elem_of_unique in H0, H1.
  destruct (unique y) as [|a [|b [|c l]]]; cbn [length] in Hlen; try lia.
  - by apply elem_of_nil in H0.
  - apply list_elem_of_singleton in H0, H1. lia.
  - apply Sorted_inv in Hsorted as [_ Hhd]. apply HdRel_inv in Hhd.
    apply NoDup_cons in Hnd as [Hab _]. rewrite list_elem_of_singleton in Hab.
    rewrite !elem_of_cons, elem_of_nil in H0, H1.
    assert (a = 0 ∧ b = 1) as [-> ->] by lia. done.
Qed.

(** X15.  Fitted on 0/1 labels of which both occur, the classifier
    thresholds its single output at one half: a row is labelled 1 exactly
    when the forward pass puts its output above 0.5, and 0 otherwise. *)
Theorem mlp_thresholds_at_half (clf clf' : MLPClassifier) (X : list (list R))
    (y : list Z) (f : fitted) (x : list R) :
  fit clf X y = Ok clf' → state clf' = Some f →
  Forall (λ c, c = 0 ∨ c = 1) y → 0 ∈ y → 1 ∈ y →
  length x = n_features_in_ f →
  n_outputs_ f = 1%nat ∧
  predict clf' [x]
  = Ok [if Rlt_dec (1 / 2) (forward_pass (coefs_ f) x 0%nat) then 1 else 0].
Proof.
  intros Hfit Hst Hy H0 H1 Hx.
  destruct (fit_inv _ _ _ _ Hfit)
    as (x0 & X0 & f' & _ & _ & _ & _ & _ & _ & Hst' & Hcl & _ & Hno & _).
  assert (f' = f) as -> by congruence.
  rewrite (unique_both_classes y Hy H0 H1) in Hcl, Hno. cbn in Hno.
  split; [done|]. unfold predict. rewrite Hst.
  rewrite decide_True by (by repeat constructor).
  cbn [traverse]. rewrite Hcl. cbn [inverse_transform mbind result_bind]. done.
Qed.

End MlpFacts.

(** ** The notebook *)

Section NotebookFacts.

Import Notebook.
Context `{Runtime} `{MLPBackend}.

#[local] Set Warnings "-clear-no-such-hyp".

Lemma run_app (l1 l2 : list stmt) (σ σ' : state) :
  run (l1 ++ l2) σ = Ok σ' ↔ ∃ σm, run l1 σ = Ok σm ∧ run l2 σm = Ok σ'.
Proof.
  revert σ. induction l1 as [|s l1 IH]; intros σ; cbn [run app].
  - split; [eauto | by intros (σm & [= <-] & Hr)].
  - destruct (exec s σ) as [σ1|]; cbn; [apply IH|].
    split; [done | by intros (σm & ? & _)].
Qed.

(** Invert a successful [exec]: one hypothesis per call that returned. *)
Ltac inv_exec H :=
  unfold exec in H;
  repeat (cbv zeta in H;
    match type of H with
    | (_ ≫= _) = Ok _ =>
        let x := fresh "x" in let Hx := fresh "Hx" in
        apply bind_Ok in H as (x & Hx & H)
    | (let '(_, _) := ?p in _) = Ok _ => destruct p
    | match ?x with _ => _ end = Ok _ => destruct x; try discriminate H
    | Ok _ = Ok _ => injection H as <-
    end).

Ltac names_apart Hn :=
  repeat (apply not_elem_of_cons in Hn as [? Hn]);
  cbn [globals assign];
  repeat (rewrite lookup_insert_ne by congruence);
  reflexivity.

Lemma exec_frame (s : stmt) (σ σ' : state) (n : string) :
  exec s σ = Ok σ' → n ∉ binds s → globals σ' !! n = globals σ !! n.
Proof.
  intros Hex Hn. destruct s; cbn [binds] in Hn; inv_exec Hex; names_apart Hn.
Qed.

Lemma run_frame (l : list stmt) (σ σ' : state) (n : string) :
  run l σ = Ok σ' → n ∉ bound_by l → globals σ' !! n = globals σ !! n.
Proof.
  revert σ. induction l as [|s l IH]; intros σ Hrun Hn; cbn [run] in Hrun.
  - by injection Hrun as <-.
  - apply bind_Ok in Hrun as (σ1 & Hs & Hrun).
    unfold bound_by in Hn. cbn [map concat] in Hn.
    apply not_elem_of_app in Hn as [Hs' Hl].
    rewrite (IH _ Hrun Hl). by apply (exec_frame s).
Qed.

Lemma exec_dom (s : stmt) (σ σ' : state) :
  exec s σ = Ok σ' →
  dom (globals σ') = dom (globals σ) ∪ list_to_set (binds s).
Proof.
  intros Hex. destruct s; inv_exec Hex;
    cbn [globals assign binds list_to_set]; rewrite ?dom_insert_L; set_solver.
Qed.

Lemma run_dom (l : list stmt) (σ σ' : state) :
  run l σ = Ok σ' →
  dom (globals σ') = dom (globals σ) ∪ list_to_set (bound_by l).
Proof.
  revert σ. induction l as [|s l IH]; intros σ Hrun; cbn [run] in Hrun.
  - injection Hrun as <-. unfold bound_by. cbn. set_solver.
  - apply bind_Ok in Hrun as (σ1 & Hs & Hrun).
    rewrite (IH _ Hrun), (exec_dom _ _ _ Hs).
    unfold bound_by. cbn [map concat]. rewrite list_to_set_app_L. set_solver.
Qed.

Lemma reachable_bound (k : nat) (σ : state) (n : string) :
  run (take k notebook) init = Ok σ →
  is_Some (globals σ !! n) ↔ n ∈ bound_by (take k notebook).
Proof.
  intros Hrun. rewrite <- elem_of_dom, (run_dom _ _ _ Hrun).
  cbn [globals init]. rewrite dom_empty_L, elem_of_union, elem_of_list_to_set.
  set_solver.
Qed.

Lemma bound_by_take_mono (k k' : nat) (n : string) :
  (k ≤ k')%nat → n ∈ bound_by (take k notebook) → n ∈ bound_by (take k' notebook).
Proof.
  intros Hk Hn. replace k' with (k + (k' - k))%nat by lia.
  rewrite <- take_take_drop. unfold bound_by in *.
  rewrite map_app, concat_app. apply elem_of_app. by left.
Qed.

Lemma history_before (k : nat) (n : string) :
  n ∈ ["embedding_extractor"; "train_embeddings"; "test_embeddings"; "mlp_clf";
       "preds"; "predict_sarcasm"] →
  n ∈ bound_by (take k notebook) → "history" ∈ bound_by (take k notebook).
Proof.
  intros Hn Hk. destruct (decide (20 ≤ k)%nat) as [Hge|Hlt].
  - apply (bound_by_take_mono 20); [done|].
    apply (bool_decide_eq_true_1 _). vm_compute. reflexivity.
  - exfalso. apply (bound_by_take_mono k 19) in Hk; [|lia].
    revert Hk. apply (bool_decide_eq_false_1 _).
    repeat (apply elem_of_cons in Hn as [->|Hn]; [vm_compute; reflexivity|]).
    by apply elem_of_nil in Hn.
Qed.

Lemma history_unbound_before_fit (k : nat) (σ : state) :
  (k ≤ 19)%nat → run (take k notebook) init = Ok σ →
  globals σ !! "history" = None.
Proof.
  intros Hk Hrun. destruct (globals σ !! "history") as [v|] eqn:E; [|done].
  exfalso. assert (Hs : is_Some (globals σ !! "history")) by (by eexists).
  rewrite (reachable_bound k) in Hs by done.
  apply (bound_by_take_mono k 19) in Hs; [|done].
  revert Hs. apply (bool_decide_eq_false_1 _). vm_compute. reflexivity.
Qed.

(** C1.  In every state the script passes through, an embedding
    extractor (and likewise any embedding, fitted classifier, prediction
    or the inference function) exists only if [fit] has returned and
    bound [history].  While it has not, the extraction calls fail with a
    NameError for [embedding_extractor], fitting and using the secondary
    classifier fail with a NameError for [mlp_clf], and a call of the body
    of [predict_sarcasm] raises. *)
Theorem stage2_needs_stage1 (σ : state) :
  reachable σ →
  (∀ n, n ∈ ["embedding_extractor"; "train_embeddings"; "test_embeddings";
             "mlp_clf"; "preds"; "predict_sarcasm"] →
        is_Some (globals σ !! n) → is_Some (globals σ !! "history")) ∧
  (globals σ !! "history" = None →
   globals σ !! "embedding_extractor" = None ∧
   exec SExtractTrain σ = Raise (NameError "embedding_extractor") ∧
   exec SExtractTest σ = Raise (NameError "embedding_extractor") ∧
   exec SMlpFit σ = Raise (NameError "mlp_clf") ∧
   exec SPredictTest σ = Raise (NameError "mlp_clf") ∧
   ∀ text, raises (predict_sarcasm σ text)).
Proof.
  intros [k Hrun].
  assert (Hord : ∀ n, n ∈ ["embedding_extractor"; "train_embeddings";
                           "test_embeddings"; "mlp_clf"; "preds"; "predict_sarcasm"] →
                      is_Some (globals σ !! n) → is_Some (globals σ !! "history")).
  { intros n Hn Hsome. rewrite (reachable_bound k) in Hsome |- * by done.
    by apply (history_before k n). }
  split; [done|]. intros Hhist.
  assert (Hnone : ∀ n, n ∈ ["embedding_extractor"; "train_embeddings";
                            "test_embeddings"; "mlp_clf"; "preds"; "predict_sarcasm"] →
                       globals σ !! n = None).
  { intros n Hn. destruct (globals σ !! n) eqn:E; [|done].
    destruct (Hord n Hn) as [v Hv]; [by eexists|]. congruence. }
  assert (Hex : globals σ !! "embedding_extractor" = None)
    by (apply Hnone; set_solver).
  assert (Hmlp : globals σ !! "mlp_clf" = None) by (apply Hnone; set_solver).
  split_and!; try done.
  - unfold exec, get_model, get. by rewrite Hex.
  - unfold exec, get_model, get. by rewrite Hex.
  - unfold exec, get_classifier, get. by rewrite Hmlp.
  - unfold exec, get_classifier, get. by rewrite Hmlp.
  - intros text. unfold predict_sarcasm, predict_label.
    destruct (get_tokenizer σ "bert_tokenizer") as [tb|e]; [|by exists e].
    destruct (get_int σ "max_seq_length") as [n|e]; [|by exists e].
    destruct (get_tokenizer σ "roberta_tokenizer") as [tr|e]; [|by exists e].
    cbn. unfold get_model, get. rewrite Hex. by eexists.
Qed.

(** *** What a completed run leaves in the global names *)

Lemma run_step (i : nat) (s : stmt) (σ : state) :
  notebook !! i = Some s →
  run (take (S i) notebook) init = Ok σ →
  ∃ σi, run (take i notebook) init = Ok σi ∧ exec s σi = Ok σ.
Proof.
  intros Hs Hrun. rewrite (take_S_r _ _ _ Hs) in Hrun.
  apply run_app in Hrun as (σi & Hpre & Hex). exists σi. split; [done|].
  cbn [run] in Hex. by destruct (exec s σi).
Qed.

Lemma bound_by_take (m : nat) (l : list stmt) (n : string) :
  n ∈ bound_by (take m l) → n ∈ bound_by l.
Proof.
  revert m. induction l as [|s l IH]; intros [|m]; cbn; try done.
  - intros Hn. by apply elem_of_nil in Hn.
  - unfold bound_by. cbn [map concat]. rewrite !elem_of_app.
    intros [Hs|Hl]; [by left | right; by eapply IH].
Qed.

Lemma fact_persists (k0 : nat) (n : string) (P : pyval → Prop) :
  (∀ σ, run (take k0 notebook) init = Ok σ → ∃ v, globals σ !! n = Some v ∧ P v) →
  n ∉ bound_by (drop k0 notebook) →
  ∀ k σ, (k0 ≤ k)%nat → run (take k notebook) init = Ok σ →
         ∃ v, globals σ !! n = Some v ∧ P v.
Proof.
  intros Hk0 Hfree k σ Hk Hrun.
  replace k with (k0 + (k - k0))%nat in Hrun by lia.
  rewrite <- take_take_drop in Hrun.
  apply run_app in Hrun as (σ0 & Hpre & Hpost).
  destruct (Hk0 σ0 Hpre) as (v & Hv & HP). exists v. split; [|done].
  rewrite (run_frame _ _ _ n Hpost); [done|].
  intros Hin. apply Hfree. by eapply bound_by_take.
Qed.

Ltac persists k0 :=
  unfold holds_from; refine (fact_persists k0 _ _ _ _);
  [ | apply (bool_decide_eq_false_1 _); vm_compute; reflexivity ].

(** Feed a known binding to the lookup recorded in [Hx]. *)
Ltac known Hx F k Hpre :=
  let v := fresh "v" in let Hv := fresh "Hv" in let HP := fresh "HP" in
  destruct (F k _ ltac:(lia) Hpre) as (v & Hv & HP);
  unfold get_texts, get_labels, get_int, get_tokenizer, get_def, get_int_array,
    get_encoder, get_tensor, get_model, get_optimizer, get_callback,
    get_float_array, get_classifier, get in Hx;
  rewrite Hv in Hx; cbn [mbind result_bind] in Hx; clear Hv;
  try (subst v; try (injection Hx as <-)).

Ltac bound_now :=
  cbn [globals assign];
  repeat first [ rewrite lookup_insert_eq
               | rewrite lookup_insert_ne by (apply String.eqb_neq; reflexivity) ];
  eexists; split; [reflexivity|].

Lemma max_seq_length_bound :
  holds_from 2 "max_seq_length" (λ v, v = PInt Ensemble.max_seq_length).
Proof.
  persists 2%nat. intros σ Hrun.
  apply (run_step 1 SMaxSeqLength) in Hrun as (σi & Hpre & Hex); [|done].
  inv_exec Hex. by bound_now.
Qed.

Lemma bert_tokenizer_bound :
  holds_from 3 "bert_tokenizer" (λ v, v = PTokenizer bert_tokenizer).
Proof.
  persists 3%nat. intros σ Hrun.
  apply (run_step 2 STokenizers) in Hrun as (σi & Hpre & Hex); [|done].
  inv_exec Hex. by bound_now.
Qed.

Lemma roberta_tokenizer_bound :
  holds_from 3 "roberta_tokenizer" (λ v, v = PTokenizer roberta_tokenizer).
Proof.
  persists 3%nat. intros σ Hrun.
  apply (run_step 2 STokenizers) in Hrun as (σi & Hpre & Hex); [|done].
  inv_exec Hex. by bound_now.
Qed.

Lemma inputs_bound :
  holds_from 8 "bert_input_ids" (λ v, v = PTensor Ensemble.bert_input_ids) ∧
  holds_from 8 "bert_attention" (λ v, v = PTensor Ensemble.bert_attention) ∧
  holds_from 8 "roberta_input_ids" (λ v, v = PTensor Ensemble.roberta_input_ids) ∧
  holds_from 8 "roberta_attention" (λ v, v = PTensor Ensemble.roberta_attention).
Proof.
  split_and!; persists 8%nat; intros σ Hrun;
    (apply (run_step 7 SInputs) in Hrun as (σi & Hpre & Hex); [|done]);
    inv_exec Hex; known Hx max_seq_length_bound 7%nat Hpre; by bound_now.
Qed.

Lemma bert_output_bound :
  holds_from 11 "bert_output" (λ v, v = PTensor Ensemble.bert_output).
Proof.
  destruct inputs_bound as (Hi1 & Hi2 & _).
  persists 11%nat. intros σ Hrun.
  apply (run_step 10 SBertOutput) in Hrun as (σi & Hpre & Hex); [|done].
  inv_exec Hex. known Hx0 Hi1 10%nat Hpre. known Hx1 Hi2 10%nat Hpre. by bound_now.
Qed.

Lemma roberta_output_bound :
  holds_from 14 "roberta_output" (λ v, v = PTensor Ensemble.roberta_output).
Proof.
  destruct inputs_bound as (_ & _ & Hi3 & Hi4).
  persists 14%nat. intros σ Hrun.
  apply (run_step 13 SRobertaOutput) in Hrun as (σi & Hpre & Hex); [|done].
  inv_exec Hex. known Hx0 Hi3 13%nat Hpre. known Hx1 Hi4 13%nat Hpre. by bound_now.
Qed.

Lemma combined_embedding_bound :
  holds_from 15 "combined_embedding" (λ v, v = PTensor Ensemble.combined_embedding).
Proof.
  persists 15%nat. intros σ Hrun.
  apply (run_step 14 SConcatenate) in Hrun as (σi & Hpre & Hex); [|done].
  inv_exec Hex. known Hx bert_output_bound 14%nat Hpre.
  known Hx0 roberta_output_bound 14%nat Hpre. by bound_now.
Qed.

Lemma classifier_output_bound :
  holds_from 16 "classifier_output" (λ v, v = PTensor Ensemble.classifier_output).
Proof.
  persists 16%nat. intros σ Hrun.
  apply (run_step 15 SHead) in Hrun as (σi & Hpre & Hex); [|done].
  inv_exec Hex. known Hx combined_embedding_bound 15%nat Hpre. by bound_now.
Qed.

Lemma ensemble_model_bound :
  holds_from 17 "ensemble_model" (λ v, v = PModel Ensemble.ensemble_model).
Proof.
  destruct inputs_bound as (Hi1 & Hi2 & Hi3 & Hi4).
  persists 17%nat. intros σ Hrun.
  apply (run_step 16 SEnsembleModel) in Hrun as (σi & Hpre & Hex); [|done].
  inv_exec Hex. known Hx Hi1 16%nat Hpre. known Hx0 Hi2 16%nat Hpre.
  known Hx1 Hi3 16%nat Hpre. known Hx2 Hi4 16%nat Hpre.
  known Hx3 classifier_output_bound 16%nat Hpre. by bound_now.
Qed.

Lemma embedding_extractor_bound :
  holds_from 21 "embedding_extractor" (λ v, v = PModel Ensemble.embedding_extractor).
Proof.
  destruct inputs_bound as (Hi1 & Hi2 & Hi3 & Hi4).
  persists 21%nat. intros σ Hrun.
  apply (run_step 20 SExtractor) in Hrun as (σi & Hpre & Hex); [|done].
  inv_exec Hex. known Hx Hi1 20%nat Hpre. known Hx0 Hi2 20%nat Hpre.
  known Hx1 Hi3 20%nat Hpre. known Hx2 Hi4 20%nat Hpre.
  known Hx3 combined_embedding_bound 20%nat Hpre. by bound_now.
Qed.

Ltac known_name n F k Hpre :=
  match goal with Hx : _ _ n = Ok _ |- _ => known Hx F k Hpre end.

Lemma labels_bound : holds_from 1 "labels" (λ v, v = PLabels (csv.*2)).
Proof.
  persists 1%nat. intros σ Hrun.
  apply (run_step 0 SLoadData) in Hrun as (σi & Hpre & Hex); [|done].
  inv_exec Hex. by bound_now.
Qed.

Lemma y_train_bound :
  holds_from 6 "y_train" (λ v, ∃ y, v = PLabels y ∧ ∀ c, c ∈ y → c ∈ csv.*2).
Proof.
  persists 6%nat. intros σ Hrun.
  apply (run_step 5 SSplit) in Hrun as (σi & Hpre & Hex); [|done].
  inv_exec Hex. known_name "labels" labels_bound 5%nat Hpre.
  match goal with Hs : Split.train_test_split _ _ _ _ _ _ = Ok _ |- _ =>
    apply train_test_split_labels in Hs as [Htr _] end.
  bound_now. eauto.
Qed.

Hypothesis bert_base : encoder_contract 768 TFBertModel.
Hypothesis roberta_base : encoder_contract 768 TFRobertaModel.

Lemma train_embeddings_bound :
  holds_from 22 "train_embeddings"
    (λ v, ∃ X, v = PFloatArray X ∧ Forall (λ e, length e = 1536%nat) X ∧
               ∃ θ arrays,
                 Keras.predict Ensemble.embedding_extractor θ arrays 32 = Ok X).
Proof.
  persists 22%nat. intros σ Hrun.
  apply (run_step 21 SExtractTrain) in Hrun as (σi & Hpre & Hex); [|done].
  inv_exec Hex. known_name "embedding_extractor" embedding_extractor_bound 21%nat Hpre.
  bound_now.
  match goal with Hp : Keras.predict _ _ _ _ = Ok ?X |- _ =>
    exists X; split_and!; [done | by eapply predict_extractor_widths | eauto] end.
Qed.

Lemma mlp_unfitted (σ : state) :
  run (take 24 notebook) init = Ok σ →
  globals σ !! "mlp_clf" = Some (PClassifier Sklearn.mlp_clf).
Proof.
  intros Hrun.
  apply (run_step 23 SMlp) in Hrun as (σi & Hpre & Hex); [|done].
  inv_exec Hex. cbn [globals assign]. by rewrite lookup_insert_eq.
Qed.

Lemma mlp_clf_bound :
  holds_from 25 "mlp_clf"
    (λ v, ∃ clf X y,
        v = PClassifier clf ∧ Sklearn.fit Sklearn.mlp_clf X y = Ok clf ∧
        Forall (λ e, length e = 1536%nat) X ∧
        (∃ θ arrays, Keras.predict Ensemble.embedding_extractor θ arrays 32 = Ok X) ∧
        (∀ c, c ∈ y → c ∈ csv.*2)).
Proof.
  persists 25%nat. intros σ Hrun.
  apply (run_step 24 SMlpFit) in Hrun as (σi & Hpre & Hex); [|done].
  inv_exec Hex.
  match goal with Hx : get_classifier _ "mlp_clf" = Ok _ |- _ =>
    unfold get_classifier, get in Hx; rewrite (mlp_unfitted _ Hpre) in Hx;
    cbn [mbind result_bind] in Hx; injection Hx as <- end.
  known_name "train_embeddings" train_embeddings_bound 24%nat Hpre.
  destruct HP as (X & -> & Hw & Hfrom). injection Hx0 as <-.
  known_name "y_train" y_train_bound 24%nat Hpre.
  destruct HP as (y & -> & Hy). injection Hx1 as <-.
  bound_now. eexists _, X, y. split_and!; try done.
Qed.

Lemma run_notebook_take (σ : state) :
  run notebook init = Ok σ → run (take 29 notebook) init = Ok σ.
Proof. intros Hrun. by rewrite take_ge by (cbn; lia). Qed.

(** C5.  Once the notebook has run, the inference pipeline answers every
    text, the literal "oh great, another meeting" and any other, long
    or short: both tokenizers pad or cut it to the training length, the
    extractor returns one 1536-wide row, and the classifier, fitted on
    0/1 labels, predicts 0 or 1, which [predict_sarcasm] renders as one
    of its two strings.  No exception is raised. *)
Theorem predict_sarcasm_total (σ : state) (text : string) :
  run notebook init = Ok σ →
  Forall (λ c, c = 0 ∨ c = 1) (csv.*2) →
  ∃ p, predict_label σ text = Ok p ∧ (p = 0 ∨ p = 1) ∧
       predict_sarcasm σ text
       = Ok (if decide (p = 1) then "Sarcastic😏" else "Not Sarcastic😊").
Proof.
  intros Hrun Hbin. apply run_notebook_take in Hrun.
  destruct (bert_tokenizer_bound 29%nat σ ltac:(lia) Hrun) as (v1 & Hv1 & ->).
  destruct (max_seq_length_bound 29%nat σ ltac:(lia) Hrun) as (v2 & Hv2 & ->).
  destruct (roberta_tokenizer_bound 29%nat σ ltac:(lia) Hrun) as (v3 & Hv3 & ->).
  destruct (embedding_extractor_bound 29%nat σ ltac:(lia) Hrun) as (v4 & Hv4 & ->).
  destruct (mlp_clf_bound 29%nat σ ltac:(lia) Hrun)
    as (v5 & Hv5 & clf & X & y & -> & Hfit & HwX & _ & Hy).
  assert (Hlabel : ∃ p, predict_label σ text = Ok p ∧ (p = 0 ∨ p = 1)).
  { unfold predict_label, get_tokenizer, get_int, get_model, get_classifier, get.
    rewrite Hv1, Hv2, Hv3, Hv4, Hv5. cbn [mbind result_bind].
    unfold Tokenize.call. cbn [Tokenize.input_ids Tokenize.attention_mask map].
    unfold astype_int32. cbn [map].
    destruct (encode_plus_length bert_tokenizer Ensemble.max_seq_length text)
      as [Hb1 Hb2]; [unfold Ensemble.max_seq_length; lia|].
    destruct (encode_plus_length roberta_tokenizer Ensemble.max_seq_length text)
      as [Hr1 Hr2]; [unfold Ensemble.max_seq_length; lia|].
    destruct (predict_single bert_base roberta_base (weights σ)
                (map to_int32 (Tokenize.encode_plus bert_tokenizer
                                 Ensemble.max_seq_length text).1)
                (map to_int32 (Tokenize.encode_plus bert_tokenizer
                                 Ensemble.max_seq_length text).2)
                (map to_int32 (Tokenize.encode_plus roberta_tokenizer
                                 Ensemble.max_seq_length text).1)
                (map to_int32 (Tokenize.encode_plus roberta_tokenizer
                                 Ensemble.max_seq_length text).2))
      as (e & Hpred & He); try (by rewrite length_map).
    rewrite Hpred. cbn [mbind result_bind].
    destruct (fit_inv _ _ _ _ Hfit)
      as (x0 & X0 & f & -> & _ & _ & _ & _ & _ & Hst & _ & Hnf & _).
    destruct (predict_fitted _ _ _ _ Hfit [e]) as (preds & Hp & Hlen).
    { intros f' Hf'. assert (f' = f) as -> by congruence.
      constructor; [|done]. rewrite Hnf, He. by inversion HwX. }
    rewrite Hp. cbn [mbind result_bind].
    destruct preds as [|p [|? ?]]; try done. exists p. split; [done|].
    assert (Hall : Forall (λ p, p = 0 ∨ p = 1) [p]).
    { eapply predict_binary; [exact Hfit | | exact Hp].
      apply Forall_forall. intros c Hc.
      apply (proj1 (Forall_forall _ _) Hbin). by apply Hy. }
    by inversion Hall. }
  destruct Hlabel as (p & Hp & Hrange). exists p. split_and!; [done..|].
  unfold predict_sarcasm. by rewrite Hp.
Qed.

Lemma callbacks_bound :
  holds_from 19 "lr_scheduler"
    (λ v, v = PCallback (Training.CReduceLR Training.lr_scheduler)) ∧
  holds_from 19 "early_stopper"
    (λ v, v = PCallback (Training.CEarlyStopping Training.early_stopper)).
Proof.
  split; persists 19%nat; intros σ Hrun;
    (apply (run_step 18 SCallbacks) in Hrun as (σi & Hpre & Hex); [|done]);
    inv_exec Hex; by bound_now.
Qed.

Lemma history_bound :
  holds_from 20 "history" (λ v, ∃ loss, v = PHistory [loss]).
Proof.
  destruct callbacks_bound as [Hc1 Hc2].
  persists 20%nat. intros σ Hrun.
  apply (run_step 19 SFit) in Hrun as (σi & Hpre & Hex); [|done].
  inv_exec Hex.
  known_name "lr_scheduler" Hc1 19%nat Hpre.
  known_name "early_stopper" Hc2 19%nat Hpre.
  bound_now. eexists.
  match goal with |- context [Training.fit ?te ?vl ?w ?lr _ _] =>
    destruct (fit_one_epoch te vl w lr) as (_ & Hlosses & _) end.
  by rewrite Hlosses.
Qed.

(** C10.  The script asks for one epoch and an early-stopping patience
    of four.  Its single epoch always improves on the initial best, so
    the stopper never requests a stop: the loop ends because the budget
    is used up, the model keeps the weights of that epoch, and the
    learning rate is the one it started with.  More generally no budget
    of at most four epochs can end in an early stop.  Accordingly the
    [history] of a completed notebook run records exactly one epoch. *)
Theorem one_epoch_never_stops_early :
  Training.epochs = 1%nat ∧
  Training.EarlyStopping.patience
    (@Training.early_stopper Keras.store) = 4%nat ∧
  (∀ (W : Type) (train_epoch : nat → Q → W → W) (val_loss : W → Q) (w : W) (lr : Q),
      let r := Training.fit train_epoch val_loss w lr Training.epochs
                 [Training.CReduceLR Training.lr_scheduler;
                  Training.CEarlyStopping Training.early_stopper] in
      Training.stop_training r = false ∧
      Training.val_losses r = [val_loss (train_epoch 0%nat lr w)] ∧
      Training.weights r = train_epoch 0%nat lr w ∧
      Training.learning_rate r = lr ∧
      ∃ c e, Training.callbacks r
             = [Training.CReduceLR c; Training.CEarlyStopping e] ∧
             Training.EarlyStopping.stopped_epoch e = 0%nat ∧
             Training.EarlyStopping.wait e = 0%nat) ∧
  (∀ (W : Type) (train_epoch : nat → Q → W → W) (val_loss : W → Q) (w : W) (lr : Q)
     (budget : nat) (c : Training.ReduceLROnPlateau.t),
      (budget ≤ 4)%nat →
      Training.stop_training
        (Training.fit train_epoch val_loss w lr budget
           [Training.CReduceLR c; Training.CEarlyStopping Training.early_stopper])
      = false ∧
      length (Training.val_losses
                (Training.fit train_epoch val_loss w lr budget
                   [Training.CReduceLR c;
                    Training.CEarlyStopping Training.early_stopper]))
      = budget) ∧
  (∀ σ, run notebook init = Ok σ →
        ∃ loss, globals σ !! "history" = Some (PHistory [loss])).
Proof.
  split_and!; [done..| | |].
  - intros W te vl w lr. apply fit_one_epoch.
  - intros W te vl w lr budget c. apply fit_short_budget.
  - intros σ Hrun. apply run_notebook_take in Hrun.
    destruct (history_bound 29%nat σ ltac:(lia) Hrun) as (v & Hv & loss & ->).
    by exists loss.
Qed.



(** *** The whole script, statement by statement *)

Import Arrays.

Lemma run_snoc (i : nat) (s : stmt) (σ σ' : state) :
  notebook !! i = Some s →
  run (take i notebook) init = Ok σ → exec s σ = Ok σ' →
  run (take (S i) notebook) init = Ok σ'.
Proof.
  intros Hs Hrun Hex. rewrite (take_S_r _ _ _ Hs). apply run_app.
  exists σ. split; [done|]. cbn [run]. by rewrite Hex.
Qed.

(** Extend a run by one statement that returns. *)
Ltac advance i s Hrun Hret :=
  let σ' := fresh "σ" in let Hex := fresh "Hex" in
  match type of Hrun with
  | run (take i notebook) init = Ok ?σ =>
      destruct (returns_Ok (exec s σ) Hret) as [σ' Hex];
      apply (run_snoc i s σ σ' eq_refl Hrun) in Hex; clear Hrun; rename Hex into Hrun
  end.

Lemma run_raises (i : nat) (s : stmt) (σ : state) (e : exn) :
  notebook !! i = Some s →
  run (take i notebook) init = Ok σ → exec s σ = Raise e →
  run notebook init = Raise e.
Proof.
  intros Hs Hrun Hex. rewrite <- (take_drop_middle notebook i s Hs).
  assert (Hgen : ∀ l σ0, run l σ0 = Ok σ → run (l ++ s :: drop (S i) notebook) σ0
                                            = Raise e).
  { induction l as [|s' l IH]; intros σ0 Hl; cbn [run app] in *.
    - injection Hl as ->. by rewrite Hex.
    - destruct (exec s' σ0) as [σ1|]; [|done]. cbn [mbind result_bind] in *.
      by apply IH. }
  by apply Hgen.
Qed.

Lemma texts_bound : holds_from 1 "texts" (λ v, v = PTexts texts).
Proof.
  persists 1%nat. intros σ Hrun.
  apply (run_step 0 SLoadData) in Hrun as (σi & Hpre & Hex); [|done].
  inv_exec Hex. by bound_now.
Qed.

Lemma tokenize_def_bound :
  holds_from 4 "tokenize_for_model" (λ v, v = PDef "tokenize_for_model").
Proof.
  persists 4%nat. intros σ Hrun.
  apply (run_step 3 SDefTokenize) in Hrun as (σi & Hpre & Hex); [|done].
  inv_exec Hex. by bound_now.
Qed.

(** Look a name up in the state a prefix of the script has produced. *)
Ltac lookup_known F k Hrun :=
  let v := fresh "v" in let Hv := fresh "Hv" in
  destruct (F k _ ltac:(lia) Hrun) as (v & Hv & ->);
  unfold get_texts, get_labels, get_int, get_tokenizer, get_def, get_int_array,
    get_encoder, get_tensor, get_model, get_optimizer, get_callback,
    get_float_array, get_classifier, get;
  cbn [globals assign];
  repeat (rewrite lookup_insert_ne by (apply String.eqb_neq; reflexivity));
  rewrite Hv; cbn [mbind result_bind]; clear Hv.

Lemma exec_STokenize (σ : state) :
  run (take 4 notebook) init = Ok σ →
  exec STokenize σ
  = Ok (assign "X_mask_roberta" (PIntArray X_mask_roberta)
         (assign "X_ids_roberta" (PIntArray X_ids_roberta)
           (assign "X_mask_bert" (PIntArray X_mask_bert)
             (assign "X_ids_bert" (PIntArray X_ids_bert) σ)))).
Proof.
  intros Hrun. unfold exec.
  lookup_known tokenize_def_bound 4%nat Hrun.
  lookup_known bert_tokenizer_bound 4%nat Hrun.
  lookup_known texts_bound 4%nat Hrun.
  lookup_known max_seq_length_bound 4%nat Hrun.
  unfold Tokenize.tokenize_for_model. cbv zeta.
  lookup_known roberta_tokenizer_bound 4%nat Hrun. done.
Qed.

Lemma tokenized_bound :
  holds_from 5 "X_ids_bert" (λ v, v = PIntArray X_ids_bert) ∧
  holds_from 5 "X_mask_bert" (λ v, v = PIntArray X_mask_bert) ∧
  holds_from 5 "X_ids_roberta" (λ v, v = PIntArray X_ids_roberta) ∧
  holds_from 5 "X_mask_roberta" (λ v, v = PIntArray X_mask_roberta).
Proof.
  split_and!; persists 5%nat; intros σ Hrun;
    (apply (run_step 4 STokenize) in Hrun as (σi & Hpre & Hex); [|done]);
    rewrite (exec_STokenize σi Hpre) in Hex; injection Hex as <-; by bound_now.
Qed.

Lemma tokenized_shape :
  length X_ids_bert = length csv ∧ length X_mask_bert = length csv ∧
  length X_ids_roberta = length csv ∧ length X_mask_roberta = length csv ∧
  length labels = length csv ∧
  Forall (Forall (λ row, length row = Ensemble.max_seq_length))
         [X_ids_bert; X_mask_bert; X_ids_roberta; X_mask_roberta].
Proof.
  destruct (tokenizer_call_shape bert_tokenizer texts Ensemble.max_seq_length)
    as (B1 & B2 & B3 & B4); [unfold Ensemble.max_seq_length; lia|].
  destruct (tokenizer_call_shape roberta_tokenizer texts Ensemble.max_seq_length)
    as (R1 & R2 & R3 & R4); [unfold Ensemble.max_seq_length; lia|].
  unfold texts in B1, B2, R1, R2. rewrite length_fmap in B1, B2, R1, R2.
  unfold labels. rewrite length_fmap.
  split_and!; try done. by repeat constructor.
Qed.

Ltac lookup_with Hv :=
  unfold get_texts, get_labels, get_int, get_tokenizer, get_def, get_int_array,
    get_encoder, get_tensor, get_model, get_optimizer, get_callback,
    get_float_array, get_classifier, get;
  cbn [globals assign];
  repeat (rewrite lookup_insert_ne by (apply String.eqb_neq; reflexivity));
  rewrite Hv; cbn [mbind result_bind].

Lemma exec_SSplit (σ : state) :
  run (take 5 notebook) init = Ok σ →
  exec SSplit σ
  = ('(ib_train, ib_test, (mb_train, mb_test), (ir_train, ir_test),
       (mr_train, mr_test), (y_train, y_test)) ← split;
     Ok (assign "y_test" (PLabels y_test)
        (assign "y_train" (PLabels y_train)
        (assign "X_mask_roberta_test" (PIntArray mr_test)
        (assign "X_mask_roberta_train" (PIntArray mr_train)
        (assign "X_ids_roberta_test" (PIntArray ir_test)
        (assign "X_ids_roberta_train" (PIntArray ir_train)
        (assign "X_mask_bert_test" (PIntArray mb_test)
        (assign "X_mask_bert_train" (PIntArray mb_train)
        (assign "X_ids_bert_test" (PIntArray ib_test)
        (assign "X_ids_bert_train" (PIntArray ib_train) σ))))))))))).
Proof.
  intros Hrun. destruct tokenized_bound as (T1 & T2 & T3 & T4). unfold exec.
  lookup_known T1 5%nat Hrun. lookup_known T2 5%nat Hrun.
  lookup_known T3 5%nat Hrun. lookup_known T4 5%nat Hrun.
  lookup_known labels_bound 5%nat Hrun. done.
Qed.

Section AfterSplit.

Variables X_ids_bert_train X_ids_bert_test : list (list Z).
Variables X_mask_bert_train X_mask_bert_test : list (list Z).
Variables X_ids_roberta_train X_ids_roberta_test : list (list Z).
Variables X_mask_roberta_train X_mask_roberta_test : list (list Z).
Variables y_train y_test : list Z.

Hypothesis split_returned :
  split = Ok (X_ids_bert_train, X_ids_bert_test,
              (X_mask_bert_train, X_mask_bert_test),
              (X_ids_roberta_train, X_ids_roberta_test),
              (X_mask_roberta_train, X_mask_roberta_test), (y_train, y_test)).

Lemma split_bound (σ : state) :
  run (take 6 notebook) init = Ok σ →
  globals σ !! "X_ids_bert_train" = Some (PIntArray X_ids_bert_train) ∧
  globals σ !! "X_mask_bert_train" = Some (PIntArray X_mask_bert_train) ∧
  globals σ !! "X_ids_bert_test" = Some (PIntArray X_ids_bert_test) ∧
  globals σ !! "X_mask_bert_test" = Some (PIntArray X_mask_bert_test) ∧
  globals σ !! "X_ids_roberta_train" = Some (PIntArray X_ids_roberta_train) ∧
  globals σ !! "X_mask_roberta_train" = Some (PIntArray X_mask_roberta_train) ∧
  globals σ !! "X_ids_roberta_test" = Some (PIntArray X_ids_roberta_test) ∧
  globals σ !! "X_mask_roberta_test" = Some (PIntArray X_mask_roberta_test).
Proof.
  intros Hrun. apply (run_step 5 SSplit) in Hrun as (σi & Hpre & Hex); [|done].
  rewrite (exec_SSplit σi Hpre), split_returned in Hex.
  cbn [mbind result_bind] in Hex. injection Hex as <-. cbn [globals assign].
  split_and!;
    repeat first [ rewrite lookup_insert_eq
                 | rewrite lookup_insert_ne by (apply String.eqb_neq; reflexivity) ];
    reflexivity.
Qed.

Lemma y_bound :
  holds_from 6 "y_train" (λ v, v = PLabels y_train) ∧
  holds_from 6 "y_test" (λ v, v = PLabels y_test).
Proof.
  split; persists 6%nat; intros σ Hrun;
    (apply (run_step 5 SSplit) in Hrun as (σi & Hpre & Hex); [|done]);
    rewrite (exec_SSplit σi Hpre), split_returned in Hex;
    cbn [mbind result_bind] in Hex; injection Hex as <-; by bound_now.
Qed.

Lemma exec_SInt32 (σ : state) :
  run (take 6 notebook) init = Ok σ →
  exec SInt32 σ
  = Ok (assign "X_mask_roberta_test" (PIntArray (astype_int32 X_mask_roberta_test))
       (assign "X_ids_roberta_test" (PIntArray (astype_int32 X_ids_roberta_test))
       (assign "X_mask_roberta_train" (PIntArray (astype_int32 X_mask_roberta_train))
       (assign "X_ids_roberta_train" (PIntArray (astype_int32 X_ids_roberta_train))
       (assign "X_mask_bert_test" (PIntArray (astype_int32 X_mask_bert_test))
       (assign "X_ids_bert_test" (PIntArray (astype_int32 X_ids_bert_test))
       (assign "X_mask_bert_train" (PIntArray (astype_int32 X_mask_bert_train))
       (assign "X_ids_bert_train" (PIntArray (astype_int32 X_ids_bert_train))
          σ)))))))).
Proof.
  intros Hrun.
  destruct (split_bound σ Hrun) as (L1 & L2 & L3 & L4 & L5 & L6 & L7 & L8).
  unfold exec. lookup_with L1. lookup_with L2. lookup_with L3. lookup_with L4.
  lookup_with L5. lookup_with L6. lookup_with L7. lookup_with L8. done.
Qed.

Lemma int32_bound :
  holds_from 7 "X_ids_bert_train"
    (λ v, v = PIntArray (astype_int32 X_ids_bert_train)) ∧
  holds_from 7 "X_mask_bert_train"
    (λ v, v = PIntArray (astype_int32 X_mask_bert_train)) ∧
  holds_from 7 "X_ids_bert_test"
    (λ v, v = PIntArray (astype_int32 X_ids_bert_test)) ∧
  holds_from 7 "X_mask_bert_test"
    (λ v, v = PIntArray (astype_int32 X_mask_bert_test)) ∧
  holds_from 7 "X_ids_roberta_train"
    (λ v, v = PIntArray (astype_int32 X_ids_roberta_train)) ∧
  holds_from 7 "X_mask_roberta_train"
    (λ v, v = PIntArray (astype_int32 X_mask_roberta_train)) ∧
  holds_from 7 "X_ids_roberta_test"
    (λ v, v = PIntArray (astype_int32 X_ids_roberta_test)) ∧
  holds_from 7 "X_mask_roberta_test"
    (λ v, v = PIntArray (astype_int32 X_mask_roberta_test)).
Proof.
  split_and!; persists 7%nat; intros σ Hrun;
    (apply (run_step 6 SInt32) in Hrun as (σi & Hpre & Hex); [|done]);
    rewrite (exec_SInt32 σi Hpre) in Hex; injection Hex as <-; by bound_now.
Qed.

Lemma parts_aligned :
  length X_mask_bert_train = length X_ids_bert_train ∧
  length X_ids_roberta_train = length X_ids_bert_train ∧
  length X_mask_roberta_train = length X_ids_bert_train ∧
  length y_train = length X_ids_bert_train ∧
  length X_mask_bert_test = length X_ids_bert_test ∧
  length X_ids_roberta_test = length X_ids_bert_test ∧
  length X_mask_roberta_test = length X_ids_bert_test ∧
  length y_test = length X_ids_bert_test.
Proof.
  pose proof split_returned as Hs. unfold split in Hs.
  apply train_test_split_inv in Hs as (train & test & _ & _ & Htrain & Htest).
  destruct Htrain as (T1%safe_indexing_rows%proj1 & T2%safe_indexing_rows%proj1 &
    T3%safe_indexing_rows%proj1 & T4%safe_indexing_rows%proj1 &
    T5%safe_indexing_rows%proj1).
  destruct Htest as (E1%safe_indexing_rows%proj1 & E2%safe_indexing_rows%proj1 &
    E3%safe_indexing_rows%proj1 & E4%safe_indexing_rows%proj1 &
    E5%safe_indexing_rows%proj1).
  split_and!; congruence.
Qed.

Lemma parts_widths :
  Forall (Forall (λ row, length row = Ensemble.max_seq_length))
    [astype_int32 X_ids_bert_train; astype_int32 X_mask_bert_train;
     astype_int32 X_ids_roberta_train; astype_int32 X_mask_roberta_train] ∧
  Forall (Forall (λ row, length row = Ensemble.max_seq_length))
    [astype_int32 X_ids_bert_test; astype_int32 X_mask_bert_test;
     astype_int32 X_ids_roberta_test; astype_int32 X_mask_roberta_test].
Proof.
  pose proof split_returned as Hs. unfold split in Hs.
  apply train_test_split_inv in Hs as (train & test & _ & _ & Htrain & Htest).
  destruct tokenized_shape as (_ & _ & _ & _ & _ & Hw).
  rewrite !Forall_cons in Hw. destruct Hw as (W1 & W2 & W3 & W4 & _).
  assert (Hpart : ∀ (a part : list (list Z)) ind,
             Forall (λ row, length row = Ensemble.max_seq_length) a →
             Split.safe_indexing a ind = Ok part →
             Forall (λ row, length row = Ensemble.max_seq_length)
                    (astype_int32 part)).
  { intros a part ind Ha Hp. apply astype_int32_shape. apply Forall_forall.
    intros row Hrow. apply safe_indexing_rows in Hp.
    apply (proj1 (Forall_forall _ _) Ha). by eapply rows_from_elem. }
  destruct Htrain as (T1 & T2 & T3 & T4 & _). destruct Htest as (E1 & E2 & E3 & E4 & _).
  split; rewrite !Forall_cons.
  - split_and!; [exact (Hpart _ _ _ W1 T1) | exact (Hpart _ _ _ W2 T2)
                | exact (Hpart _ _ _ W3 T3) | exact (Hpart _ _ _ W4 T4) | done].
  - split_and!; [exact (Hpart _ _ _ W1 E1) | exact (Hpart _ _ _ W2 E2)
                | exact (Hpart _ _ _ W3 E3) | exact (Hpart _ _ _ W4 E4) | done].
Qed.

(** *** Statements 8 to 19: the graph, [compile] and the callbacks *)

Lemma bert_model_bound :
  holds_from 9 "bert_model" (λ v, v = PEncoder "bert-base-uncased").
Proof.
  persists 9%nat. intros σ Hrun.
  apply (run_step 8 SBertModel) in Hrun as (σi & Hpre & Hex); [|done].
  inv_exec Hex. by bound_now.
Qed.

Lemma bert_branch_bound : holds_from 10 "bert_branch" (λ v, v = PDef "bert_branch").
Proof.
  persists 10%nat. intros σ Hrun.
  apply (run_step 9 SDefBertBranch) in Hrun as (σi & Hpre & Hex); [|done].
  inv_exec Hex. by bound_now.
Qed.

Lemma roberta_model_bound :
  holds_from 12 "roberta_model" (λ v, v = PEncoder "roberta-base").
Proof.
  persists 12%nat. intros σ Hrun.
  apply (run_step 11 SRobertaModel) in Hrun as (σi & Hpre & Hex); [|done].
  inv_exec Hex. by bound_now.
Qed.

Lemma roberta_branch_bound :
  holds_from 13 "roberta_branch" (λ v, v = PDef "roberta_branch").
Proof.
  persists 13%nat. intros σ Hrun.
  apply (run_step 12 SDefRobertaBranch) in Hrun as (σi & Hpre & Hex); [|done].
  inv_exec Hex. by bound_now.
Qed.

Lemma exec_keeps (s : stmt) (σ σ' : state) :
  exec s σ = Ok σ' →
  (s ≠ SCompile → compiled σ' = compiled σ) ∧ (s ≠ SFit → weights σ' = weights σ).
Proof. intros Hex. destruct s; inv_exec Hex; done. Qed.

Lemma run_keeps (l : list stmt) (σ σ' : state) :
  run l σ = Ok σ' →
  (SCompile ∉ l → compiled σ' = compiled σ) ∧ (SFit ∉ l → weights σ' = weights σ).
Proof.
  revert σ. induction l as [|s l IH]; intros σ Hrun; cbn [run] in Hrun.
  - by injection Hrun as <-.
  - apply bind_Ok in Hrun as (σ1 & Hs & Hrun).
    destruct (IH _ Hrun) as [IHc IHw]. destruct (exec_keeps _ _ _ Hs) as [Hc Hw].
    split; intros Hin; apply not_elem_of_cons in Hin as [Hne Hin].
    + rewrite IHc by done. by apply Hc.
    + rewrite IHw by done. by apply Hw.
Qed.

Lemma not_in_drop (s : stmt) (k0 k : nat) :
  (k0 ≤ k)%nat → s ∉ drop k0 notebook → s ∉ drop k notebook.
Proof.
  intros Hk Hnot Hin. apply Hnot.
  replace k with (k0 + (k - k0))%nat in Hin by lia. rewrite <- drop_drop in Hin.
  by apply subseteq_drop in Hin.
Qed.

Lemma compiled_bound (k : nat) (σ : state) :
  (18 ≤ k)%nat → run (take k notebook) init = Ok σ →
  compiled σ = Some (Training.learning_rate_init, Training.compile_loss).
Proof.
  intros Hk Hrun. replace k with (18 + (k - 18))%nat in Hrun by lia.
  rewrite <- take_take_drop in Hrun. apply run_app in Hrun as (σ0 & Hpre & Hpost).
  apply run_keeps in Hpost as [-> _].
  - apply (run_step 17 SCompile) in Hpre as (σi & Hpre & Hex); [|done].
    inv_exec Hex.
    match goal with Hx : get_optimizer _ _ = Ok _ |- _ =>
      unfold get_optimizer, get in Hx; cbn [globals assign] in Hx;
      rewrite lookup_insert_eq in Hx; by injection Hx as <- end.
  - intros Hin. apply elem_of_take in Hin as (i & Hin%list_elem_of_lookup_2 & _).
    revert Hin.
    cbn [drop notebook]. intros Hin.
    repeat (apply elem_of_cons in Hin as [Hin|Hin]; [discriminate Hin|]).
    by apply elem_of_nil in Hin.
Qed.

Lemma weights_fixed (k k' : nat) (σ σ' : state) :
  (20 ≤ k ≤ k')%nat →
  run (take k notebook) init = Ok σ → run (take k' notebook) init = Ok σ' →
  weights σ' = weights σ.
Proof.
  intros Hk Hrun Hrun'. replace k' with (k + (k' - k))%nat in Hrun' by lia.
  rewrite <- take_take_drop in Hrun'. apply run_app in Hrun' as (σ0 & Hpre & Hpost).
  assert (σ0 = σ) as -> by congruence.
  apply run_keeps in Hpost as [_ ->]; [done|].
  intros Hin. apply elem_of_take in Hin as (i & Hin%list_elem_of_lookup_2 & _).
    revert Hin.
  apply (not_in_drop SFit 20 k); [lia|].
  cbn [drop notebook]. intros Hin.
  repeat (apply elem_of_cons in Hin as [Hin|Hin]; [discriminate Hin|]).
  by apply elem_of_nil in Hin.
Qed.

Lemma returns_SInputs (σ : state) :
  run (take 7 notebook) init = Ok σ → returns (exec SInputs σ).
Proof. intros Hrun. unfold exec. by lookup_known max_seq_length_bound 7%nat Hrun. Qed.

Lemma returns_SBertOutput (σ : state) :
  run (take 10 notebook) init = Ok σ → returns (exec SBertOutput σ).
Proof.
  intros Hrun. destruct inputs_bound as (I1 & I2 & _). unfold exec.
  lookup_known bert_branch_bound 10%nat Hrun. lookup_known I1 10%nat Hrun.
  lookup_known I2 10%nat Hrun. by lookup_known bert_model_bound 10%nat Hrun.
Qed.

Lemma returns_SRobertaOutput (σ : state) :
  run (take 13 notebook) init = Ok σ → returns (exec SRobertaOutput σ).
Proof.
  intros Hrun. destruct inputs_bound as (_ & _ & I3 & I4). unfold exec.
  lookup_known roberta_branch_bound 13%nat Hrun. lookup_known I3 13%nat Hrun.
  lookup_known I4 13%nat Hrun. by lookup_known roberta_model_bound 13%nat Hrun.
Qed.

Lemma returns_SConcatenate (σ : state) :
  run (take 14 notebook) init = Ok σ → returns (exec SConcatenate σ).
Proof.
  intros Hrun. unfold exec. lookup_known bert_output_bound 14%nat Hrun.
  by lookup_known roberta_output_bound 14%nat Hrun.
Qed.

Lemma returns_SHead (σ : state) :
  run (take 15 notebook) init = Ok σ → returns (exec SHead σ).
Proof.
  intros Hrun. unfold exec. by lookup_known combined_embedding_bound 15%nat Hrun.
Qed.

Lemma returns_SEnsembleModel (σ : state) :
  run (take 16 notebook) init = Ok σ → returns (exec SEnsembleModel σ).
Proof.
  intros Hrun. destruct inputs_bound as (I1 & I2 & I3 & I4). unfold exec.
  lookup_known I1 16%nat Hrun. lookup_known I2 16%nat Hrun.
  lookup_known I3 16%nat Hrun. lookup_known I4 16%nat Hrun.
  by lookup_known classifier_output_bound 16%nat Hrun.
Qed.

Lemma returns_SCompile (σ : state) :
  run (take 17 notebook) init = Ok σ → returns (exec SCompile σ).
Proof.
  intros Hrun. unfold exec. cbv zeta.
  destruct (ensemble_model_bound 17%nat _ ltac:(lia) Hrun) as (v & Hv & ->).
  unfold get_model, get_optimizer, get. cbn [globals assign].
  rewrite lookup_insert_eq.
  rewrite lookup_insert_ne by (apply String.eqb_neq; reflexivity).
  by rewrite Hv.
Qed.

Lemma returns_SExtractor (σ : state) :
  run (take 20 notebook) init = Ok σ → returns (exec SExtractor σ).
Proof.
  intros Hrun. destruct inputs_bound as (I1 & I2 & I3 & I4). unfold exec.
  lookup_known I1 20%nat Hrun. lookup_known I2 20%nat Hrun.
  lookup_known I3 20%nat Hrun. lookup_known I4 20%nat Hrun.
  by lookup_known combined_embedding_bound 20%nat Hrun.
Qed.

Lemma runs_to_fit : ∃ σ, run (take 19 notebook) init = Ok σ.
Proof.
  assert (Hrun : run (take 0 notebook) init = Ok init) by done.
  advance 0%nat SLoadData Hrun I. advance 1%nat SMaxSeqLength Hrun I.
  advance 2%nat STokenizers Hrun I. advance 3%nat SDefTokenize Hrun I.
  pose proof (exec_STokenize _ Hrun) as Hex.
  apply (run_snoc 4 STokenize _ _ eq_refl Hrun) in Hex. clear Hrun.
  pose proof (exec_SSplit _ Hex) as Hex'. rewrite split_returned in Hex'.
  cbn [mbind result_bind] in Hex'.
  apply (run_snoc 5 SSplit _ _ eq_refl Hex) in Hex'. clear Hex.
  pose proof (exec_SInt32 _ Hex') as Hrun.
  apply (run_snoc 6 SInt32 _ _ eq_refl Hex') in Hrun. clear Hex'.
  advance 7%nat SInputs Hrun (returns_SInputs _ Hrun).
  advance 8%nat SBertModel Hrun I. advance 9%nat SDefBertBranch Hrun I.
  advance 10%nat SBertOutput Hrun (returns_SBertOutput _ Hrun).
  advance 11%nat SRobertaModel Hrun I. advance 12%nat SDefRobertaBranch Hrun I.
  advance 13%nat SRobertaOutput Hrun (returns_SRobertaOutput _ Hrun).
  advance 14%nat SConcatenate Hrun (returns_SConcatenate _ Hrun).
  advance 15%nat SHead Hrun (returns_SHead _ Hrun).
  advance 16%nat SEnsembleModel Hrun (returns_SEnsembleModel _ Hrun).
  advance 17%nat SCompile Hrun (returns_SCompile _ Hrun).
  advance 18%nat SCallbacks Hrun I.
  eauto.
Qed.

(** *** Statement 20: [fit] *)

Lemma exec_SFit (σ : state) :
  run (take 19 notebook) init = Ok σ →
  let n := length X_ids_bert_train in
  let k := Training.split_at n in
  let arrays := [astype_int32 X_ids_bert_train; astype_int32 X_mask_bert_train;
                 astype_int32 X_ids_roberta_train;
                 astype_int32 X_mask_roberta_train] in
  exec SFit σ
  = if decide (k = 0%nat ∨ k = n)
    then Raise (ValueError "not sufficient to split into a validation and training set")
    else
      let r := Training.fit
                 (train_epoch Ensemble.ensemble_model Training.compile_loss
                    Training.batch_size (map (take k) arrays) (take k y_train))
                 (evaluate Ensemble.ensemble_model Training.compile_loss
                    (map (drop k) arrays) (drop k y_train))
                 (weights σ) Training.learning_rate_init Training.epochs
                 [Training.CReduceLR Training.lr_scheduler;
                  Training.CEarlyStopping Training.early_stopper] in
      Ok (assign "history" (PHistory (Training.val_losses r))
            {| globals := globals σ; weights := Training.weights r;
               compiled := compiled σ |}).
Proof.
  intros Hrun n k arrays.
  destruct (int32_bound) as (A1 & A2 & _ & _ & A5 & A6 & _ & _).
  destruct y_bound as [Y1 _]. destruct callbacks_bound as [C1 C2].
  destruct parts_aligned as (L2 & L3 & L4 & L5 & _).
  unfold exec. lookup_known ensemble_model_bound 19%nat Hrun.
  lookup_known A1 19%nat Hrun. lookup_known A2 19%nat Hrun.
  lookup_known A5 19%nat Hrun. lookup_known A6 19%nat Hrun.
  lookup_known Y1 19%nat Hrun. lookup_known C1 19%nat Hrun. lookup_known C2 19%nat Hrun.
  rewrite (compiled_bound 19 σ ltac:(lia) Hrun). cbn [Keras.cardinality].
  rewrite decide_True
    by (repeat constructor; rewrite !(proj1 (astype_int32_shape _ 0)); done).
  cbn [mbind result_bind]. rewrite (proj1 (astype_int32_shape _ 0)).
  rewrite decide_True by done. done.
Qed.

(** *** Statements 21 to 26: extraction and the MLP *)

Lemma persists_after_fit (k0 : nat) (n : string) (P : Keras.store → pyval → Prop) :
  (20 ≤ k0)%nat →
  (∀ σ, run (take k0 notebook) init = Ok σ →
        ∃ v, globals σ !! n = Some v ∧ P (weights σ) v) →
  n ∉ bound_by (drop k0 notebook) →
  ∀ k σ, (k0 ≤ k)%nat → run (take k notebook) init = Ok σ →
         ∃ v, globals σ !! n = Some v ∧ P (weights σ) v.
Proof.
  intros Hk0 Hinit Hfree k σ Hk Hrun. pose proof Hrun as Hrun'.
  replace k with (k0 + (k - k0))%nat in Hrun' by lia.
  rewrite <- take_take_drop in Hrun'.
  apply run_app in Hrun' as (σ0 & Hpre & Hpost).
  destruct (Hinit σ0 Hpre) as (v & Hv & HP). exists v.
  rewrite (weights_fixed k0 k σ0 σ) by (done || lia). split; [|done].
  rewrite (run_frame _ _ _ n Hpost); [done|].
  intros Hin. apply Hfree. by eapply bound_by_take.
Qed.

Ltac persists_weights k0 n P :=
  apply (persists_after_fit k0 n P ltac:(lia));
  [ | apply (bool_decide_eq_false_1 _); vm_compute; reflexivity ].

Lemma exec_SExtractTrain (σ : state) :
  run (take 21 notebook) init = Ok σ →
  exec SExtractTrain σ
  = (emb ← Keras.predict Ensemble.embedding_extractor (weights σ)
             [astype_int32 X_ids_bert_train; astype_int32 X_mask_bert_train;
              astype_int32 X_ids_roberta_train;
              astype_int32 X_mask_roberta_train] 32;
     Ok (assign "train_embeddings" (PFloatArray emb) σ)).
Proof.
  intros Hrun. destruct (int32_bound) as (A1 & A2 & _ & _ & A5 & A6 & _ & _).
  unfold exec. lookup_known embedding_extractor_bound 21%nat Hrun.
  lookup_known A1 21%nat Hrun. lookup_known A2 21%nat Hrun.
  lookup_known A5 21%nat Hrun. by lookup_known A6 21%nat Hrun.
Qed.

Lemma train_embeddings_from (k : nat) (σ : state) :
  (22 ≤ k)%nat → run (take k notebook) init = Ok σ →
  ∃ v, globals σ !! "train_embeddings" = Some v ∧
       ∃ X, v = PFloatArray X ∧
            Keras.predict Ensemble.embedding_extractor (weights σ)
              [astype_int32 X_ids_bert_train; astype_int32 X_mask_bert_train;
               astype_int32 X_ids_roberta_train;
               astype_int32 X_mask_roberta_train] 32 = Ok X.
Proof.
  revert k σ.
  persists_weights 22%nat "train_embeddings"
    (λ θ v, ∃ X, v = PFloatArray X ∧
                 Keras.predict Ensemble.embedding_extractor θ
                   [astype_int32 X_ids_bert_train; astype_int32 X_mask_bert_train;
                    astype_int32 X_ids_roberta_train;
                    astype_int32 X_mask_roberta_train] 32 = Ok X).
  intros σ Hrun.
  apply (run_step 21 SExtractTrain) in Hrun as (σi & Hpre & Hex); [|done].
  rewrite (exec_SExtractTrain σi Hpre) in Hex.
  apply bind_Ok in Hex as (X & HX & Hex). injection Hex as <-.
  bound_now. by exists X.
Qed.

Lemma exec_SExtractTest (σ : state) :
  run (take 22 notebook) init = Ok σ →
  exec SExtractTest σ
  = (emb ← Keras.predict Ensemble.embedding_extractor (weights σ)
             [astype_int32 X_ids_bert_test; astype_int32 X_mask_bert_test;
              astype_int32 X_ids_roberta_test;
              astype_int32 X_mask_roberta_test] 32;
     Ok (assign "test_embeddings" (PFloatArray emb) σ)).
Proof.
  intros Hrun. destruct (int32_bound) as (_ & _ & A3 & A4 & _ & _ & A7 & A8).
  unfold exec. lookup_known embedding_extractor_bound 22%nat Hrun.
  lookup_known A3 22%nat Hrun. lookup_known A4 22%nat Hrun.
  lookup_known A7 22%nat Hrun. lookup_known A8 22%nat Hrun.
  destruct (Keras.predict _ _ _ _) as [emb|e]; [|done]. cbn [mbind result_bind].
  destruct (train_embeddings_from 22 σ ltac:(lia) Hrun) as (v & Hv & X & -> & _).
  by lookup_with Hv.
Qed.

Lemma test_embeddings_from (k : nat) (σ : state) :
  (23 ≤ k)%nat → run (take k notebook) init = Ok σ →
  ∃ v, globals σ !! "test_embeddings" = Some v ∧
       ∃ X, v = PFloatArray X ∧
            Keras.predict Ensemble.embedding_extractor (weights σ)
              [astype_int32 X_ids_bert_test; astype_int32 X_mask_bert_test;
               astype_int32 X_ids_roberta_test;
               astype_int32 X_mask_roberta_test] 32 = Ok X.
Proof.
  revert k σ.
  persists_weights 23%nat "test_embeddings"
    (λ θ v, ∃ X, v = PFloatArray X ∧
                 Keras.predict Ensemble.embedding_extractor θ
                   [astype_int32 X_ids_bert_test; astype_int32 X_mask_bert_test;
                    astype_int32 X_ids_roberta_test;
                    astype_int32 X_mask_roberta_test] 32 = Ok X).
  intros σ Hrun.
  apply (run_step 22 SExtractTest) in Hrun as (σi & Hpre & Hex); [|done].
  rewrite (exec_SExtractTest σi Hpre) in Hex.
  apply bind_Ok in Hex as (X & HX & Hex). injection Hex as <-.
  bound_now. by exists X.
Qed.

Lemma exec_SMlpFit (σ : state) :
  run (take 24 notebook) init = Ok σ →
  ∃ X, Keras.predict Ensemble.embedding_extractor (weights σ)
         [astype_int32 X_ids_bert_train; astype_int32 X_mask_bert_train;
          astype_int32 X_ids_roberta_train;
          astype_int32 X_mask_roberta_train] 32 = Ok X ∧
       exec SMlpFit σ
       = (clf ← Sklearn.fit Sklearn.mlp_clf X y_train;
          Ok (assign "mlp_clf" (PClassifier clf) σ)).
Proof.
  intros Hrun. destruct y_bound as [Y1 _].
  destruct (train_embeddings_from 24 σ ltac:(lia) Hrun) as (v & Hv & X & -> & HX).
  exists X. split; [done|]. unfold exec.
  lookup_with (mlp_unfitted σ Hrun). lookup_with Hv.
  by lookup_known Y1 24%nat Hrun.
Qed.

Lemma mlp_clf_from (k : nat) (σ : state) :
  (25 ≤ k)%nat → run (take k notebook) init = Ok σ →
  ∃ v, globals σ !! "mlp_clf" = Some v ∧
       ∃ X clf, v = PClassifier clf ∧
                Keras.predict Ensemble.embedding_extractor (weights σ)
                  [astype_int32 X_ids_bert_train; astype_int32 X_mask_bert_train;
                   astype_int32 X_ids_roberta_train;
                   astype_int32 X_mask_roberta_train] 32 = Ok X ∧
                Sklearn.fit Sklearn.mlp_clf X y_train = Ok clf.
Proof.
  revert k σ.
  persists_weights 25%nat "mlp_clf"
    (λ θ v, ∃ X clf, v = PClassifier clf ∧
                     Keras.predict Ensemble.embedding_extractor θ
                       [astype_int32 X_ids_bert_train; astype_int32 X_mask_bert_train;
                        astype_int32 X_ids_roberta_train;
                        astype_int32 X_mask_roberta_train] 32 = Ok X ∧
                     Sklearn.fit Sklearn.mlp_clf X y_train = Ok clf).
  intros σ Hrun.
  apply (run_step 24 SMlpFit) in Hrun as (σi & Hpre & Hex); [|done].
  destruct (exec_SMlpFit σi Hpre) as (X & HX & Heq). rewrite Heq in Hex.
  apply bind_Ok in Hex as (clf & Hfit & Hex). injection Hex as <-.
  bound_now. by exists X, clf.
Qed.

Lemma exec_SPredictTest (σ : state) :
  run (take 25 notebook) init = Ok σ →
  ∃ X clf X_test,
    Keras.predict Ensemble.embedding_extractor (weights σ)
      [astype_int32 X_ids_bert_train; astype_int32 X_mask_bert_train;
       astype_int32 X_ids_roberta_train; astype_int32 X_mask_roberta_train] 32
    = Ok X ∧
    Sklearn.fit Sklearn.mlp_clf X y_train = Ok clf ∧
    Keras.predict Ensemble.embedding_extractor (weights σ)
      [astype_int32 X_ids_bert_test; astype_int32 X_mask_bert_test;
       astype_int32 X_ids_roberta_test; astype_int32 X_mask_roberta_test] 32
    = Ok X_test ∧
    exec SPredictTest σ
    = (preds ← Sklearn.predict clf X_test; Ok (assign "preds" (PLabels preds) σ)).
Proof.
  intros Hrun.
  destruct (mlp_clf_from 25 σ ltac:(lia) Hrun) as (v & Hv & X & clf & -> & HX & Hfit).
  destruct (test_embeddings_from 25 σ ltac:(lia) Hrun) as (v' & Hv' & Xt & -> & HXt).
  exists X, clf, Xt. split_and!; [done..|]. unfold exec.
  lookup_with Hv. by lookup_with Hv'.
Qed.

Lemma preds_from (k : nat) (σ : state) :
  (26 ≤ k)%nat → run (take k notebook) init = Ok σ →
  ∃ v, globals σ !! "preds" = Some v ∧
       ∃ X clf X_test preds,
         v = PLabels preds ∧
         Keras.predict Ensemble.embedding_extractor (weights σ)
           [astype_int32 X_ids_bert_train; astype_int32 X_mask_bert_train;
            astype_int32 X_ids_roberta_train; astype_int32 X_mask_roberta_train] 32
         = Ok X ∧
         Sklearn.fit Sklearn.mlp_clf X y_train = Ok clf ∧
         Keras.predict Ensemble.embedding_extractor (weights σ)
           [astype_int32 X_ids_bert_test; astype_int32 X_mask_bert_test;
            astype_int32 X_ids_roberta_test; astype_int32 X_mask_roberta_test] 32
         = Ok X_test ∧
         Sklearn.predict clf X_test = Ok preds.
Proof.
  revert k σ.
  persists_weights 26%nat "preds"
    (λ θ v, ∃ X clf X_test preds,
         v = PLabels preds ∧
         Keras.predict Ensemble.embedding_extractor θ
           [astype_int32 X_ids_bert_train; astype_int32 X_mask_bert_train;
            astype_int32 X_ids_roberta_train; astype_int32 X_mask_roberta_train] 32
         = Ok X ∧
         Sklearn.fit Sklearn.mlp_clf X y_train = Ok clf ∧
         Keras.predict Ensemble.embedding_extractor θ
           [astype_int32 X_ids_bert_test; astype_int32 X_mask_bert_test;
            astype_int32 X_ids_roberta_test; astype_int32 X_mask_roberta_test] 32
         = Ok X_test ∧
         Sklearn.predict clf X_test = Ok preds).
  intros σ Hrun.
  apply (run_step 25 SPredictTest) in Hrun as (σi & Hpre & Hex); [|done].
  destruct (exec_SPredictTest σi Hpre) as (X & clf & Xt & HX & Hfit & HXt & Heq).
  rewrite Heq in Hex.
  apply bind_Ok in Hex as (preds & Hpreds & Hex). injection Hex as <-.
  bound_now. by exists X, clf, Xt, preds.
Qed.

Lemma exec_SReport_error (σ : state) (e : exn) :
  run (take 26 notebook) init = Ok σ → exec SReport σ = Raise e → data_error e.
Proof.
  intros Hrun. destruct y_bound as [_ Y2].
  destruct (preds_from 26 σ ltac:(lia) Hrun) as (v & Hv & ? & ? & ? & preds & -> & _).
  unfold exec. lookup_known Y2 26%nat Hrun. lookup_with Hv.
  destruct (decide _); [done|]. intros [= <-]. left. eauto.
Qed.

End AfterSplit.

Lemma runs_to_split : ∃ σ, run (take 5 notebook) init = Ok σ.
Proof.
  assert (Hrun : run (take 0 notebook) init = Ok init) by done.
  advance 0%nat SLoadData Hrun I. advance 1%nat SMaxSeqLength Hrun I.
  advance 2%nat STokenizers Hrun I. advance 3%nat SDefTokenize Hrun I.
  pose proof (exec_STokenize _ Hrun) as Hex.
  apply (run_snoc 4 STokenize _ _ eq_refl Hrun) in Hex. eauto.
Qed.

Lemma split_of_run (k : nat) (σ : state) :
  (6 ≤ k)%nat → run (take k notebook) init = Ok σ → ∃ parts, split = Ok parts.
Proof.
  intros Hk Hrun. replace k with (6 + (k - 6))%nat in Hrun by lia.
  rewrite <- take_take_drop in Hrun. apply run_app in Hrun as (σ6 & Hpre & _).
  apply (run_step 5 SSplit) in Hpre as (σi & Hpre & Hex); [|done].
  rewrite (exec_SSplit σi Hpre) in Hex. apply bind_Ok in Hex as (parts & Hs & _).
  eauto.
Qed.

(** X16.  What the secondary classifier is fitted and evaluated on.
    After the run, [mlp_clf] is the result of fitting line 151's
    classifier on the embeddings of the training parts of the split
    (converted to int32) with the training labels, the embeddings being
    taken with the weights the fine-tuning left; [preds] are its
    predictions on the embeddings of the test parts.  No test row enters
    the fit and no training row is scored. *)
Theorem mlp_is_fitted_on_training_parts (σ : state) :
  run notebook init = Ok σ →
  ∃ X_ids_bert_train X_ids_bert_test X_mask_bert_train X_mask_bert_test
    X_ids_roberta_train X_ids_roberta_test X_mask_roberta_train X_mask_roberta_test
    y_train y_test train_embeddings test_embeddings clf preds,
    split = Ok (X_ids_bert_train, X_ids_bert_test,
                (X_mask_bert_train, X_mask_bert_test),
                (X_ids_roberta_train, X_ids_roberta_test),
                (X_mask_roberta_train, X_mask_roberta_test), (y_train, y_test)) ∧
    Keras.predict Ensemble.embedding_extractor (weights σ)
      [astype_int32 X_ids_bert_train; astype_int32 X_mask_bert_train;
       astype_int32 X_ids_roberta_train; astype_int32 X_mask_roberta_train] 32
    = Ok train_embeddings ∧
    Sklearn.fit Sklearn.mlp_clf train_embeddings y_train = Ok clf ∧
    globals σ !! "mlp_clf" = Some (PClassifier clf) ∧
    Keras.predict Ensemble.embedding_extractor (weights σ)
      [astype_int32 X_ids_bert_test; astype_int32 X_mask_bert_test;
       astype_int32 X_ids_roberta_test; astype_int32 X_mask_roberta_test] 32
    = Ok test_embeddings ∧
    Sklearn.predict clf test_embeddings = Ok preds ∧
    globals σ !! "preds" = Some (PLabels preds) ∧
    globals σ !! "y_test" = Some (PLabels y_test).
Proof.
  intros Hrun. apply run_notebook_take in Hrun.
  destruct (split_of_run 29 σ ltac:(lia) Hrun)
    as ([[[[[ib_tr ib_te] [mb_tr mb_te]] [ir_tr ir_te]] [mr_tr mr_te]] [y_tr y_te]]
        & Hsplit).
  destruct (preds_from _ _ _ _ _ _ _ _ _ _ Hsplit 29 σ ltac:(lia) Hrun)
    as (v & Hv & X & clf & Xt & preds & -> & HX & Hfit & HXt & Hpreds).
  destruct (mlp_clf_from _ _ _ _ _ _ _ _ _ _ Hsplit 29 σ ltac:(lia) Hrun)
    as (v' & Hv' & X' & clf' & -> & HX' & Hfit').
  assert (X' = X) as -> by congruence. assert (clf' = clf) as -> by congruence.
  destruct (y_bound _ _ _ _ _ _ _ _ _ _ Hsplit) as [_ Y2].
  destruct (Y2 29%nat σ ltac:(lia) Hrun) as (vy & Hvy & ->).
  exists ib_tr, ib_te, mb_tr, mb_te, ir_tr, ir_te, mr_tr, mr_te, y_tr, y_te,
    X, Xt, clf, preds.
  split_and!; done.
Qed.


(** *** The exceptions the script can raise *)

Lemma predict_sarcasm_def_bound :
  holds_from 28 "predict_sarcasm" (λ v, v = PDef "predict_sarcasm").
Proof.
  persists 28%nat. intros σ Hrun.
  apply (run_step 27 SDefPredictSarcasm) in Hrun as (σi & Hpre & Hex); [|done].
  inv_exec Hex. by bound_now.
Qed.

Lemma returns_SLaunch (σ : state) :
  run (take 28 notebook) init = Ok σ → returns (exec SLaunch σ).
Proof.
  intros Hrun. unfold exec. by lookup_known predict_sarcasm_def_bound 28%nat Hrun.
Qed.

Ltac split_known k Hrun Hsplit :=
  match type of Hrun with
  | run _ _ = Ok ?σ =>
      destruct (split_of_run k σ ltac:(lia) Hrun)
        as ([[[[[? ?] [? ?]] [? ?]] [? ?]] [? ?]] & Hsplit)
  end.

Ltac never_raises Hret Hex := rewrite Hex in Hret; destruct Hret.

Lemma exec_data_error (k : nat) (s : stmt) (σ : state) (e : exn) :
  notebook !! k = Some s → run (take k notebook) init = Ok σ →
  exec s σ = Raise e → data_error e.
Proof.
  intros Hs Hrun Hex.
  do 4 (destruct k as [|k]; [by injection Hs as <-|]).
  destruct k as [|k]; [injection Hs as <-|].
  { by rewrite (exec_STokenize σ Hrun) in Hex. }
  destruct k as [|k]; [injection Hs as <-|].
  { rewrite (exec_SSplit σ Hrun) in Hex.
    apply bind_Raise in Hex as [Hsp|(parts & _ & Hex)].
    - by eapply train_test_split_error.
    - by destruct parts as [[[[[? ?] [? ?]] [? ?]] [? ?]] [? ?]]. }
  destruct k as [|k]; [injection Hs as <-|].
  { split_known 6%nat Hrun Hsplit.
    by rewrite (exec_SInt32 _ _ _ _ _ _ _ _ _ _ Hsplit σ Hrun) in Hex. }
  destruct k as [|k]; [injection Hs as <-|].
  { pose proof (returns_SInputs σ Hrun) as Hret. never_raises Hret Hex. }
  do 2 (destruct k as [|k]; [by injection Hs as <-|]).
  destruct k as [|k]; [injection Hs as <-|].
  { pose proof (returns_SBertOutput σ Hrun) as Hret. never_raises Hret Hex. }
  do 2 (destruct k as [|k]; [by injection Hs as <-|]).
  destruct k as [|k]; [injection Hs as <-|].
  { pose proof (returns_SRobertaOutput σ Hrun) as Hret. never_raises Hret Hex. }
  destruct k as [|k]; [injection Hs as <-|].
  { pose proof (returns_SConcatenate σ Hrun) as Hret. never_raises Hret Hex. }
  destruct k as [|k]; [injection Hs as <-|].
  { pose proof (returns_SHead σ Hrun) as Hret. never_raises Hret Hex. }
  destruct k as [|k]; [injection Hs as <-|].
  { pose proof (returns_SEnsembleModel σ Hrun) as Hret. never_raises Hret Hex. }
  destruct k as [|k]; [injection Hs as <-|].
  { pose proof (returns_SCompile σ Hrun) as Hret. never_raises Hret Hex. }
  destruct k as [|k]; [by injection Hs as <-|].
  destruct k as [|k]; [injection Hs as <-|].
  { split_known 19%nat Hrun Hsplit.
    rewrite (exec_SFit _ _ _ _ _ _ _ _ _ _ Hsplit σ Hrun) in Hex. cbv zeta in Hex.
    destruct (decide _); [|done]. injection Hex as <-. left. eauto. }
  destruct k as [|k]; [injection Hs as <-|].
  { pose proof (returns_SExtractor σ Hrun) as Hret. never_raises Hret Hex. }
  destruct k as [|k]; [injection Hs as <-|].
  { split_known 21%nat Hrun Hsplit.
    rewrite (exec_SExtractTrain _ _ _ _ _ _ _ _ _ _ Hsplit σ Hrun) in Hex.
    apply bind_Raise in Hex as [Hp|(? & _ & ?)]; [|done].
    by eapply predict_extractor_error. }
  destruct k as [|k]; [injection Hs as <-|].
  { split_known 22%nat Hrun Hsplit.
    rewrite (exec_SExtractTest _ _ _ _ _ _ _ _ _ _ Hsplit σ Hrun) in Hex.
    apply bind_Raise in Hex as [Hp|(? & _ & ?)]; [|done].
    by eapply predict_extractor_error. }
  destruct k as [|k]; [by injection Hs as <-|].
  destruct k as [|k]; [injection Hs as <-|].
  { split_known 24%nat Hrun Hsplit.
    destruct (exec_SMlpFit _ _ _ _ _ _ _ _ _ _ Hsplit σ Hrun) as (X & _ & Heq).
    rewrite Heq in Hex. apply bind_Raise in Hex as [Hf|(? & _ & ?)]; [|done].
    left. by eapply fit_error. }
  destruct k as [|k]; [injection Hs as <-|].
  { split_known 25%nat Hrun Hsplit.
    destruct (exec_SPredictTest _ _ _ _ _ _ _ _ _ _ Hsplit σ Hrun)
      as (X & clf & Xt & _ & Hfit & _ & Heq).
    rewrite Heq in Hex. apply bind_Raise in Hex as [Hp|(? & _ & ?)]; [|done].
    destruct (fit_inv _ _ _ _ Hfit)
      as (x0 & X0 & f & _ & _ & _ & _ & _ & _ & Hst & _).
    by eapply predict_error. }
  destruct k as [|k]; [injection Hs as <-|].
  { split_known 26%nat Hrun Hsplit.
    by eapply (exec_SReport_error _ _ _ _ _ _ _ _ _ _ Hsplit). }
  destruct k as [|k]; [by injection Hs as <-|].
  destruct k as [|k]; [injection Hs as <-|].
  { pose proof (returns_SLaunch σ Hrun) as Hret. never_raises Hret Hex. }
  done.
Qed.

Lemma run_snoc_eq (l : list stmt) (s : stmt) (σ0 : state) :
  run (l ++ [s]) σ0 = (σ ← run l σ0; exec s σ).
Proof.
  revert σ0. induction l as [|s' l IH]; intros σ0; cbn [run app mbind result_bind].
  - by destruct (exec s σ0).
  - destruct (exec s' σ0) as [σ1|]; cbn [mbind result_bind]; [apply IH | done].
Qed.

(** X17.  Whatever the dataset, the permutation and the numeric
    engines, a run of the script can only be stopped by an exception the
    libraries raise on data they refuse, a ValueError or an IndexError.
    No prefix of the script ends in a NameError, a TypeError or a
    NotFittedError: every global is assigned before it is read, holds the
    kind of value its reader expects, and the classifier is fitted before
    it predicts. *)
Theorem notebook_raises_only_data_errors (k : nat) (e : exn) :
  run (take k notebook) init = Raise e → data_error e.
Proof.
  revert e. induction k as [|k IH]; intros e Hrun; [done|].
  destruct (notebook !! k) as [s|] eqn:Hs.
  - rewrite (take_S_r _ _ _ Hs), run_snoc_eq in Hrun.
    destruct (run (take k notebook) init) as [σ|e'] eqn:Hpre;
      cbn [mbind result_bind] in Hrun.
    + by apply (exec_data_error k s σ e Hs Hpre).
    + injection Hrun as <-. by apply IH.
  - apply IH. apply lookup_ge_None in Hs.
    by rewrite take_ge in Hrun |- * by lia.
Qed.

Hypothesis permutation_spec : ∀ n, permutation Split.random_state n ≡ₚ seq 0 n.

Lemma split_of_csv :
  (2 ≤ length csv)%nat → ∃ parts, split = Ok parts.
Proof.
  intros Hn. destruct tokenized_shape as (L1 & L2 & L3 & L4 & L5 & _).
  apply (train_test_split_total permutation permutation_spec); congruence || lia.
Qed.

(** X18.  On a dataset of at least three rows, with a seeded permutation
    that is a permutation and encoders of hidden size 768, the script runs
    without an exception through line 156: tokenization, split, graph,
    fine-tuning, extraction, MLP fit and test predictions.  It then holds
    one prediction per test row ([ceil(n / 5)] of them), each a label that
    occurs in the CSV. *)
Theorem notebook_runs_on_three_rows :
  (3 ≤ length csv)%nat →
  ∃ σ preds,
    run (take 26 notebook) init = Ok σ ∧
    globals σ !! "preds" = Some (PLabels preds) ∧
    length preds = Split.n_test_of (length csv) ∧
    Forall (λ p, p ∈ labels) preds.
Proof.
  intros Hn.
  destruct (split_of_csv ltac:(lia))
    as ([[[[[ib_tr ib_te] [mb_tr mb_te]] [ir_tr ir_te]] [mr_tr mr_te]] [y_tr y_te]]
        & Hsplit).
  destruct tokenized_shape as (L1 & _).
  pose proof Hsplit as Hlen. unfold split in Hlen.
  apply (train_test_split_lengths permutation permutation_spec) in Hlen
    as (_ & (Te1 & _) & (Tr1 & _)).
  cbv zeta in Te1, Tr1. rewrite L1 in Te1, Tr1.
  pose proof (n_test_of_ceil (length csv)) as Hceil.
  destruct (parts_aligned _ _ _ _ _ _ _ _ _ _ Hsplit)
    as (A2 & A3 & A4 & A5 & B2 & B3 & B4 & B5).
  destruct (parts_widths _ _ _ _ _ _ _ _ _ _ Hsplit) as [Wtr Wte].
  destruct (runs_to_fit _ _ _ _ _ _ _ _ _ _ Hsplit) as [σ Hrun].
  (* fit *)
  pose proof (exec_SFit _ _ _ _ _ _ _ _ _ _ Hsplit σ Hrun) as Hex. cbv zeta in Hex.
  pose proof (split_at_floor (length ib_tr)) as Hk.
  rewrite decide_False in Hex by lia.
  apply (run_snoc 19 SFit _ _ eq_refl Hrun) in Hex. clear Hrun. rename Hex into Hrun.
  advance 20%nat SExtractor Hrun (returns_SExtractor _ Hrun).
  (* embeddings of the training rows *)
  match type of Hrun with _ = Ok ?s => set (θ := weights s) end.
  destruct (predict_extractor_total bert_base roberta_base θ
              (astype_int32 ib_tr) (astype_int32 mb_tr) (astype_int32 ir_tr)
              (astype_int32 mr_tr) 32 Wtr)
    as (X & HX & HlenX & HwX);
    try (rewrite !(proj1 (astype_int32_shape _ 0)); done); [lia|].
  pose proof (exec_SExtractTrain _ _ _ _ _ _ _ _ _ _ Hsplit _ Hrun) as Hex.
  fold θ in Hex.
  rewrite HX in Hex. cbn [mbind result_bind] in Hex.
  apply (run_snoc 21 SExtractTrain _ _ eq_refl Hrun) in Hex. clear Hrun.
  rename Hex into Hrun.
  (* embeddings of the test rows *)
  destruct (predict_extractor_total bert_base roberta_base θ
              (astype_int32 ib_te) (astype_int32 mb_te) (astype_int32 ir_te)
              (astype_int32 mr_te) 32 Wte)
    as (Xt & HXt & HlenXt & HwXt);
    try (rewrite !(proj1 (astype_int32_shape _ 0)); done); [lia|].
  pose proof (exec_SExtractTest _ _ _ _ _ _ _ _ _ _ Hsplit _ Hrun) as Hex.
  cbn [weights assign] in Hex. fold θ in Hex. rewrite HXt in Hex.
  cbn [mbind result_bind] in Hex.
  apply (run_snoc 22 SExtractTest _ _ eq_refl Hrun) in Hex. clear Hrun.
  rename Hex into Hrun.
  pose proof (run_snoc 23 SMlp _ _ eq_refl Hrun eq_refl) as Hex. clear Hrun.
  rename Hex into Hrun.
  (* the MLP *)
  rewrite (proj1 (astype_int32_shape _ 0)) in HlenX.
  rewrite (proj1 (astype_int32_shape _ 0)) in HlenXt.
  destruct (fit_total Sklearn.mlp_clf X y_tr 1536) as (clf & f & Hfit & Hst & Hnf);
    [intros ->; cbn in HlenX; lia | congruence | done |].
  destruct (exec_SMlpFit _ _ _ _ _ _ _ _ _ _ Hsplit _ Hrun) as (X' & HX' & Hex).
  cbn [weights assign] in HX'. fold θ in HX'. assert (X' = X) as -> by congruence.
  rewrite Hfit in Hex. cbn [mbind result_bind] in Hex.
  apply (run_snoc 24 SMlpFit _ _ eq_refl Hrun) in Hex. clear Hrun.
  rename Hex into Hrun.
  destruct (predict_fitted _ _ _ _ Hfit Xt) as (preds & Hpreds & Hlp).
  { intros f' Hf'. assert (f' = f) as -> by congruence. by rewrite Hnf. }
  destruct (exec_SPredictTest _ _ _ _ _ _ _ _ _ _ Hsplit _ Hrun)
    as (X' & clf' & Xt' & HX'' & Hfit' & HXt' & Hex).
  cbn [weights assign] in HX'', HXt'. fold θ in HX'', HXt'.
  assert (X' = X) as -> by congruence. assert (clf' = clf) as -> by congruence.
  assert (Xt' = Xt) as -> by congruence.
  rewrite Hpreds in Hex. cbn [mbind result_bind] in Hex.
  apply (run_snoc 25 SPredictTest _ _ eq_refl Hrun) in Hex.
  eexists _, preds. split; [exact Hex|]. split_and!.
  - cbn [globals assign]. by rewrite lookup_insert_eq.
  - congruence.
  - destruct (fit_inv _ _ _ _ Hfit)
      as (x0 & X0 & f' & _ & _ & _ & _ & _ & _ & Hst' & Hcl & _).
    pose proof (predict_classes _ _ _ _ Hst' Hpreds) as Hin. rewrite Hcl in Hin.
    eapply Forall_impl; [exact Hin|]. intros p Hp. cbn in Hp.
    rewrite elem_of_unique in Hp.
    unfold split in Hsplit. apply train_test_split_labels in Hsplit as [Htr _].
    by apply Htr.
Qed.

(** X19.  Datasets that are too small are refused with a ValueError:
    with a single row by [train_test_split], whose 80 percent side would
    be empty, and with two rows by [fit], which cannot cut a validation
    slice from its one training row. *)
Theorem notebook_rejects_tiny_datasets :
  (1 ≤ length csv ≤ 2)%nat →
  run notebook init
  = Raise (ValueError
             (if decide (length csv = 1%nat)
              then "the resulting train set will be empty"
              else "not sufficient to split into a validation and training set")).
Proof.
  intros Hn. destruct tokenized_shape as (L1 & L2 & L3 & L4 & L5 & _).
  case_decide as Hone.
  - destruct runs_to_split as [σ Hrun].
    apply (run_raises 5 SSplit σ _ eq_refl Hrun).
    rewrite (exec_SSplit σ Hrun). unfold split.
    rewrite train_test_split_tiny by (congruence || lia). done.
  - destruct (split_of_csv ltac:(lia))
      as ([[[[[ib_tr ib_te] [mb_tr mb_te]] [ir_tr ir_te]] [mr_tr mr_te]] [y_tr y_te]]
          & Hsplit).
    pose proof Hsplit as Hlen. unfold split in Hlen.
    apply (train_test_split_lengths permutation permutation_spec) in Hlen
      as (_ & _ & (Tr1 & _)).
    cbv zeta in Tr1. rewrite L1 in Tr1.
    pose proof (n_test_of_ceil (length csv)) as Hceil.
    destruct (runs_to_fit _ _ _ _ _ _ _ _ _ _ Hsplit) as [σ Hrun].
    apply (run_raises 19 SFit σ _ eq_refl Hrun).
    rewrite (exec_SFit _ _ _ _ _ _ _ _ _ _ Hsplit σ Hrun). cbv zeta.
    pose proof (split_at_floor (length ib_tr)) as Hk.
    rewrite decide_True by lia. done.
Qed.

(** X20.  Between lines 151 and 152 the classifier exists but is not
    fitted: predicting on the test embeddings, or calling the body of
    [predict_sarcasm], raises sklearn's NotFittedError there. *)
Theorem unfitted_classifier_raises (σ : state) (text : string) :
  run (take 24 notebook) init = Ok σ →
  exec SPredictTest σ = Raise NotFittedError ∧
  predict_label σ text = Raise NotFittedError ∧
  predict_sarcasm σ text = Raise NotFittedError.
Proof.
  intros Hrun.
  destruct (split_of_run 24 σ ltac:(lia) Hrun)
    as ([[[[[ib_tr ib_te] [mb_tr mb_te]] [ir_tr ir_te]] [mr_tr mr_te]] [y_tr y_te]]
        & Hsplit).
  pose proof (mlp_unfitted σ Hrun) as Hclf.
  assert (Hlabel : predict_label σ text = Raise NotFittedError).
  { unfold predict_label.
    lookup_known bert_tokenizer_bound 24%nat Hrun.
    lookup_known max_seq_length_bound 24%nat Hrun.
    lookup_known roberta_tokenizer_bound 24%nat Hrun.
    lookup_known embedding_extractor_bound 24%nat Hrun.
    unfold Tokenize.call. cbn [Tokenize.input_ids Tokenize.attention_mask map].
    unfold astype_int32. cbn [map].
    destruct (encode_plus_length bert_tokenizer Ensemble.max_seq_length text)
      as [Hb1 Hb2]; [unfold Ensemble.max_seq_length; lia|].
    destruct (encode_plus_length roberta_tokenizer Ensemble.max_seq_length text)
      as [Hr1 Hr2]; [unfold Ensemble.max_seq_length; lia|].
    destruct (predict_single bert_base roberta_base (weights σ)
                (map to_int32 (Tokenize.encode_plus bert_tokenizer
                                 Ensemble.max_seq_length text).1)
                (map to_int32 (Tokenize.encode_plus bert_tokenizer
                                 Ensemble.max_seq_length text).2)
                (map to_int32 (Tokenize.encode_plus roberta_tokenizer
                                 Ensemble.max_seq_length text).1)
                (map to_int32 (Tokenize.encode_plus roberta_tokenizer
                                 Ensemble.max_seq_length text).2))
      as (e & Hpred & He); try (by rewrite length_map).
    rewrite Hpred. cbn [mbind result_bind]. by lookup_with Hclf. }
  split_and!; [|done|].
  - destruct (test_embeddings_from _ _ _ _ _ _ _ _ _ _ Hsplit 24 σ ltac:(lia) Hrun)
      as (v & Hv & Xt & -> & _).
    unfold exec. lookup_with Hclf. by lookup_with Hv.
  - unfold predict_sarcasm. by rewrite Hlabel.
Qed.

(** X21.  What the fine-tuning of lines 121-128 amounts to.  After the
    run the weights of the ensemble are those of exactly one epoch of
    optimizer steps, at learning rate 3e-5 and batch size 16, from the
    pretrained encoders and freshly initialised head, on the first
    [floor(0.9 n)] training rows; nothing after [fit] changes them.  The
    one validation loss in [history] is the loss of these weights on the
    remaining training rows. *)
Theorem fine_tuning_is_one_epoch (σ : state) :
  run notebook init = Ok σ →
  ∃ X_ids_bert_train X_ids_bert_test X_mask_bert_train X_mask_bert_test
    X_ids_roberta_train X_ids_roberta_test X_mask_roberta_train X_mask_roberta_test
    y_train y_test,
    split = Ok (X_ids_bert_train, X_ids_bert_test,
                (X_mask_bert_train, X_mask_bert_test),
                (X_ids_roberta_train, X_ids_roberta_test),
                (X_mask_roberta_train, X_mask_roberta_test), (y_train, y_test)) ∧
    let n := length X_ids_bert_train in
    let k := Training.split_at n in
    let arrays := [astype_int32 X_ids_bert_train; astype_int32 X_mask_bert_train;
                   astype_int32 X_ids_roberta_train;
                   astype_int32 X_mask_roberta_train] in
    (0 < k < n)%nat ∧
    weights σ
    = train_epoch Ensemble.ensemble_model Training.binary_crossentropy 16
        (map (take k) arrays) (take k y_train) 0 (3 # 100000) (weights init) ∧
    globals σ !! "history"
    = Some (PHistory [evaluate Ensemble.ensemble_model Training.binary_crossentropy
                        (map (drop k) arrays) (drop k y_train) (weights σ)]).
Proof.
  intros Hrun. apply run_notebook_take in Hrun.
  destruct (split_of_run 29 σ ltac:(lia) Hrun)
    as ([[[[[ib_tr ib_te] [mb_tr mb_te]] [ir_tr ir_te]] [mr_tr mr_te]] [y_tr y_te]]
        & Hsplit).
  exists ib_tr, ib_te, mb_tr, mb_te, ir_tr, ir_te, mr_tr, mr_te, y_tr, y_te.
  split; [done|]. intros n k arrays.
  pose proof Hrun as Hrun'. change 29%nat with (20 + 9)%nat in Hrun'.
  rewrite <- take_take_drop in Hrun'. apply run_app in Hrun' as (σ20 & H20 & Hpost).
  pose proof H20 as Hfit.
  apply (run_step 19 SFit) in Hfit as (σ19 & H19 & Hex); [|done].
  rewrite (exec_SFit _ _ _ _ _ _ _ _ _ _ Hsplit σ19 H19) in Hex. cbv zeta in Hex.
  fold n k arrays in Hex. destruct (decide (k = 0%nat ∨ k = n)) as [|Hk]; [done|].
  injection Hex as <-.
  pose proof (split_at_floor n) as Hfloor. fold k in Hfloor.
  assert (Hw19 : weights σ19 = weights init).
  { change (take 19 notebook) with (take 19 notebook ++ []) in H19.
    rewrite app_nil_r in H19. apply run_keeps in H19 as [_ ->]; [done|].
    cbn [take notebook]. intros Hin.
    repeat (apply elem_of_cons in Hin as [Hin|Hin]; [discriminate Hin|]).
    by apply elem_of_nil in Hin. }
  assert (Hfinal : weights σ
                   = train_epoch Ensemble.ensemble_model Training.binary_crossentropy 16
                       (map (take k) arrays) (take k y_tr) 0 (3 # 100000)
                       (weights init)).
  { rewrite (weights_fixed 20 29 _ σ ltac:(lia) H20 Hrun). cbn [weights assign].
    by rewrite Hw19. }
  split_and!; [lia | lia | done |].
  rewrite (run_frame _ _ _ "history" Hpost)
    by (apply (bool_decide_eq_false_1 _); vm_compute; reflexivity).
  cbn [globals assign]. rewrite lookup_insert_eq. do 3 f_equal.
  rewrite Hfinal. by rewrite Hw19.
Qed.


End NotebookFacts.

(** ** The evaluation report *)

Section ReportFacts.

Import Notebook.
Context `{Runtime} `{MLPBackend}.

Lemma ratio_unit (a b : nat) : (a ≤ b)%nat → (0 <= ratio a b <= 1)%Q.
Proof.
  intros Hab. unfold ratio. destruct b as [|b].
  - assert (a = 0%nat) as -> by lia. by cbn.
  - assert (Hb : (0 < inject_Z (Z.of_nat (S b)))%Q).
    { change 0%Q with (inject_Z 0). rewrite <- Zlt_Qlt. lia. }
    split.
    + apply Qle_shift_div_l; [done|]. rewrite Qmult_0_l.
      change 0%Q with (inject_Z 0). rewrite <- Zle_Qle. lia.
    + apply Qle_shift_div_r; [done|]. rewrite Qmult_1_l. rewrite <- Zle_Qle. lia.
Qed.

Lemma ratio_one (a b : nat) : (0 < b)%nat → (ratio a b == 1)%Q ↔ a = b.
Proof.
  intros Hb. unfold ratio.
  assert (Hq : ¬ (inject_Z (Z.of_nat b) == 0)%Q).
  { change 0%Q with (inject_Z 0). rewrite inject_Z_injective. lia. }
  split.
  - intros Heq. apply (Qmult_inj_r _ _ (inject_Z (Z.of_nat b))) in Heq; [|done].
    rewrite Qmult_1_l in Heq. unfold Qdiv in Heq.
    rewrite <- Qmult_assoc, (Qmult_comm (/ _)), Qmult_inv_r, Qmult_1_r in Heq by done.
    rewrite inject_Z_injective in Heq. lia.
  - intros ->. by apply Qmult_inv_r.
Qed.

(** The three counts of the report are taken over disjoint sets of rows. *)
Lemma count_pairs_disjoint (y p : list Z) :
  (count_pairs (λ a b, bool_decide (a = 1%Z) && bool_decide (b = 1%Z)) y p
   + count_pairs (λ a b, negb (bool_decide (a = 1%Z)) && bool_decide (b = 1%Z)) y p
   + count_pairs (λ a b, bool_decide (a = 1%Z) && negb (bool_decide (b = 1%Z))) y p
   ≤ length y)%nat.
Proof.
  unfold count_pairs. revert p. induction y as [|a y IH]; intros p; [cbn; lia|].
  destruct p as [|b p]; [cbn; lia|]. cbn [zip zip_with].
  rewrite !filter_cons. cbn [fst snd length]. specialize (IH p).
  repeat case_decide; repeat case_bool_decide; cbn [length] in *; try done; lia.
Qed.

Lemma count_pairs_all_right (y p : list Z) :
  length y = length p →
  Forall (λ c, c = 0 ∨ c = 1) y → Forall (λ c, c = 0 ∨ c = 1) p →
  (count_pairs (λ a b, negb (bool_decide (a = 1%Z)) && bool_decide (b = 1%Z)) y p = 0
   ∧ count_pairs (λ a b, bool_decide (a = 1%Z) && negb (bool_decide (b = 1%Z))) y p = 0)%nat
  ↔ p = y.
Proof.
  unfold count_pairs. revert p. induction y as [|a y IH]; intros p Hlen Hy Hp.
  - destruct p; [done | discriminate].
  - destruct p as [|b p]; [discriminate|]. cbn [zip zip_with].
    rewrite !filter_cons. cbn [fst snd].
    apply Forall_cons in Hy as [Ha Hy]. apply Forall_cons in Hp as [Hb Hp].
    specialize (IH p ltac:(by injection Hlen) Hy Hp).
    repeat case_decide; repeat case_bool_decide; cbn [length] in *; try done;
      (split;
       [ intros [Hfp Hfn];
         first [ lia | assert (p = y) as -> by (by apply IH); f_equal; lia ]
       | intros [= ? ?]; subst; first [ lia | by apply IH ] ]).
Qed.

(** X22.  The numbers behind lines 158-189.  The four cells of the
    confusion matrix add up to the number of test rows; accuracy,
    precision, recall and F1 all lie between 0 and 1, the range the bar
    plot of line 186 is cut to; and on 0/1 labels the accuracy is 1
    exactly when every prediction equals its label. *)
Theorem report_scores_in_range (σ σ' : state) :
  exec SReport σ = Ok σ' →
  ∃ y p tn fp fn tp acc prec rec f1,
    get_labels σ "y_test" = Ok y ∧ get_labels σ "preds" = Ok p ∧
    length y = length p ∧
    globals σ' !! "cm" = Some (PMatrix tn fp fn tp) ∧
    globals σ' !! "acc" = Some (PScore acc) ∧
    globals σ' !! "prec" = Some (PScore prec) ∧
    globals σ' !! "rec" = Some (PScore rec) ∧
    globals σ' !! "f1" = Some (PScore f1) ∧
    (tn + fp + fn + tp = length y)%nat ∧
    (0 <= acc <= 1)%Q ∧ (0 <= prec <= 1)%Q ∧ (0 <= rec <= 1)%Q ∧ (0 <= f1 <= 1)%Q ∧
    (y ≠ [] → Forall (λ c, c = 0 ∨ c = 1) y → Forall (λ c, c = 0 ∨ c = 1) p →
     (acc == 1)%Q ↔ p = y).
Proof.
  intros Hex. unfold exec in Hex.
  apply bind_Ok in Hex as (y & Hy & Hex). apply bind_Ok in Hex as (p & Hp & Hex).
  destruct (decide (length y = length p)) as [Hlen|]; [|done].
  cbv zeta in Hex. injection Hex as <-.
  pose proof (count_pairs_disjoint y p) as Hsum.
  set (tp := count_pairs (λ a b, bool_decide (a = 1) && bool_decide (b = 1)) y p) in *.
  set (fp := count_pairs (λ a b, negb (bool_decide (a = 1)) && bool_decide (b = 1)) y p)
    in *.
  set (fn := count_pairs (λ a b, bool_decide (a = 1) && negb (bool_decide (b = 1))) y p)
    in *.
  exists y, p, (length y - tp - fp - fn)%nat, fp, fn, tp.
  eexists _, _, _, _. cbn [globals assign].
  repeat first [ rewrite lookup_insert_eq
               | rewrite lookup_insert_ne by (apply String.eqb_neq; reflexivity) ].
  split_and!; try done; try (apply ratio_unit; lia); try lia.
  intros Hne Hy01 Hp01. rewrite ratio_one by (destruct y; [done | cbn; lia]).
  rewrite <- (count_pairs_all_right y p Hlen Hy01 Hp01). fold fp fn. lia.
Qed.

End ReportFacts.

(** ** The inference function *)

Section InferenceFacts.

Import Notebook.
Context `{Runtime} `{MLPBackend}.

Lemma encode_plus_leading_pieces (tok : Tokenize.tokenizer) (max_len : nat)
    (t1 t2 : string) :
  take (max_len - 2) (Tokenize.tokenize tok t1)
  = take (max_len - 2) (Tokenize.tokenize tok t2) →
  Tokenize.encode_plus tok max_len t1 = Tokenize.encode_plus tok max_len t2.
Proof. intros Heq. unfold Tokenize.encode_plus. by rewrite Heq. Qed.

(** X23.  After the run, [predict_sarcasm] sees a text only through the
    first 68 word pieces each tokenizer makes of it: two texts that agree
    on those get the same answer, whatever follows them. *)
Theorem predict_sarcasm_reads_68_pieces (σ : state) (t1 t2 : string) :
  run notebook init = Ok σ →
  take 68 (bert_wordpiece t1) = take 68 (bert_wordpiece t2) →
  take 68 (roberta_bpe t1) = take 68 (roberta_bpe t2) →
  predict_label σ t1 = predict_label σ t2 ∧
  predict_sarcasm σ t1 = predict_sarcasm σ t2.
Proof.
  intros Hrun Hb Hr. apply run_notebook_take in Hrun.
  destruct (bert_tokenizer_bound 29%nat σ ltac:(lia) Hrun) as (v1 & Hv1 & ->).
  destruct (max_seq_length_bound 29%nat σ ltac:(lia) Hrun) as (v2 & Hv2 & ->).
  destruct (roberta_tokenizer_bound 29%nat σ ltac:(lia) Hrun) as (v3 & Hv3 & ->).
  assert (Hlabel : predict_label σ t1 = predict_label σ t2).
  { unfold predict_label, get_tokenizer, get_int, get.
    rewrite Hv1, Hv2, Hv3. cbn [mbind result_bind].
    unfold Tokenize.call. cbn [map].
    rewrite (encode_plus_leading_pieces bert_tokenizer _ t1 t2) by exact Hb.
    by rewrite (encode_plus_leading_pieces roberta_tokenizer _ t1 t2) by exact Hr. }
  split; [done|]. unfold predict_sarcasm. by rewrite Hlabel.
Qed.

(** X24.  The answer of [predict_sarcasm] does not depend on the dense
    head that was trained on top of the embeddings: in a state that binds
    the same globals and holds the same two encoders, any other dense
    weights give the same result. *)
Theorem predict_sarcasm_ignores_head (σ σ' : state) (text : string) :
  run notebook init = Ok σ →
  globals σ' = globals σ →
  Keras.bert_weights (weights σ') = Keras.bert_weights (weights σ) →
  Keras.roberta_weights (weights σ') = Keras.roberta_weights (weights σ) →
  predict_label σ' text = predict_label σ text ∧
  predict_sarcasm σ' text = predict_sarcasm σ text.
Proof.
  intros Hrun Hg Hb Hr. apply run_notebook_take in Hrun.
  destruct (embedding_extractor_bound 29%nat σ ltac:(lia) Hrun) as (v & Hv & ->).
  assert (Hlabel : predict_label σ' text = predict_label σ text).
  { unfold predict_label, get_tokenizer, get_int, get_model, get_classifier, get.
    rewrite Hg.
    destruct (globals σ !! "bert_tokenizer") as [[]|]; try done.
    destruct (globals σ !! "max_seq_length") as [[]|]; try done.
    destruct (globals σ !! "roberta_tokenizer") as [[]|]; try done.
    rewrite Hv. cbn [mbind result_bind].
    by rewrite (predict_extractor_weights (weights σ) (weights σ')). }
  split; [done|]. unfold predict_sarcasm. by rewrite Hlabel.
Qed.

End InferenceFacts.

(** ** The development at a concrete instance *)

Lemma toy_permutation_spec (n : nat) :
  Toy.reversed Split.random_state n ≡ₚ seq 0 n.
Proof. unfold Toy.reversed. apply reverse_Permutation. Qed.

Lemma toy_bert_base : @encoder_contract Toy.transformers 768 TFBertModel.
Proof.
  intros w ids mask.
  cbn [TFBertModel Toy.transformers pooler_output last_hidden_state].
  rewrite length_map. split_and!; [done| |].
  - apply Forall_forall. intros v Hv. apply list_elem_of_fmap in Hv as (r & -> & _).
    apply length_replicate.
  - apply Forall2_fmap_l, Forall_Forall2_diag, Forall_forall. intros row _.
    cbv beta delta [compose]. rewrite length_map. split; [done|].
    apply Forall_forall. intros v Hv. apply list_elem_of_fmap in Hv as (z & -> & _).
    apply length_replicate.
Qed.

Lemma toy_roberta_base : @encoder_contract Toy.transformers 768 TFRobertaModel.
Proof.
  intros w ids mask.
  cbn [TFRobertaModel Toy.transformers pooler_output last_hidden_state].
  rewrite length_map. split_and!; [done| |].
  - apply Forall_forall. intros v Hv. apply list_elem_of_fmap in Hv as (r & -> & _).
    apply length_replicate.
  - apply Forall2_fmap_l, Forall_Forall2_diag, Forall_forall. intros row _.
    cbv beta delta [compose]. rewrite length_map. split; [done|].
    apply Forall_forall. intros v Hv. apply list_elem_of_fmap in Hv as (z & -> & _).
    apply length_replicate.
Qed.

Section Concrete.

#[local] Existing Instance Toy.transformers.
#[local] Existing Instance Toy.runtime.
#[local] Existing Instance Toy.mlp.

Lemma toy_run_completes : returns (Notebook.run Notebook.notebook Notebook.init).
Proof. vm_compute. exact I. Qed.

Lemma toy_run_before_fit :
  returns (Notebook.run (take 19 Notebook.notebook) Notebook.init).
Proof. vm_compute. exact I. Qed.

Lemma toy_labels_binary : Forall (λ c, c = 0 ∨ c = 1) (csv.*2).
Proof. cbn. repeat (constructor; [auto|]). constructor. Qed.

Lemma toy_fused :
  Keras.call true Keras.no_draw Toy.store Toy.feeds Ensemble.combined_embedding
  = Ok (Keras.FloatArray [replicate 768 1%R ++ replicate 768 0%R]).
Proof. vm_compute. reflexivity. Qed.

(** The state just before [fit]: the extraction statement is rejected. *)
Lemma stage2_needs_stage1_witness :
  ∃ σ, Notebook.run (take 19 Notebook.notebook) Notebook.init = Ok σ ∧
       Notebook.exec Notebook.SExtractTrain σ
       = Raise (NameError "embedding_extractor").
Proof.
  destruct (returns_Ok _ toy_run_before_fit) as [σ Hσ]. exists σ.
  split; [exact Hσ|].
  destruct (stage2_needs_stage1 σ) as [_ Hrejected].
  - by exists 19%nat.
  - apply Hrejected. by apply (history_unbound_before_fit 19).
Defined.


Lemma train_test_split_rows_aligned_witness :
  ∃ parts,
    Split.train_test_split Toy.reversed
      [[101; 7; 102]; [101; 8; 102]; [101; 9; 102]; [101; 10; 102]; [101; 11; 102]]
      [[1; 1; 1]; [1; 1; 1]; [1; 1; 1]; [1; 1; 1]; [1; 1; 1]]
      [[0; 7; 2]; [0; 8; 2]; [0; 9; 2]; [0; 10; 2]; [0; 11; 2]]
      [[1; 1; 1]; [1; 1; 1]; [1; 1; 1]; [1; 1; 1]; [1; 1; 1]]
      [1; 0; 1; 0; 1]
    = Ok parts.
Proof.
  destruct (train_test_split_rows_aligned Toy.reversed toy_permutation_spec
              [[101; 7; 102]; [101; 8; 102]; [101; 9; 102]; [101; 10; 102];
               [101; 11; 102]]
              [[1; 1; 1]; [1; 1; 1]; [1; 1; 1]; [1; 1; 1]; [1; 1; 1]]
              [[0; 7; 2]; [0; 8; 2]; [0; 9; 2]; [0; 10; 2]; [0; 11; 2]]
              [[1; 1; 1]; [1; 1; 1]; [1; 1; 1]; [1; 1; 1]; [1; 1; 1]]
              [1; 0; 1; 0; 1] eq_refl eq_refl eq_refl eq_refl ltac:(simpl; lia))
    as (train & test & ? & ? & ? & ? & ? & ? & ? & ? & ? & ? & Hsplit & _).
  eexists. exact Hsplit.
Defined.

Lemma predict_sarcasm_total_witness :
  ∃ σ p,
    Notebook.run Notebook.notebook Notebook.init = Ok σ ∧
    Notebook.predict_label σ "oh great, another meeting" = Ok p ∧ (p = 0 ∨ p = 1).
Proof.
  destruct (returns_Ok _ toy_run_completes) as [σ Hσ].
  destruct (predict_sarcasm_total toy_bert_base toy_roberta_base σ
              "oh great, another meeting" Hσ toy_labels_binary)
    as (p & Hp & Hrange & _).
  exists σ, p. split; [exact Hσ|]. split; [exact Hp | exact Hrange].
Defined.


Lemma head_outputs_probability_witness :
  ∃ probs,
    Keras.call false Keras.no_draw Toy.store Toy.feeds Ensemble.classifier_output
    = Ok (Keras.FloatArray probs) ∧
    Forall (λ row, ∃ p : R, row = [p] ∧ (0 <= p <= 1)%R) probs.
Proof.
  assert (Hfused : Keras.call false Keras.no_draw Toy.store Toy.feeds
                     Ensemble.combined_embedding
                   = Ok (Keras.FloatArray [replicate 768 1%R ++ replicate 768 0%R])).
  { rewrite <- toy_fused. by apply call_no_dropout. }
  pose proof (call_classifier_output_total false Keras.no_draw Toy.store Toy.feeds _
                Hfused) as Hcall.
  specialize (Hcall ltac:(repeat constructor)).
  destruct (head_outputs_probability false Keras.no_draw Toy.store Toy.feeds _ Hcall)
    as (_ & (probs & Hv & Hrange) & _).
  exists probs. split; [by rewrite Hcall, Hv | exact Hrange].
Defined.



End Concrete.

(** ** The further properties on the concrete instance *)

Section ConcreteFurther.

#[local] Existing Instance Toy.transformers.
#[local] Existing Instance Toy.runtime.
#[local] Existing Instance Toy.mlp.

Lemma toy_run_to_report :
  returns (Notebook.run (take 27 Notebook.notebook) Notebook.init).
Proof. vm_compute. exact I. Qed.

Lemma toy_run_to_mlp :
  returns (Notebook.run (take 24 Notebook.notebook) Notebook.init).
Proof. vm_compute. exact I. Qed.

Lemma toy_split :
  Split.train_test_split Toy.reversed
    [[101; 7; 102]; [101; 8; 102]; [101; 9; 102]; [101; 10; 102]; [101; 11; 102]]
    [[1; 1; 1]; [1; 1; 1]; [1; 1; 1]; [1; 1; 1]; [1; 1; 1]]
    [[0; 7; 2]; [0; 8; 2]; [0; 9; 2]; [0; 10; 2]; [0; 11; 2]]
    [[1; 1; 1]; [1; 1; 1]; [1; 1; 1]; [1; 1; 1]; [1; 1; 1]]
    [1; 0; 1; 0; 1]
  = Ok ([[101; 10; 102]; [101; 9; 102]; [101; 8; 102]; [101; 7; 102]],
        [[101; 11; 102]],
        ([[1; 1; 1]; [1; 1; 1]; [1; 1; 1]; [1; 1; 1]], [[1; 1; 1]]),
        ([[0; 10; 2]; [0; 9; 2]; [0; 8; 2]; [0; 7; 2]], [[0; 11; 2]]),
        ([[1; 1; 1]; [1; 1; 1]; [1; 1; 1]; [1; 1; 1]], [[1; 1; 1]]),
        ([0; 1; 0; 1], [1])).
Proof. vm_compute. reflexivity. Qed.

Lemma toy_vocabulary (text : string) :
  Forall (λ z, 0 ≤ z < 2 ^ 31) (Tokenize.tokenize Notebook.bert_tokenizer text).
Proof. cbn. repeat (constructor; [lia|]). constructor. Qed.

Lemma toy_fit :
  returns (Sklearn.fit Sklearn.mlp_clf [[0%R; 1%R]; [1%R; 0%R]] [1; 0]).
Proof. vm_compute. exact I. Qed.



Lemma int32_conversion_keeps_tokens_witness :
  astype_int32 (Tokenize.tokenize_for_model Notebook.bert_tokenizer ["thanks"] 70).1
  = (Tokenize.tokenize_for_model Notebook.bert_tokenizer ["thanks"] 70).1.
Proof.
  destruct (int32_conversion_keeps_tokens Notebook.bert_tokenizer ["thanks"] 70
              toy_vocabulary ltac:(cbn; lia) ltac:(cbn; lia) ltac:(cbn; lia))
    as (Hids & _).
  exact Hids.
Defined.

Lemma train_test_split_sizes_witness :
  Split.n_test_of 5 = 1%nat ∧
  length [[101; 10; 102]; [101; 9; 102]; [101; 8; 102]; [101; 7; 102]]
  = (5 - Split.n_test_of 5)%nat.
Proof.
  destruct (train_test_split_sizes Toy.reversed toy_permutation_spec
              _ _ _ _ _ _ _ _ _ _ _ _ _ _ _ toy_split)
    as (_ & _ & _ & Htrain & _).
  split; [reflexivity | exact Htrain].
Defined.

Lemma train_test_split_keeps_every_row_witness :
  [1] ++ [0; 1; 0; 1] ≡ₚ [1; 0; 1; 0; 1].
Proof.
  destruct (train_test_split_keeps_every_row Toy.reversed toy_permutation_spec
              _ _ _ _ _ _ _ _ _ _ _ _ _ _ _ toy_split)
    as (_ & _ & _ & _ & Hlabels).
  exact Hlabels.
Defined.

Lemma predict_returns_row_per_example_witness :
  ∃ embs,
    Keras.predict Ensemble.embedding_extractor Toy.store
      [replicate 3 (replicate 70 0); replicate 3 (replicate 70 1);
       replicate 3 (replicate 70 1); replicate 3 (replicate 70 1)] 2
    = Ok embs ∧ length embs = 3%nat.
Proof.
  destruct (predict_returns_row_per_example toy_bert_base toy_roberta_base Toy.store
              (replicate 3 (replicate 70 0)) (replicate 3 (replicate 70 1))
              (replicate 3 (replicate 70 1)) (replicate 3 (replicate 70 1)) 2)
    as (embs & Hembs & Hrows & _);
    [ repeat (constructor; [apply Forall_replicate, length_replicate|]); constructor
    | reflexivity | reflexivity | reflexivity | cbn; lia | lia | ].
  exists embs. split; [exact Hembs | exact Hrows].
Defined.

Lemma learning_rate_only_halves_witness :
  (0 < Training.learning_rate
         (Training.fit Toy.count_epoch Toy.loss_after 0%nat (3 # 100000) 10
            [Training.CReduceLR Training.lr_scheduler;
             Training.CEarlyStopping Training.early_stopper])
   <= 3 # 100000)%Q.
Proof.
  destruct (learning_rate_only_halves Toy.count_epoch Toy.loss_after 0%nat
              (3 # 100000) 10 ltac:(reflexivity)) as [Hrange _].
  exact Hrange.
Defined.

Lemma mlp_solver_passes_witness :
  ∃ clf f,
    Sklearn.fit Sklearn.mlp_clf [[0%R; 1%R]; [1%R; 0%R]] [1; 0] = Ok clf ∧
    Sklearn.state clf = Some f ∧
    (12 ≤ Sklearn.n_iter_ f ≤ 1000)%nat.
Proof.
  destruct (returns_Ok _ toy_fit) as [clf Hfit].
  destruct (fit_inv _ _ _ _ Hfit)
    as (x0 & X0 & f & _ & _ & _ & _ & _ & _ & Hst & _).
  destruct (mlp_solver_passes _ _ _ _ f Hfit Hst) as (_ & Hpasses & _).
  exists clf, f. split; [exact Hfit|]. split; [exact Hst | exact Hpasses].
Defined.


Lemma report_scores_in_range_witness :
  ∃ σ σ' y tn fp fn tp,
    Notebook.exec Notebook.SReport σ = Ok σ' ∧
    Notebook.get_labels σ "y_test" = Ok y ∧
    Notebook.globals σ' !! "cm" = Some (Notebook.PMatrix tn fp fn tp) ∧
    (tn + fp + fn + tp = length y)%nat.
Proof.
  destruct (returns_Ok _ toy_run_to_report) as [σ' Hσ'].
  destruct (run_step 26 Notebook.SReport σ' eq_refl Hσ') as (σ & Hσ & Hex).
  destruct (report_scores_in_range σ σ' Hex)
    as (y & p & tn & fp & fn & tp & acc & prec & rec & f1 & Hy & _ & _ & Hcm & _ & _
        & _ & _ & Hsum & _).
  exists σ, σ', y, tn, fp, fn, tp.
  split; [exact Hex|]. split; [exact Hy|]. split; [exact Hcm | exact Hsum].
Defined.

Lemma predict_sarcasm_reads_68_pieces_witness :
  ∃ σ,
    Notebook.run Notebook.notebook Notebook.init = Ok σ ∧
    Notebook.predict_sarcasm σ "oh great, another meeting"
    = Notebook.predict_sarcasm σ "oh great, another meeting, and then some".
Proof.
  destruct (returns_Ok _ toy_run_completes) as [σ Hσ].
  destruct (predict_sarcasm_reads_68_pieces σ "oh great, another meeting"
              "oh great, another meeting, and then some" Hσ eq_refl eq_refl)
    as [_ Hsame].
  exists σ. split; [exact Hσ | exact Hsame].
Defined.

Lemma predict_sarcasm_ignores_head_witness :
  ∃ σ,
    Notebook.run Notebook.notebook Notebook.init = Ok σ ∧
    Notebook.predict_sarcasm
      {| Notebook.globals := Notebook.globals σ;
         Notebook.weights := Ensemble.summing_store;
         Notebook.compiled := None |} "thanks"
    = Notebook.predict_sarcasm σ "thanks".
Proof.
  destruct (returns_Ok _ toy_run_completes) as [σ Hσ].
  destruct (predict_sarcasm_ignores_head σ
              {| Notebook.globals := Notebook.globals σ;
                 Notebook.weights := Ensemble.summing_store;
                 Notebook.compiled := None |}
              "thanks" Hσ eq_refl) as [_ Hsame].
  - by destruct (Keras.bert_weights (Notebook.weights σ)).
  - by destruct (Keras.roberta_weights (Notebook.weights σ)).
  - exists σ. split; [exact Hσ | exact Hsame].
Defined.

Lemma mlp_is_fitted_on_training_parts_witness :
  ∃ σ clf preds,
    Notebook.run Notebook.notebook Notebook.init = Ok σ ∧
    Notebook.globals σ !! "mlp_clf" = Some (Notebook.PClassifier clf) ∧
    Notebook.globals σ !! "preds" = Some (Notebook.PLabels preds).
Proof.
  destruct (returns_Ok _ toy_run_completes) as [σ Hσ].
  destruct (mlp_is_fitted_on_training_parts σ Hσ)
    as (? & ? & ? & ? & ? & ? & ? & ? & ? & ? & ? & ? & clf & preds
        & _ & _ & _ & Hclf & _ & _ & Hpreds & _).
  exists σ, clf, preds. split; [exact Hσ|]. split; [exact Hclf | exact Hpreds].
Defined.

Lemma notebook_runs_on_three_rows_witness :
  ∃ σ preds,
    Notebook.run (take 26 Notebook.notebook) Notebook.init = Ok σ ∧
    Notebook.globals σ !! "preds" = Some (Notebook.PLabels preds) ∧
    length preds = 1%nat.
Proof.
  destruct (@notebook_runs_on_three_rows Toy.transformers Toy.runtime Toy.mlp
              toy_bert_base toy_roberta_base toy_permutation_spec ltac:(cbn; lia))
    as (σ & preds & Hσ & Hpreds & Hlen & _).
  exists σ, preds. split; [exact Hσ|]. split; [exact Hpreds | exact Hlen].
Defined.

Lemma fine_tuning_is_one_epoch_witness :
  ∃ σ loss,
    Notebook.run Notebook.notebook Notebook.init = Ok σ ∧
    Notebook.globals σ !! "history" = Some (Notebook.PHistory [loss]).
Proof.
  destruct (returns_Ok _ toy_run_completes) as [σ Hσ].
  destruct (fine_tuning_is_one_epoch σ Hσ)
    as (? & ? & ? & ? & ? & ? & ? & ? & ? & ? & _ & _ & _ & Hhistory).
  exists σ. eexists. split; [exact Hσ | exact Hhistory].
Defined.

Lemma unfitted_classifier_raises_witness :
  ∃ σ,
    Notebook.run (take 24 Notebook.notebook) Notebook.init = Ok σ ∧
    Notebook.predict_sarcasm σ "thanks" = Raise NotFittedError.
Proof.
  destruct (returns_Ok _ toy_run_to_mlp) as [σ Hσ].
  destruct (unfitted_classifier_raises toy_bert_base toy_roberta_base σ "thanks" Hσ)
    as (_ & _ & Hraises).
  exists σ. split; [exact Hσ | exact Hraises].
Defined.

Lemma mlp_thresholds_at_half_witness :
  ∃ clf f,
    Sklearn.fit Sklearn.mlp_clf [[0%R; 1%R]; [1%R; 0%R]] [1; 0] = Ok clf ∧
    Sklearn.state clf = Some f ∧
    Sklearn.predict clf [[1%R; 1%R]]
    = Ok [if Rlt_dec (1 / 2) (forward_pass (Sklearn.coefs_ f) [1%R; 1%R] 0%nat)
          then 1 else 0].
Proof.
  destruct (returns_Ok _ toy_fit) as [clf Hfit].
  destruct (fit_inv _ _ _ _ Hfit)
    as (x0 & X0 & f & [= <- <-] & _ & _ & _ & _ & _ & Hst & _ & Hnf & _).
  destruct (mlp_thresholds_at_half _ _ _ _ f [1%R; 1%R] Hfit Hst) as [_ Hpred].
  - repeat (constructor; [auto|]). constructor.
  - right. left.
  - left.
  - by rewrite Hnf.
  - exists clf, f. split; [exact Hfit|]. split; [exact Hst | exact Hpred].
Defined.


Lemma train_test_split_rejects_witness :
  Split.train_test_split Toy.reversed [7; 8] [1] [2; 3] [4; 5] [0; 1]
  = Raise (ValueError "Found input variables with inconsistent numbers of samples") ∧
  Split.train_test_split Toy.reversed [7] [1] [2] [4] [0]
  = Raise (ValueError "the resulting train set will be empty").
Proof.
  split.
  - apply (train_test_split_rejects Toy.reversed [7; 8] [1] [2; 3] [4; 5] [0; 1]).
    cbn. lia.
  - apply (train_test_split_rejects Toy.reversed [7] [1] [2] [4] [0]);
      cbn; lia.
Defined.

Lemma extractor_rejects_malformed_inputs_witness :
  Keras.model_call Ensemble.embedding_extractor false Keras.no_draw Toy.store
    [[[101; 102]]; [[1; 1]]; [[0; 2]]]
  = Raise (ValueError "wrong number of input arrays") ∧
  Keras.model_call Ensemble.embedding_extractor false Keras.no_draw Toy.store
    [[[101; 102]]; [[1; 1]]; [[0; 2]]; [[1; 1]]]
  = Raise (ValueError "input is incompatible with the layer").
Proof.
  split.
  - apply (extractor_rejects_malformed_inputs false Keras.no_draw Toy.store
             [[[101; 102]]; [[1; 1]]; [[0; 2]]]).
    cbn. lia.
  - apply (extractor_rejects_malformed_inputs false Keras.no_draw Toy.store
             [[[101; 102]]; [[1; 1]]; [[0; 2]]; [[1; 1]]]); [reflexivity|].
    intros Hall. apply Forall_cons in Hall as [Hrow _].
    apply Forall_cons in Hrow as [Hlen _]. vm_compute in Hlen. lia.
Defined.



End ConcreteFurther.

Section ConcreteTiny.

#[local] Existing Instance Toy.transformers.
#[local] Existing Instance Tiny.runtime.
#[local] Existing Instance Toy.mlp.

Lemma notebook_rejects_tiny_datasets_witness :
  Notebook.run Notebook.notebook Notebook.init
  = Raise (ValueError "not sufficient to split into a validation and training set").
Proof.
  apply (@notebook_rejects_tiny_datasets Toy.transformers Tiny.runtime Toy.mlp
           toy_permutation_spec).
  cbn. lia.
Defined.

Lemma notebook_raises_only_data_errors_witness :
  Notebook.run (take 20 Notebook.notebook) Notebook.init
  = Raise (ValueError "not sufficient to split into a validation and training set") ∧
  data_error (ValueError "not sufficient to split into a validation and training set").
Proof.
  assert (Notebook.run (take 20 Notebook.notebook) Notebook.init
          = Raise (ValueError "not sufficient to split into a validation and training set"))
    as Hrun by (vm_compute; reflexivity).
  split; [exact Hrun|].
  exact (@notebook_raises_only_data_errors Toy.transformers Tiny.runtime Toy.mlp 20 _ Hrun).
Defined.

End ConcreteTiny.
